(** * Thorlabs CHROLIS device adapter: hub, shutter and LED state device

    A shallow embedding of
    [DeviceAdapters/ThorlabsCHROLIS/ThorlabsChrolis.cpp]:
    the bit codec of the six LED enable flags, the status polling thread
    of the hub, the two callback slots, and the property handlers of the
    shutter and of the LED state device.

    Machine integers are [Z] with their wrap-around written out, the
    C++ objects are fields of one [World] record threaded by a state
    monad, and everything the adapter does to its surroundings (log lines,
    [OnPropertyChanged] notifications, calls on the instrument wrapper,
    sleeps) is appended to the world's list of events, in program order. *)

From Stdlib Require Import ZArith List String Ascii Bool Lia DecimalString.
Import ListNotations.
Local Open Scope string_scope.
Local Open Scope list_scope.
Local Open Scope Z_scope.

(** ** Machine integers and arrays *)

Definition to_uint8 (x : Z) : Z := x mod 2 ^ 8.
Definition to_uint16 (x : Z) : Z := x mod 2 ^ 16.

(** [ViBoolean] is the VISA 16-bit unsigned boolean, [VI_FALSE] its zero. *)
Definition ViBoolean : Type := Z.
Definition VI_FALSE : ViBoolean := 0.

(** [NUM_LEDS] comes from the adapter's header; the source spells the
    same number out at lines 159-162 and 312-317. *)
Definition NUM_LEDS : nat := 6.

(** Framework constants of MMDevice. *)
Definition DEVICE_OK : Z := 0.
Definition DEVICE_ERR : Z := 1.
Definition g_Keyword_State : string := "State".

(** [a[i] = v] on a [std::array]; the adapter only indexes below
    [NUM_LEDS], an index past the end leaves the array alone here. *)
Fixpoint array_set {A : Type} (a : list A) (i : nat) (v : A) : list A :=
  match a, i with
  | [], _ => []
  | _ :: t, O => v :: t
  | h :: t, S j => h :: array_set t j v
  end.

(** ** Bitmask codec (source lines 61-78) *)

(** One turn of the loop of [EncodeLEDStatesInBits]:
    [state = states[i] != VI_FALSE; ret |= (uint8_t)((int)state << i)]. *)
Definition encode_step (states : list ViBoolean) (ret : Z) (i : nat) : Z :=
  let state := negb (nth i states 0 =? VI_FALSE) in
  to_uint8 (Z.lor ret (to_uint8 (Z.shiftl (Z.b2z state) (Z.of_nat i)))).

Definition EncodeLEDStatesInBits (states : list ViBoolean) : Z :=
  fold_left (encode_step states) (seq 0 NUM_LEDS) 0.

(** One turn of the loop of [DecodeLEDStatesFromBits]:
    [ret[i] = ((bits & (1 << i)) != 0)]. *)
Definition decode_step (bits : Z) (ret : list ViBoolean) (i : nat)
  : list ViBoolean :=
  array_set ret i
    (Z.b2z (negb (Z.land bits (Z.shiftl 1 (Z.of_nat i)) =? 0))).

Definition DecodeLEDStatesFromBits (bits : Z) : list ViBoolean :=
  fold_left (decode_step bits) (seq 0 NUM_LEDS) (repeat 0 NUM_LEDS).

(** A canonical boolean is [VI_FALSE] or [VI_TRUE]. *)
Definition canonical (b : ViBoolean) : Prop := b = 0 \/ b = 1.

(** What [states[i] != VI_FALSE] makes of an arbitrary [ViBoolean]. *)
Definition normalize (b : ViBoolean) : ViBoolean :=
  Z.b2z (negb (b =? VI_FALSE)).

(** ** Output streams and C strings *)

Definition string_of_Z (z : Z) : string :=
  NilZero.string_of_int (Z.to_int z).

(** [std::to_string] on an integer. *)
Definition to_string (z : Z) : string := string_of_Z z.

(** [os << v] for [v] of type [long], [int] or [ViUInt16]: the decimal
    numeral. *)
Definition stream_num (os : string) (v : Z) : string :=
  append os (string_of_Z v).

(** [os << c] for [c] of type [uint8_t]: [std::uint8_t] is
    [unsigned char], and the stream inserts the character with that
    code, not a numeral. *)
Definition stream_uint8 (os : string) (c : Z) : string :=
  append os (String (ascii_of_N (Z.to_N c)) EmptyString).

(** [s.c_str()] as the callee reads it: up to the first NUL. *)
Fixpoint c_str (s : string) : string :=
  match s with
  | EmptyString => EmptyString
  | String c t =>
      if Ascii.eqb c zero then EmptyString else String c (c_str t)
  end.

(** [hay] contains [needle]. *)
Definition contains (hay needle : string) : Prop :=
  exists pre post, hay = append pre (append needle post).

(** ** Status decoding (source lines 235-297)

    The message the polling thread builds from a status code. *)

Definition status_bit (curStatus k : Z) : bool :=
  Z.land curStatus (Z.shiftl 1 k) >=? 1.

(** [if ((curStatus & (1 << k)) >= 1) { if (message.length() > 0)
    message += ", "; message += text; }] *)
Definition add_condition (curStatus k : Z) (text message : string)
  : string :=
  if status_bit curStatus k then
    append
      (if (0 <? String.length message)%nat then append message ", "
       else message)
      text
  else message.

Definition decodeStatus (curStatus : Z) : string :=
  let message := EmptyString in
  if curStatus =? 0 then append message "No Error"
  else
    let message :=
      if status_bit curStatus 0 then append message "Box is Open"
      else message in
    let message := add_condition curStatus 1 "LLG not Connected" message in
    let message := add_condition curStatus 2 "Interlock is Open" message in
    let message :=
      add_condition curStatus 3 "Using Default Adjustment" message in
    let message := add_condition curStatus 4 "Box Overheated" message in
    let message := add_condition curStatus 5 "LED Overheated" message in
    let message := add_condition curStatus 6 "Invalid Box Setup" message in
    if (String.length message =? 0)%nat then "Unknown Status" else message.

(** ** Observable effects *)

(** The calls the adapter makes on the instrument wrapper
    ([ChrolisDevice]), with the arguments it passes. *)
Inductive FacadeCall : Type :=
| CallIsDeviceConnected
| CallShutdownDevice
| CallGetDeviceStatus
| CallVerifyLEDEnableStatesWithLock
| CallGetLEDEnableStates
| CallSetLEDEnableStates (states : list ViBoolean)
| CallGetSingleLEDEnableState (led : nat)
| CallSetSingleLEDEnableState (led : nat) (state : ViBoolean)
| CallGetSingleLEDBrightnessState (led : nat)
| CallSetSingleLEDBrightnessState (led : nat) (brightness : Z)
| CallGetShutterState
| CallSetShutterState (open : bool).

Inductive Event : Type :=
| EvLog (msg : string)
| EvPropertyChanged (name value : string)
| EvFacade (c : FacadeCall)
| EvSleep (ms : Z).

(** Whether a call changes the instrument. *)
Definition is_write (c : FacadeCall) : bool :=
  match c with
  | CallSetLEDEnableStates _
  | CallSetSingleLEDEnableState _ _
  | CallSetSingleLEDBrightnessState _ _
  | CallSetShutterState _ => true
  | _ => false
  end.

Definition is_hardware_write (e : Event) : bool :=
  match e with EvFacade c => is_write c | _ => false end.

Definition is_hardware_call (e : Event) : bool :=
  match e with EvFacade _ => true | _ => false end.

Definition is_property_changed (e : Event) : bool :=
  match e with EvPropertyChanged _ _ => true | _ => false end.

(** A [std::function<void(int, int)>] of a callback slot, as the effects
    an invocation has: the handlers of this adapter only notify. *)
Definition Callback : Type := Z -> Z -> list Event.

(** [[](int, int) {}], the handler both [Shutdown]s install. *)
Definition noop_callback : Callback := fun _ _ => [].

(** ** The instrument wrapper and the error codes

    The wrapper class behind [pHub->ChrolisDevice] is declared in a
    header that is not among the sources, so it is a parameter of the
    development.  Each call is an arbitrary transition of an abstract
    instrument state [HW]; a read takes the present content of its
    out-parameter and returns the error code together with the content
    on return, so nothing is assumed about what a failed read leaves
    there. *)
Class DeviceFacade (HW : Type) : Type := {
  facade_IsDeviceConnected : HW -> bool * HW;
  facade_ShutdownDevice : HW -> Z * HW;
  facade_GetDeviceStatus : Z -> HW -> Z * Z * HW;
  facade_VerifyLEDEnableStatesWithLock : HW -> HW;
  facade_GetLEDEnableStates :
    list ViBoolean -> HW -> Z * list ViBoolean * HW;
  facade_SetLEDEnableStates : list ViBoolean -> HW -> Z * HW;
  facade_GetSingleLEDEnableState :
    nat -> ViBoolean -> HW -> Z * ViBoolean * HW;
  facade_SetSingleLEDEnableState : nat -> ViBoolean -> HW -> Z * HW;
  facade_GetSingleLEDBrightnessState : nat -> Z -> HW -> Z * Z * HW;
  facade_SetSingleLEDBrightnessState : nat -> Z -> HW -> Z * HW;
  facade_GetShutterState : bool -> HW -> Z * bool * HW;
  facade_SetShutterState : bool -> HW -> Z * HW
}.

(** Modelled from the spec: the wrapper's reads, whose code is not among
    the sources, are [value | error] in the spec's Device Facade
    contract; a read that fails delivers nothing, so the out-parameter
    keeps its content. *)
Definition reads_retain_on_failure {HW : Type} (dev : DeviceFacade HW)
  : Prop :=
  (forall out h, fst (fst (facade_GetLEDEnableStates out h)) <> 0 ->
     snd (fst (facade_GetLEDEnableStates out h)) = out) /\
  (forall i out h, fst (fst (facade_GetSingleLEDEnableState i out h)) <> 0 ->
     snd (fst (facade_GetSingleLEDEnableState i out h)) = out) /\
  (forall i out h,
     fst (fst (facade_GetSingleLEDBrightnessState i out h)) <> 0 ->
     snd (fst (facade_GetSingleLEDBrightnessState i out h)) = out).

(** The adapter's own error codes, [#define]d in the same header; their
    values are left open. *)
Class ErrorCodes : Type := {
  ERR_HUB_NOT_AVAILABLE : Z;
  ERR_CHROLIS_NOT_AVAIL : Z;
  ERR_PARAM_NOT_VALID : Z
}.

(** A property as a handler sees it through [MM::PropertyBase]. *)
Record Property : Type := mkProperty {
  GetName : string;
  Get : Z
}.

Definition Set_ (pProp : Property) (v : Z) : Property :=
  mkProperty (GetName pProp) v.

Inductive ActionType : Type :=
| NoAction | BeforeGet | AfterSet | OtherAction.

(** ** The world and its monad *)

Section Adapter.

Context {HW : Type} {dev : DeviceFacade HW} {codes : ErrorCodes}.

(** The hub (with the instrument behind its [ChrolisDevice]), the
    state device's last-known cells and the effects so far.
    [hasParentHub] is whether [GetParentHub()] yields a hub. *)
Record World : Type := mkWorld {
  ChrolisDevice : HW;
  hasParentHub : bool;
  threadRunning_ : bool;
  currentDeviceStatusCode_ : Z;
  shutterCallback_ : Callback;
  stateCallback_ : Callback;
  ledStates_ : list ViBoolean;
  ledBrightnesses_ : list Z;
  events : list Event
}.

Definition set_ChrolisDevice (h : HW) (w : World) : World :=
  mkWorld h (hasParentHub w) (threadRunning_ w)
    (currentDeviceStatusCode_ w) (shutterCallback_ w) (stateCallback_ w)
    (ledStates_ w) (ledBrightnesses_ w) (events w).

Definition set_threadRunning_ (b : bool) (w : World) : World :=
  mkWorld (ChrolisDevice w) (hasParentHub w) b
    (currentDeviceStatusCode_ w) (shutterCallback_ w) (stateCallback_ w)
    (ledStates_ w) (ledBrightnesses_ w) (events w).

Definition set_currentDeviceStatusCode_ (c : Z) (w : World) : World :=
  mkWorld (ChrolisDevice w) (hasParentHub w) (threadRunning_ w)
    c (shutterCallback_ w) (stateCallback_ w)
    (ledStates_ w) (ledBrightnesses_ w) (events w).

Definition set_shutterCallback_ (f : Callback) (w : World) : World :=
  mkWorld (ChrolisDevice w) (hasParentHub w) (threadRunning_ w)
    (currentDeviceStatusCode_ w) f (stateCallback_ w)
    (ledStates_ w) (ledBrightnesses_ w) (events w).

Definition set_stateCallback_ (f : Callback) (w : World) : World :=
  mkWorld (ChrolisDevice w) (hasParentHub w) (threadRunning_ w)
    (currentDeviceStatusCode_ w) (shutterCallback_ w) f
    (ledStates_ w) (ledBrightnesses_ w) (events w).

Definition set_ledStates_ (s : list ViBoolean) (w : World) : World :=
  mkWorld (ChrolisDevice w) (hasParentHub w) (threadRunning_ w)
    (currentDeviceStatusCode_ w) (shutterCallback_ w) (stateCallback_ w)
    s (ledBrightnesses_ w) (events w).

Definition set_ledBrightnesses_ (b : list Z) (w : World) : World :=
  mkWorld (ChrolisDevice w) (hasParentHub w) (threadRunning_ w)
    (currentDeviceStatusCode_ w) (shutterCallback_ w) (stateCallback_ w)
    (ledStates_ w) b (events w).

Definition add_events (es : list Event) (w : World) : World :=
  mkWorld (ChrolisDevice w) (hasParentHub w) (threadRunning_ w)
    (currentDeviceStatusCode_ w) (shutterCallback_ w) (stateCallback_ w)
    (ledStates_ w) (ledBrightnesses_ w) (events w ++ es).

Definition M (A : Type) : Type := World -> A * World.

Definition ret {A : Type} (a : A) : M A := fun w => (a, w).

Definition bind {A B : Type} (m : M A) (k : A -> M B) : M B :=
  fun w => let (a, w') := m w in k a w'.

Notation "x <- m ;; k" := (bind m (fun x => k))
  (at level 61, m at next level, right associativity).
Notation "' pat <- m ;; k" :=
  (bind m (fun x => match x with pat => k end))
  (at level 61, pat pattern, m at next level, right associativity).
Notation "m ;; k" := (bind m (fun _ => k))
  (at level 61, right associativity).

Definition gets {A : Type} (f : World -> A) : M A := fun w => (f w, w).
Definition modify (f : World -> World) : M unit := fun w => (tt, f w).
Definition when (b : bool) (m : M unit) : M unit :=
  if b then m else ret tt.

Definition emit (es : list Event) : M unit := modify (add_events es).

(** Framework services. *)
Definition LogMessage (msg : string) : M unit := emit [EvLog msg].
Definition OnPropertyChanged (name value : string) : M unit :=
  emit [EvPropertyChanged (c_str name) (c_str value)].
Definition Sleep (ms : Z) : M unit := emit [EvSleep ms].
Definition GetParentHub : M bool := gets hasParentHub.

(** Calls on [ChrolisDevice]: each is recorded and moves the
    instrument. *)
Definition facade_call {R : Type} (c : FacadeCall) (op : HW -> R * HW)
  : M R :=
  fun w =>
    let (r, h) := op (ChrolisDevice w) in
    (r, add_events [EvFacade c] (set_ChrolisDevice h w)).

Definition IsDeviceConnected : M bool :=
  facade_call CallIsDeviceConnected facade_IsDeviceConnected.
Definition ShutdownDevice : M Z :=
  facade_call CallShutdownDevice facade_ShutdownDevice.
Definition GetDeviceStatus (status : Z) : M (Z * Z) :=
  facade_call CallGetDeviceStatus (facade_GetDeviceStatus status).
Definition VerifyLEDEnableStatesWithLock : M unit :=
  facade_call CallVerifyLEDEnableStatesWithLock
    (fun h => (tt, facade_VerifyLEDEnableStatesWithLock h)).
Definition GetLEDEnableStates (states : list ViBoolean)
  : M (Z * list ViBoolean) :=
  facade_call CallGetLEDEnableStates (facade_GetLEDEnableStates states).
Definition SetLEDEnableStates (states : list ViBoolean) : M Z :=
  facade_call (CallSetLEDEnableStates states)
    (facade_SetLEDEnableStates states).
Definition GetSingleLEDEnableState (led : nat) (state : ViBoolean)
  : M (Z * ViBoolean) :=
  facade_call (CallGetSingleLEDEnableState led)
    (facade_GetSingleLEDEnableState led state).
Definition SetSingleLEDEnableState (led : nat) (state : ViBoolean) : M Z :=
  facade_call (CallSetSingleLEDEnableState led state)
    (facade_SetSingleLEDEnableState led state).
Definition GetSingleLEDBrightnessState (led : nat) (b : Z) : M (Z * Z) :=
  facade_call (CallGetSingleLEDBrightnessState led)
    (facade_GetSingleLEDBrightnessState led b).
Definition SetSingleLEDBrightnessState (led : nat) (b : Z) : M Z :=
  facade_call (CallSetSingleLEDBrightnessState led b)
    (facade_SetSingleLEDBrightnessState led b).
Definition GetShutterState (open : bool) : M (Z * bool) :=
  facade_call CallGetShutterState (facade_GetShutterState open).
Definition SetShutterState (open : bool) : M Z :=
  facade_call (CallSetShutterState open) (facade_SetShutterState open).

(** Reads whose out-parameter is a member of the state device:
    [GetLEDEnableStates(ledStates_)] and the single-LED reads through
    [*ledBeingControlled]. *)
Definition GetLEDEnableStates_member : M Z :=
  states <- gets ledStates_ ;;
  '(err, states') <- GetLEDEnableStates states ;;
  modify (set_ledStates_ states') ;;
  ret err.

Definition GetSingleLEDEnableState_member (ledIndex : nat) : M Z :=
  states <- gets ledStates_ ;;
  '(err, v) <- GetSingleLEDEnableState ledIndex (nth ledIndex states 0) ;;
  modify (set_ledStates_ (array_set states ledIndex v)) ;;
  ret err.

Definition GetSingleLEDBrightnessState_member (ledIndex : nat) : M Z :=
  bs <- gets ledBrightnesses_ ;;
  '(err, v) <- GetSingleLEDBrightnessState ledIndex (nth ledIndex bs 0) ;;
  modify (set_ledBrightnesses_ (array_set bs ledIndex v)) ;;
  ret err.

(** ** ChrolisHub *)

(** [stateCallback_(ledNum, state)]: runs whatever handler is in the
    slot, on the polling thread. *)
Definition invoke_stateCallback_ (ledNum state : Z) : M unit :=
  f <- gets stateCallback_ ;;
  emit (f ledNum state).

(** Lines 327-335. *)
Definition SetShutterCallback (function : Callback) : M unit :=
  modify (set_shutterCallback_ function).

Definition SetStateCallback (function : Callback) : M unit :=
  modify (set_stateCallback_ function).

(** How one turn of the [while] of the polling thread ends. *)
Inductive LoopExit : Type := NextIteration | ThreadReturns.

(** Lines 302-318: the body of [if (statusChanged) if (curStatus != 0)]. *)
Definition push_enable_states : M unit :=
  let tempEnableStates := repeat 0 NUM_LEDS in
  VerifyLEDEnableStatesWithLock ;;
  '(err, tempEnableStates) <- GetLEDEnableStates tempEnableStates ;;
  if negb (err =? 0) then LogMessage "Error getting info from chrolis"
  else
    invoke_stateCallback_ 0 (EncodeLEDStatesInBits tempEnableStates) ;;
    invoke_stateCallback_ 1 (nth 0 tempEnableStates 0) ;;
    invoke_stateCallback_ 2 (nth 1 tempEnableStates 0) ;;
    invoke_stateCallback_ 3 (nth 2 tempEnableStates 0) ;;
    invoke_stateCallback_ 4 (nth 3 tempEnableStates 0) ;;
    invoke_stateCallback_ 5 (nth 4 tempEnableStates 0) ;;
    invoke_stateCallback_ 6 (nth 5 tempEnableStates 0).

(** Lines 222-323: one turn of the loop, after [threadRunning_] was
    found set.  [tempStatus] is the thread's local, kept from turn to
    turn; [curStatus] is what [currentDeviceStatusCode_] held before
    this turn stored the code it read. *)
Definition poll_iteration (tempStatus : Z) : M (LoopExit * Z) :=
  connected <- IsDeviceConnected ;;
  if connected then
    '(err, tempStatus) <- GetDeviceStatus tempStatus ;;
    if negb (err =? 0) then
      LogMessage "Error Getting Status" ;;
      modify (set_threadRunning_ false) ;;
      ret (ThreadReturns, tempStatus)
    else
      curStatus <- gets currentDeviceStatusCode_ ;;
      let statusChanged := negb (curStatus =? tempStatus) in
      modify (set_currentDeviceStatusCode_ tempStatus) ;;
      let message := decodeStatus curStatus in
      when statusChanged
        (when (negb (curStatus =? 0)) push_enable_states) ;;
      OnPropertyChanged "Device Status" message ;;
      Sleep 500 ;;
      ret (NextIteration, tempStatus)
  else
    Sleep 500 ;;
    ret (NextIteration, tempStatus).

(** Lines 216-325, for at most [fuel] turns of the loop. *)
Fixpoint polling_loop (fuel : nat) (tempStatus : Z) : M unit :=
  match fuel with
  | O => ret tt
  | S fuel' =>
      running <- gets threadRunning_ ;;
      if running then
        '(exit, tempStatus) <- poll_iteration tempStatus ;;
        match exit with
        | NextIteration => polling_loop fuel' tempStatus
        | ThreadReturns => ret tt
        end
      else ret tt
  end.

Definition StatusChangedPollingThread (fuel : nat) : M unit :=
  polling_loop fuel 0.

(** Lines 186-204.  [updateThread_.join()] has nothing to wait for
    here: the turns of the thread are run by [polling_loop], one
    thread of control at a time. *)
Definition ChrolisHub_Shutdown : M Z :=
  running <- gets threadRunning_ ;;
  when running (modify (set_threadRunning_ false)) ;;
  connected <- IsDeviceConnected ;;
  if connected then
    err <- ShutdownDevice ;;
    if negb (err =? 0) then
      LogMessage "Error shutting down device" ;;
      ret DEVICE_ERR
    else ret DEVICE_OK
  else ret DEVICE_OK.

(** Lines 211-214. *)
Definition ChrolisHub_Busy : M bool := ret false.

(** ** ChrolisShutter *)

(** The lambda of lines 366-371: both arguments are cast to [void]. *)
Definition shutter_handler : Callback := fun ledNum state => [].

(** Lines 347-374. *)
Definition ChrolisShutter_Initialize : M Z :=
  pHub <- GetParentHub ;;
  if negb pHub then
    LogMessage "No Hub" ;;
    ret ERR_HUB_NOT_AVAILABLE
  else
    connected <- IsDeviceConnected ;;
    when connected
      (err <- SetShutterState false ;;
       when (negb (err =? 0)) (LogMessage "Could not close shutter on init")) ;;
    SetShutterCallback shutter_handler ;;
    ret DEVICE_OK.

(** Lines 376-384. *)
Definition ChrolisShutter_Shutdown : M Z :=
  pHub <- GetParentHub ;;
  when pHub (SetShutterCallback noop_callback) ;;
  ret DEVICE_OK.

(** Lines 396-417. *)
Definition SetOpen (open : bool) : M Z :=
  pHub <- GetParentHub ;;
  if negb pHub then
    LogMessage "Hub not available" ;;
    ret ERR_HUB_NOT_AVAILABLE
  else
    connected <- IsDeviceConnected ;;
    if negb connected then
      LogMessage "CHROLIS not available" ;;
      ret ERR_CHROLIS_NOT_AVAIL
    else
      err <- SetShutterState open ;;
      if negb (err =? 0) then
        LogMessage "Error setting shutter state" ;;
        ret err
      else ret DEVICE_OK.

(** Lines 419-434; the result carries the caller's [open] on return. *)
Definition GetOpen (open : bool) : M (Z * bool) :=
  pHub <- GetParentHub ;;
  if negb pHub then
    LogMessage "Hub not available" ;;
    ret (ERR_HUB_NOT_AVAILABLE, open)
  else
    connected <- IsDeviceConnected ;;
    if negb connected then
      LogMessage "CHROLIS not available" ;;
      ret (ERR_CHROLIS_NOT_AVAIL, open)
    else
      '(_, open) <- GetShutterState open ;;
      ret (DEVICE_OK, open).

(** ** ChrolisStateDevice *)

(** The lambda of lines 456-477.  The streamed operand is the [int]
    [ledNum == 0 ? state : (ViBoolean)state]. *)
Definition state_handler : Callback := fun ledNum state =>
  let os :=
    stream_num EmptyString
      (if ledNum =? 0 then state else to_uint16 state) in
  if ledNum =? 0 then
    [EvPropertyChanged (c_str g_Keyword_State) (c_str os)]
  else if (1 <=? ledNum) && (ledNum <=? 6) then
    [EvPropertyChanged
       (c_str (append "LED Enable State " (to_string ledNum))) (c_str os)]
  else [].

(** Lines 535-543. *)
Definition ChrolisStateDevice_Shutdown : M Z :=
  pHub <- GetParentHub ;;
  when pHub (SetStateCallback noop_callback) ;;
  ret DEVICE_OK.

(** The test of line 610, [val >= pow(2, NUM_LEDS) || val < 0]; the
    comparison is made in [double], which is exact for a power of two
    against a [long]. *)
Definition out_of_bounds (val : Z) : bool :=
  (val >=? 2 ^ Z.of_nat NUM_LEDS) || (val <? 0).

(** Lines 561-647.  The handler returns its status and the property as
    it leaves it; [AfterSet] only reads the property. *)
Definition OnState (pProp : Property) (eAct : ActionType)
  : M (Z * Property) :=
  match eAct with
  | BeforeGet =>
      pHub <- GetParentHub ;;
      if negb pHub then
        LogMessage "Hub not available" ;;
        ret (ERR_HUB_NOT_AVAILABLE, pProp)
      else
        connected <- IsDeviceConnected ;;
        when (negb connected) (LogMessage "CHROLIS not available") ;;
        err <- GetLEDEnableStates_member ;;
        when (negb (err =? 0))
          (LogMessage "Error getting info from chrolis") ;;
        states <- gets ledStates_ ;;
        ret (DEVICE_OK, Set_ pProp (EncodeLEDStatesInBits states))
  | AfterSet =>
      let os := EmptyString in
      states <- gets ledStates_ ;;
      let currentLEDState := EncodeLEDStatesInBits states in
      pHub <- GetParentHub ;;
      if negb pHub then
        LogMessage "Hub not available" ;;
        OnPropertyChanged (GetName pProp) (stream_uint8 os currentLEDState) ;;
        ret (ERR_HUB_NOT_AVAILABLE, pProp)
      else
        connected <- IsDeviceConnected ;;
        if negb connected then
          LogMessage "CHROLIS not available" ;;
          OnPropertyChanged (GetName pProp)
            (stream_uint8 os currentLEDState) ;;
          ret (ERR_CHROLIS_NOT_AVAIL, pProp)
        else
          let val := Get pProp in
          if out_of_bounds val then
            LogMessage "Requested state out of bounds" ;;
            OnPropertyChanged (GetName pProp)
              (stream_uint8 os currentLEDState) ;;
            ret (ERR_PARAM_NOT_VALID, pProp)
          else
            let newStates := DecodeLEDStatesFromBits (to_uint8 val) in
            err <- SetLEDEnableStates newStates ;;
            if negb (err =? 0) then
              LogMessage "Error Setting LED state" ;;
              when (negb (err =? ERR_CHROLIS_NOT_AVAIL))
                (err' <- GetLEDEnableStates_member ;;
                 when (negb (err' =? 0))
                   (LogMessage "Error getting info from chrolis") ;;
                 states <- gets ledStates_ ;;
                 let currentLEDState := EncodeLEDStatesInBits states in
                 OnPropertyChanged (GetName pProp)
                   (stream_uint8 os currentLEDState)) ;;
              ret (err, pProp)
            else
              OnPropertyChanged (GetName pProp) (stream_num os val) ;;
              ret (DEVICE_OK, pProp)
  | _ => ret (DEVICE_OK, pProp)
  end.

(** [os << *ledBeingControlled; OnPropertyChanged(pProp->GetName(), os)]
    for the enable flag of LED [ledIndex]. *)
Definition republish_enable (pProp : Property) (ledIndex : nat) : M unit :=
  states <- gets ledStates_ ;;
  OnPropertyChanged (GetName pProp)
    (stream_num EmptyString (nth ledIndex states 0)).

(** Lines 649-710.  [val] is read as a [double] from an integer
    property limited to 0..1, then cast to [ViBoolean]. *)
Definition OnEnableStateChange (pProp : Property) (eAct : ActionType)
  (ledIndex : nat) : M (Z * Property) :=
  match eAct with
  | BeforeGet =>
      pHub <- GetParentHub ;;
      if negb pHub then
        LogMessage "Hub not available" ;;
        ret (ERR_HUB_NOT_AVAILABLE, pProp)
      else
        connected <- IsDeviceConnected ;;
        when (negb connected) (LogMessage "CHROLIS not available") ;;
        err <- GetSingleLEDEnableState_member ledIndex ;;
        when (negb (err =? 0))
          (LogMessage "Error getting info from chrolis") ;;
        states <- gets ledStates_ ;;
        ret (DEVICE_OK, Set_ pProp (nth ledIndex states 0))
  | AfterSet =>
      let val := Get pProp in
      pHub <- GetParentHub ;;
      if negb pHub then
        LogMessage "Hub not available" ;;
        republish_enable pProp ledIndex ;;
        ret (ERR_HUB_NOT_AVAILABLE, pProp)
      else
        connected <- IsDeviceConnected ;;
        if negb connected then
          LogMessage "CHROLIS not available" ;;
          republish_enable pProp ledIndex ;;
          ret (ERR_CHROLIS_NOT_AVAIL, pProp)
        else
          err <- SetSingleLEDEnableState ledIndex (to_uint16 val) ;;
          if negb (err =? 0) then
            LogMessage "Error Setting LED state" ;;
            GetSingleLEDEnableState_member ledIndex ;;
            republish_enable pProp ledIndex ;;
            ret (err, pProp)
          else
            states <- gets ledStates_ ;;
            modify (set_ledStates_
                      (array_set states ledIndex (to_uint16 val))) ;;
            republish_enable pProp ledIndex ;;
            ret (DEVICE_OK, pProp)
  | _ => ret (DEVICE_OK, pProp)
  end.

(** The same for the brightness of LED [ledIndex]. *)
Definition republish_brightness (pProp : Property) (ledIndex : nat)
  : M unit :=
  bs <- gets ledBrightnesses_ ;;
  OnPropertyChanged (GetName pProp)
    (stream_num EmptyString (nth ledIndex bs 0)).

(** Lines 712-772. *)
Definition OnPowerChange (pProp : Property) (eAct : ActionType)
  (ledIndex : nat) : M (Z * Property) :=
  match eAct with
  | BeforeGet =>
      pHub <- GetParentHub ;;
      if negb pHub then
        LogMessage "Hub not available" ;;
        ret (ERR_HUB_NOT_AVAILABLE, pProp)
      else
        connected <- IsDeviceConnected ;;
        when (negb connected) (LogMessage "CHROLIS not available") ;;
        err <- GetSingleLEDBrightnessState_member ledIndex ;;
        when (negb (err =? 0))
          (LogMessage "Error getting info from chrolis") ;;
        bs <- gets ledBrightnesses_ ;;
        ret (DEVICE_OK, Set_ pProp (nth ledIndex bs 0))
  | AfterSet =>
      let val := Get pProp in
      pHub <- GetParentHub ;;
      if negb pHub then
        LogMessage "Hub not available" ;;
        republish_brightness pProp ledIndex ;;
        ret (ERR_HUB_NOT_AVAILABLE, pProp)
      else
        connected <- IsDeviceConnected ;;
        if negb connected then
          LogMessage "CHROLIS not available" ;;
          republish_brightness pProp ledIndex ;;
          ret (ERR_CHROLIS_NOT_AVAIL, pProp)
        else
          err <- SetSingleLEDBrightnessState ledIndex (to_uint16 val) ;;
          if negb (err =? 0) then
            LogMessage "Error Setting LED state" ;;
            GetSingleLEDBrightnessState_member ledIndex ;;
            republish_brightness pProp ledIndex ;;
            ret (err, pProp)
          else
            bs <- gets ledBrightnesses_ ;;
            modify (set_ledBrightnesses_
                      (array_set bs ledIndex (to_uint16 val))) ;;
            republish_brightness pProp ledIndex ;;
            ret (DEVICE_OK, pProp)
  | _ => ret (DEVICE_OK, pProp)
  end.

(** ** Vocabulary of the properties *)

(** What a push delivers to the handler [f] of the state slot: the
    aggregate under index 0, then the six flags under 1..6. *)
Definition pushed (f : Callback) (states : list ViBoolean) : list Event :=
  f 0 (EncodeLEDStatesInBits states) ++
  f 1 (nth 0%nat states 0) ++ f 2 (nth 1%nat states 0) ++
  f 3 (nth 2%nat states 0) ++ f 4 (nth 3%nat states 0) ++
  f 5 (nth 4%nat states 0) ++ f 6 (nth 5%nat states 0).

(** Two worlds agree when they differ at most in the handler held by
    the shutter slot; an action is blind to the slot when, from worlds
    that agree, it returns the same value and leaves worlds that agree
    (so in particular the same events, cells and instrument). *)
Definition forget_shutter (w : World) : World :=
  set_shutterCallback_ noop_callback w.

Definition agree (w1 w2 : World) : Prop :=
  forget_shutter w1 = forget_shutter w2.

Definition blind {A : Type} (m : M A) : Prop :=
  forall w1 w2, agree w1 w2 ->
    fst (m w1) = fst (m w2) /\ agree (snd (m w1)) (snd (m w2)).

End Adapter.

(** ** Running a handler *)

(** The effects [m] adds when run from [w]. *)
Definition trace {HW A : Type} (m : @M HW A) (w : World) : list Event :=
  skipn (List.length (events w)) (events (snd (m w))).

Definition property_changes (es : list Event) : list Event :=
  filter is_property_changed es.

Definition hardware_writes (es : list Event) : list Event :=
  filter is_hardware_write es.

Definition hardware_calls (es : list Event) : list Event :=
  filter is_hardware_call es.

(** ** A scripted instrument for concrete runs

    A bench instrument whose calls answer from a script: every read
    returns [bench_read_err] and every write [bench_write_err]; a read
    that succeeds delivers the instrument's value and one that fails
    leaves the out-parameter alone; a write that succeeds is stored. *)
Record Bench : Type := mkBench {
  bench_connected : bool;
  bench_status : Z;
  bench_enables : list ViBoolean;
  bench_brightness : list Z;
  bench_shutter : bool;
  bench_read_err : Z;
  bench_write_err : Z
}.

Definition bench_read {O : Type} (value : Bench -> O) (out : O) (b : Bench)
  : Z * O * Bench :=
  (bench_read_err b, if bench_read_err b =? 0 then value b else out, b).

Definition bench_write (store : Bench -> Bench) (b : Bench) : Z * Bench :=
  (bench_write_err b, if bench_write_err b =? 0 then store b else b).

#[export] Instance bench_facade : DeviceFacade Bench := {
  facade_IsDeviceConnected b := (bench_connected b, b);
  facade_ShutdownDevice :=
    bench_write (fun b =>
      mkBench false (bench_status b) (bench_enables b)
        (bench_brightness b) (bench_shutter b)
        (bench_read_err b) (bench_write_err b));
  facade_GetDeviceStatus := bench_read bench_status;
  facade_VerifyLEDEnableStatesWithLock b := b;
  facade_GetLEDEnableStates := bench_read bench_enables;
  facade_SetLEDEnableStates states :=
    bench_write (fun b =>
      mkBench (bench_connected b) (bench_status b) states
        (bench_brightness b) (bench_shutter b)
        (bench_read_err b) (bench_write_err b));
  facade_GetSingleLEDEnableState led :=
    bench_read (fun b => nth led (bench_enables b) 0);
  facade_SetSingleLEDEnableState led state :=
    bench_write (fun b =>
      mkBench (bench_connected b) (bench_status b)
        (array_set (bench_enables b) led state)
        (bench_brightness b) (bench_shutter b)
        (bench_read_err b) (bench_write_err b));
  facade_GetSingleLEDBrightnessState led :=
    bench_read (fun b => nth led (bench_brightness b) 0);
  facade_SetSingleLEDBrightnessState led v :=
    bench_write (fun b =>
      mkBench (bench_connected b) (bench_status b) (bench_enables b)
        (array_set (bench_brightness b) led v) (bench_shutter b)
        (bench_read_err b) (bench_write_err b));
  facade_GetShutterState := bench_read bench_shutter;
  facade_SetShutterState open :=
    bench_write (fun b =>
      mkBench (bench_connected b) (bench_status b) (bench_enables b)
        (bench_brightness b) open
        (bench_read_err b) (bench_write_err b))
}.

(** Sample values for the header's error codes: distinct and not
    [DEVICE_OK], which is all the adapter's code relies on. *)
#[export] Instance bench_codes : ErrorCodes := {
  ERR_HUB_NOT_AVAILABLE := 101;
  ERR_CHROLIS_NOT_AVAIL := 102;
  ERR_PARAM_NOT_VALID := 103
}.

(** A handler that shows every invocation it receives, for watching a
    callback slot. *)
Definition probe (slot : string) : Callback := fun ledNum state =>
  [EvPropertyChanged slot
     (append (to_string ledNum) (append "=" (to_string state)))].

(** A world around a bench instrument, as it stands once the shutter and
    the state device are initialised: hub attached or not, the hub's last
    stored status code, the state device's cells, the thread running,
    each device's handler in its slot, nothing logged yet. *)
Definition bench_world (hub : bool) (b : Bench) (code : Z)
  (states : list ViBoolean) (brightnesses : list Z) : @World Bench :=
  mkWorld b hub true code shutter_handler state_handler
    states brightnesses [].

Definition all_off : list ViBoolean := [0; 0; 0; 0; 0; 0].
Definition bench_levels : list Z := [100; 200; 300; 400; 500; 600].

(** A connected instrument on which everything succeeds. *)
Definition healthy (status : Z) (enables : list ViBoolean) : Bench :=
  mkBench true status enables bench_levels false 0 0.

(** A connected instrument whose writes fail with [err]. *)
Definition write_failing (err : Z) (enables : list ViBoolean) : Bench :=
  mkBench true 0 enables bench_levels false 0 err.

(** An instrument that is not connected: its calls fail with the
    wrapper's device-unavailable code. *)
Definition disconnected : Bench :=
  mkBench false 0 all_off bench_levels true 102 102.

Definition state_property (v : Z) : Property := mkProperty "State" v.
Definition enable_property (led : nat) (v : Z) : Property :=
  mkProperty (append "LED Enable State " (to_string (Z.of_nat (S led)))) v.
Definition power_property (led : nat) (v : Z) : Property :=
  mkProperty
    (append "LED " (append (to_string (Z.of_nat (S led))) " Power")) v.

(** * Initialisation of the hub and of the state device *)

(** ** More vocabulary *)

(** The enable flag the encoder reads at index [i]. *)
Definition flag (v : list ViBoolean) (i : nat) : bool :=
  negb (nth i v 0 =? VI_FALSE).

(** The seven conditions of lines 241-292, by bit. *)
Definition status_conditions : list (Z * string) :=
  [(0, "Box is Open"); (1, "LLG not Connected"); (2, "Interlock is Open");
   (3, "Using Default Adjustment"); (4, "Box Overheated");
   (5, "LED Overheated"); (6, "Invalid Box Setup")].

(** The names of the conditions whose bit is set in [c], in bit order. *)
Definition conditions_of (c : Z) : list string :=
  map snd (filter (fun p => Z.testbit c (fst p)) status_conditions).

(** A handler of a callback slot that does not itself write to the
    instrument. *)
Definition handler_only_notifies (f : Callback) : Prop :=
  forall ledNum state, hardware_writes (f ledNum state) = [].

(** ** The wavelength list (source lines 151-166) *)

(** One turn of the loop: [wavelengthList += std::to_string(wavelengths[i]);
    if (i != 5) wavelengthList += ", ";]. *)
Definition wavelength_step (wavelengths : list Z) (wavelengthList : string)
  (i : nat) : string :=
  let wavelengthList :=
    append wavelengthList (to_string (nth i wavelengths 0)) in
  if negb (i =? 5)%nat then append wavelengthList ", " else wavelengthList.

Definition format_wavelengths (wavelengths : list Z) : string :=
  fold_left (wavelength_step wavelengths) (seq 0 6) EmptyString.

(** ** The services initialisation calls on

    Beside the calls of [DeviceFacade], initialisation uses five more
    calls of the instrument wrapper and the property services of the
    MMDevice base class.  Neither is among the sources: both are
    parameters, each call an arbitrary transition that returns what the
    code reads from it.  A call that fills a buffer takes the buffer's
    content before the call. *)
Class SetupFacade (HW : Type) : Type := {
  facade_InitializeDevice : string -> HW -> Z * HW;
  facade_GetSerialNumber : string -> HW -> string * HW;
  facade_GetManufacturerName : string -> HW -> string * HW;
  facade_GetLEDWavelengths : list Z -> HW -> Z * list Z * HW;
  facade_GetLEDBrightnessStates : list Z -> HW -> Z * list Z * HW
}.

(** The handler a property is created with. *)
Inductive PropertyAction : Type :=
| ActOnState
| ActOnPowerChange (ledIndex : nat)
| ActOnEnableStateChange (ledIndex : nat).

Class HostServices (P : Type) : Type := {
  host_GetProperty : string -> string -> P -> string * P;
  host_CreateStringProperty : string -> string -> bool -> P -> Z * P;
  host_CreateIntegerProperty :
    string -> Z -> bool -> PropertyAction -> P -> Z * P;
  host_SetPropertyLimits : string -> Z -> Z -> P -> P;
  host_SetPositionLabel : Z -> string -> P -> P
}.

(** The brightness limits, constants of the adapter's header. *)
Class BrightnessLimits : Type := {
  ledMinBrightness_ : Z;
  ledMaxBrightness_ : Z
}.

(** What initialisation asks of those services, in program order. *)
Inductive SetupCall : Type :=
| CallInitializeDevice (serialNumber : string)
| CallGetSerialNumber
| CallGetManufacturerName
| CallGetLEDWavelengths
| CallGetLEDBrightnessStates
| HostGetProperty (name : string)
| HostCreateStringProperty (name value : string) (readOnly : bool)
| HostCreateIntegerProperty (name : string) (value : Z) (readOnly : bool)
    (pAct : PropertyAction)
| HostSetPropertyLimits (name : string) (lowerLimit upperLimit : Z)
| HostSetPositionLabel (pos : Z) (label : string)
| StartPollingThread.

Definition is_property_creation (c : SetupCall) : bool :=
  match c with
  | HostCreateStringProperty _ _ _ | HostCreateIntegerProperty _ _ _ _ => true
  | _ => false
  end.

Definition property_creations (cs : list SetupCall) : list SetupCall :=
  filter is_property_creation cs.

(** The content of the locals that initialisation declares without
    initialising them. *)
Record Uninitialised : Type := mkUninitialised {
  buf0 : string;
  sNum0 : string;
  manfName0 : string;
  wavelengths0 : list Z
}.

Section Setup.

Context {HW P : Type} {dev : DeviceFacade HW} {setup : SetupFacade HW}
  {host : HostServices P} {codes : ErrorCodes} {limits : BrightnessLimits}.

(** The adapter's world, the base-class state of the device being
    initialised and the calls made so far. *)
Record Site : Type := mkSite {
  site_world : @World HW;
  site_base : P;
  site_calls : list SetupCall
}.

(** The monad of initialisation. *)
Definition Init (A : Type) : Type := Site -> A * Site.

Definition iret {A : Type} (a : A) : Init A := fun s => (a, s).

Definition ibind {A B : Type} (m : Init A) (k : A -> Init B) : Init B :=
  fun s => let (a, s') := m s in k a s'.

Notation "x <- m ;; k" := (ibind m (fun x => k))
  (at level 61, m at next level, right associativity).
Notation "' pat <- m ;; k" :=
  (ibind m (fun x => match x with pat => k end))
  (at level 61, pat pattern, m at next level, right associativity).
Notation "m ;; k" := (ibind m (fun _ => k))
  (at level 61, right associativity).

(** An action of the adapter proper, run on the site's world. *)
Definition lift {A : Type} (m : @M HW A) : Init A :=
  fun s =>
    let (a, w) := m (site_world s) in
    (a, mkSite w (site_base s) (site_calls s)).

Definition iwhen (b : bool) (m : Init unit) : Init unit :=
  if b then m else iret tt.

Definition wrapper_call {R : Type} (c : SetupCall) (op : HW -> R * HW)
  : Init R :=
  fun s =>
    let (r, h) := op (ChrolisDevice (site_world s)) in
    (r, mkSite (set_ChrolisDevice h (site_world s)) (site_base s)
          (site_calls s ++ [c])).

Definition host_call {R : Type} (c : SetupCall) (op : P -> R * P) : Init R :=
  fun s =>
    let (r, p) := op (site_base s) in
    (r, mkSite (site_world s) p (site_calls s ++ [c])).

Definition InitializeDevice (serialNumber : string) : Init Z :=
  wrapper_call (CallInitializeDevice (c_str serialNumber))
    (facade_InitializeDevice (c_str serialNumber)).
Definition GetSerialNumber (sNum : string) : Init string :=
  wrapper_call CallGetSerialNumber (facade_GetSerialNumber sNum).
Definition GetManufacturerName (manfName : string) : Init string :=
  wrapper_call CallGetManufacturerName (facade_GetManufacturerName manfName).
Definition GetLEDWavelengths (wavelengths : list Z) : Init (Z * list Z) :=
  wrapper_call CallGetLEDWavelengths (facade_GetLEDWavelengths wavelengths).

(** [GetLEDBrightnessStates(ledBrightnesses_)]. *)
Definition GetLEDBrightnessStates_member : Init Z :=
  bs <- lift (gets ledBrightnesses_) ;;
  '(err, bs') <- wrapper_call CallGetLEDBrightnessStates
                   (facade_GetLEDBrightnessStates bs) ;;
  lift (modify (set_ledBrightnesses_ bs')) ;;
  iret err.

Definition GetProperty (name buf : string) : Init string :=
  host_call (HostGetProperty (c_str name)) (host_GetProperty (c_str name) buf).
Definition CreateStringProperty (name value : string) (readOnly : bool)
  : Init Z :=
  host_call (HostCreateStringProperty (c_str name) (c_str value) readOnly)
    (host_CreateStringProperty (c_str name) (c_str value) readOnly).
Definition CreateIntegerProperty (name : string) (value : Z)
  (readOnly : bool) (pAct : PropertyAction) : Init Z :=
  host_call (HostCreateIntegerProperty (c_str name) value readOnly pAct)
    (host_CreateIntegerProperty (c_str name) value readOnly pAct).
Definition SetPropertyLimits (name : string) (lo hi : Z) : Init unit :=
  host_call (HostSetPropertyLimits (c_str name) lo hi)
    (fun p => (tt, host_SetPropertyLimits (c_str name) lo hi p)).
Definition SetPositionLabel (pos : Z) (label : string) : Init unit :=
  host_call (HostSetPositionLabel pos (c_str label))
    (fun p => (tt, host_SetPositionLabel pos (c_str label) p)).

(** ** ChrolisHub::Initialize (source lines 121-184) *)

Definition ChrolisHub_Initialize (locals : Uninitialised)
  (deviceStatusMessage_ : string) : Init Z :=
  buf <- GetProperty "Serial Number" (buf0 locals) ;;
  err <- InitializeDevice buf ;;
  if negb (err =? 0) then
    lift (LogMessage "Error in CHROLIS Initialization") ;;
    iret err
  else
    sNum <- GetSerialNumber (sNum0 locals) ;;
    err <- CreateStringProperty "Device Serial Number" sNum true ;;
    if negb (err =? 0) then
      lift (LogMessage "Error with property set in hub initialize") ;;
      iret DEVICE_ERR
    else
      manfName <- GetManufacturerName (manfName0 locals) ;;
      err <- CreateStringProperty "Manufacturer Name" manfName true ;;
      if negb (err =? 0) then
        lift (LogMessage "Error with property set in hub initialize") ;;
        iret DEVICE_ERR
      else
        '(err, wavelengths) <- GetLEDWavelengths (wavelengths0 locals) ;;
        if negb (err =? 0) then
          lift (LogMessage "Unable to get wavelengths from device") ;;
          iret err
        else
          let wavelengthList := format_wavelengths wavelengths in
          err <- CreateStringProperty "Available Wavelengths"
                   wavelengthList true ;;
          if negb (err =? 0) then
            lift (LogMessage "Error with property set in hub initialize") ;;
            iret DEVICE_ERR
          else
            err <- CreateStringProperty "Device Status"
                     deviceStatusMessage_ true ;;
            if negb (err =? 0) then
              lift (LogMessage
                      "Error with property set in hub initialize") ;;
              iret DEVICE_ERR
            else
              lift (modify (set_threadRunning_ true)) ;;
              host_call StartPollingThread (fun p => (tt, p)) ;;
              iret DEVICE_OK.

(** ** ChrolisStateDevice::Initialize (source lines 447-533) *)

(** Lines 482-486: [snprintf(buf, bufSize, "-%ld", i);
    SetPositionLabel(i, buf);] for each position. *)
Fixpoint set_position_labels (positions : list nat) : Init unit :=
  match positions with
  | [] => iret tt
  | i :: rest =>
      SetPositionLabel (Z.of_nat i)
        (append "-" (to_string (Z.of_nat i))) ;;
      set_position_labels rest
  end.

(** Lines 504-515; [Some code] is a [return code] out of the loop. *)
Fixpoint create_power_properties (indices : list nat) : Init (option Z) :=
  match indices with
  | [] => iret None
  | i :: rest =>
      let propName :=
        append "LED " (append (to_string (Z.of_nat i + 1)) " Power") in
      bs <- lift (gets ledBrightnesses_) ;;
      err <- CreateIntegerProperty propName (nth i bs 0) false
               (ActOnPowerChange i) ;;
      if negb (err =? 0) then
        lift (LogMessage "Error with property set in power control") ;;
        iret (Some DEVICE_ERR)
      else
        SetPropertyLimits propName ledMinBrightness_ ledMaxBrightness_ ;;
        create_power_properties rest
  end.

(** Lines 519-530. *)
Fixpoint create_enable_properties (indices : list nat) : Init (option Z) :=
  match indices with
  | [] => iret None
  | i :: rest =>
      let propName :=
        append "LED Enable State " (to_string (Z.of_nat i + 1)) in
      states <- lift (gets ledStates_) ;;
      err <- CreateIntegerProperty propName (nth i states 0) false
               (ActOnEnableStateChange i) ;;
      if negb (err =? 0) then
        lift (LogMessage "Error with property set in state control") ;;
        iret (Some DEVICE_ERR)
      else
        SetPropertyLimits propName 0 1 ;;
        create_enable_properties rest
  end.

Definition ChrolisStateDevice_Initialize : Init Z :=
  pHub <- lift GetParentHub ;;
  if negb pHub then
    lift (LogMessage "Hub not available") ;;
    iret ERR_HUB_NOT_AVAILABLE
  else
    lift (SetStateCallback state_handler) ;;
    set_position_labels (seq 0 NUM_LEDS) ;;
    connected <- lift IsDeviceConnected ;;
    tmpLedState <-
      (if connected then
         lift GetLEDEnableStates_member ;;
         GetLEDBrightnessStates_member ;;
         states <- lift (gets ledStates_) ;;
         iret (EncodeLEDStatesInBits states)
       else iret 0) ;;
    err <- CreateIntegerProperty g_Keyword_State tmpLedState false
             ActOnState ;;
    if negb (err =? DEVICE_OK) then iret err
    else
      r <- create_power_properties (seq 0 NUM_LEDS) ;;
      match r with
      | Some code => iret code
      | None =>
          r <- create_enable_properties (seq 0 NUM_LEDS) ;;
          match r with
          | Some code => iret code
          | None => iret DEVICE_OK
          end
      end.

End Setup.

(** The calls [m] adds when run from [s]. *)
Definition site_trace {HW P A : Type} (m : @Init HW P A) (s : Site)
  : list SetupCall :=
  skipn (List.length (site_calls s)) (site_calls (snd (m s))).

(** ** The operations of the hub

    The member functions of [ChrolisHub] that are embedded above, each
    with its arguments; a single turn of the polling loop stands beside
    the thread so that a turn may start from any content of the thread's
    local.  The constructor, [DetectInstalledDevices] and [GetName] work
    on the framework's device registry and on names of the header, which
    are not among the sources. *)
Inductive HubOperation : Type :=
| OpInitialize (locals : Uninitialised) (deviceStatusMessage_ : string)
| OpShutdown
| OpBusy
| OpStatusChangedPollingThread (fuel : nat)
| OpPollIteration (tempStatus : Z)
| OpSetShutterCallback (function : Callback)
| OpSetStateCallback (function : Callback).

(** What an operation hands back to its caller. *)
Inductive HubAnswer : Type :=
| Returns
| ReturnsStatus (code : Z)
| ReturnsFlag (busy : bool)
| TurnEnds (exit : LoopExit) (tempStatus : Z).

Definition run_hub {HW P : Type} {dev : DeviceFacade HW}
  {setup : SetupFacade HW} {host : HostServices P}
  (op : HubOperation) : @Init HW P HubAnswer :=
  match op with
  | OpInitialize locals deviceStatusMessage_ =>
      ibind (ChrolisHub_Initialize locals deviceStatusMessage_)
        (fun code => iret (ReturnsStatus code))
  | OpShutdown =>
      ibind (lift ChrolisHub_Shutdown) (fun code => iret (ReturnsStatus code))
  | OpBusy => ibind (lift ChrolisHub_Busy) (fun b => iret (ReturnsFlag b))
  | OpStatusChangedPollingThread fuel =>
      ibind (lift (StatusChangedPollingThread fuel)) (fun _ => iret Returns)
  | OpPollIteration tempStatus =>
      ibind (lift (poll_iteration tempStatus))
        (fun r => iret (TurnEnds (fst r) (snd r)))
  | OpSetShutterCallback f =>
      ibind (lift (SetShutterCallback f)) (fun _ => iret Returns)
  | OpSetStateCallback f =>
      ibind (lift (SetStateCallback f)) (fun _ => iret Returns)
  end.

(** The site [s] with handler [f] in the shutter slot of its hub. *)
Definition with_shutterCallback_ {HW P : Type} (f : Callback)
  (s : @Site HW P) : @Site HW P :=
  mkSite (set_shutterCallback_ f (site_world s)) (site_base s) (site_calls s).

(** Two sites agree when they differ at most in the handler held by the
    shutter slot, and an initialisation is blind to the slot when it
    takes sites that agree to the same value and to sites that agree. *)
Definition site_agree {HW P : Type} (s1 s2 : @Site HW P) : Prop :=
  agree (site_world s1) (site_world s2) /\
  site_base s1 = site_base s2 /\ site_calls s1 = site_calls s2.

Definition site_blind {HW P A : Type} (m : @Init HW P A) : Prop :=
  forall s1 s2, site_agree s1 s2 ->
    fst (m s1) = fst (m s2) /\ site_agree (snd (m s1)) (snd (m s2)).

(** ** Vocabulary of the initialisations *)

(** The calls of a run of [ChrolisHub::Initialize] that gets through,
    given what the base class delivered as serial number, what the
    instrument delivered as its serial number, manufacturer name and
    wavelengths, and the hub's status message. *)
Definition hub_setup_calls (buf sNum manfName : string)
  (wavelengths : list Z) (deviceStatusMessage_ : string) : list SetupCall :=
  [HostGetProperty "Serial Number";
   CallInitializeDevice (c_str buf);
   CallGetSerialNumber;
   HostCreateStringProperty "Device Serial Number" (c_str sNum) true;
   CallGetManufacturerName;
   HostCreateStringProperty "Manufacturer Name" (c_str manfName) true;
   CallGetLEDWavelengths;
   HostCreateStringProperty "Available Wavelengths"
     (c_str (format_wavelengths wavelengths)) true;
   HostCreateStringProperty "Device Status" (c_str deviceStatusMessage_) true;
   StartPollingThread].


(** What a property creation fixes beside the initial value. *)
Inductive PropertyKind : Type :=
| StringProperty (name : string) (readOnly : bool)
| IntegerProperty (name : string) (readOnly : bool) (pAct : PropertyAction).

Definition created_kinds (cs : list SetupCall) : list PropertyKind :=
  flat_map (fun c =>
              match c with
              | HostCreateStringProperty n _ ro => [StringProperty n ro]
              | HostCreateIntegerProperty n _ ro a => [IntegerProperty n ro a]
              | _ => []
              end) cs.


(** The properties [ChrolisHub::Initialize] asks for, in order. *)
Definition hub_properties : list PropertyKind :=
  [StringProperty "Device Serial Number" true;
   StringProperty "Manufacturer Name" true;
   StringProperty "Available Wavelengths" true;
   StringProperty "Device Status" true].

(** The properties [ChrolisStateDevice::Initialize] asks for, in order:
    the aggregate, then a brightness and then an enable flag per LED,
    each bound to its handler and to the LED's index. *)
Definition power_kind (i : nat) : PropertyKind :=
  IntegerProperty
    (append "LED " (append (to_string (Z.of_nat i + 1)) " Power")) false
    (ActOnPowerChange i).

Definition enable_kind (i : nat) : PropertyKind :=
  IntegerProperty (append "LED Enable State " (to_string (Z.of_nat i + 1)))
    false (ActOnEnableStateChange i).

Definition state_device_properties : list PropertyKind :=
  IntegerProperty "State" false ActOnState ::
  map power_kind (seq 0 NUM_LEDS) ++ map enable_kind (seq 0 NUM_LEDS).

(** ** A scripted host for concrete runs

    The bench instrument answers the initialisation calls from its
    script as well; the desk is a base class that refuses to create the
    properties named in [desk_refuses] and creates every other one. *)
#[export] Instance bench_setup : SetupFacade Bench := {
  facade_InitializeDevice serialNumber :=
    bench_write (fun b =>
      mkBench true (bench_status b) (bench_enables b)
        (bench_brightness b) (bench_shutter b)
        (bench_read_err b) (bench_write_err b));
  facade_GetSerialNumber sNum b := ("M00511111", b);
  facade_GetManufacturerName manfName b := ("Thorlabs", b);
  facade_GetLEDWavelengths :=
    bench_read (fun _ => [365; 405; 470; 530; 590; 625]);
  facade_GetLEDBrightnessStates := bench_read bench_brightness
}.

Record Desk : Type := mkDesk {
  desk_serial : string;
  desk_created : list string;
  desk_refuses : list string
}.

Definition desk_create (name : string) (d : Desk) : Z * Desk :=
  if existsb (String.eqb name) (desk_refuses d) then (3, d)
  else (0, mkDesk (desk_serial d) (desk_created d ++ [name])
             (desk_refuses d)).

#[export] Instance desk_services : HostServices Desk := {
  host_GetProperty name buf d := (desk_serial d, d);
  host_CreateStringProperty name value readOnly := desk_create name;
  host_CreateIntegerProperty name value readOnly pAct := desk_create name;
  host_SetPropertyLimits name lo hi d := d;
  host_SetPositionLabel pos label d := d
}.

#[export] Instance bench_limits : BrightnessLimits := {
  ledMinBrightness_ := 0;
  ledMaxBrightness_ := 1000
}.

Definition bench_site (w : @World Bench) (refuses : list string)
  : @Site Bench Desk :=
  mkSite w (mkDesk "M00511111" [] refuses) [].

Definition bench_locals : Uninitialised :=
  mkUninitialised "" "" "" [0; 0; 0; 0; 0; 0].

(** The limits [ChrolisStateDevice::Initialize] sets on the properties of
    LED [i]. *)
Definition power_limits {limits : BrightnessLimits} (i : nat) : SetupCall :=
  HostSetPropertyLimits
    (append "LED " (append (to_string (Z.of_nat i + 1)) " Power"))
    ledMinBrightness_ ledMaxBrightness_.

Definition enable_limits (i : nat) : SetupCall :=
  HostSetPropertyLimits
    (append "LED Enable State " (to_string (Z.of_nat i + 1))) 0 1.

Definition position_label (i : nat) : SetupCall :=
  HostSetPositionLabel (Z.of_nat i) (append "-" (to_string (Z.of_nat i))).

Definition is_limits (c : SetupCall) : bool :=
  match c with HostSetPropertyLimits _ _ _ => true | _ => false end.

(** The initial value of an integer property agrees with the last-known
    cells of world [w]: a brightness or an enable flag with the cell of
    its LED, the aggregate with the encoding of the enable cells when
    the instrument was connected and with 0 when it was not. *)
Definition initial_value_agrees {HW : Type} (connected : bool)
  (w : @World HW) (c : SetupCall) : Prop :=
  match c with
  | HostCreateIntegerProperty _ v _ (ActOnPowerChange i) =>
      v = nth i (ledBrightnesses_ w) 0
  | HostCreateIntegerProperty _ v _ (ActOnEnableStateChange i) =>
      v = nth i (ledStates_ w) 0
  | HostCreateIntegerProperty _ v _ ActOnState =>
      v = if connected then EncodeLEDStatesInBits (ledStates_ w) else 0
  | _ => True
  end.

Definition kind_name (k : PropertyKind) : string :=
  match k with
  | StringProperty name _ | IntegerProperty name _ _ => name
  end.

(** A connected bench instrument whose reads fail with [err] and whose
    writes succeed. *)
Definition read_failing (err : Z) (enables : list ViBoolean) : Bench :=
  mkBench true 0 enables bench_levels false err 0.

(** * Properties *)

(** ** The codec *)

Lemma decode_length (x : Z) :
  List.length (DecodeLEDStatesFromBits x) = NUM_LEDS.
Proof. reflexivity. Qed.

Lemma decode_canonical (x : Z) : Forall canonical (DecodeLEDStatesFromBits x).
Proof.
  unfold DecodeLEDStatesFromBits, decode_step; simpl.
  repeat (apply Forall_cons;
          [match goal with
           | |- canonical (Z.b2z ?b) =>
               destruct b; [right | left]; reflexivity
           end|]).
  apply Forall_nil.
Qed.

(** Decoding undoes encoding up to the normalisation the encoder applies
    to each element. *)
Lemma decode_encode_normalize (v : list ViBoolean) :
  List.length v = NUM_LEDS ->
  DecodeLEDStatesFromBits (EncodeLEDStatesInBits v) = map normalize v.
Proof.
  intro Hlen.
  do 6 (destruct v as [|? v]; [discriminate Hlen|]).
  destruct v; [|discriminate Hlen].
  unfold EncodeLEDStatesInBits, encode_step, normalize; simpl nth;
    simpl fold_left; simpl map.
  repeat match goal with
         | |- context [?a =? VI_FALSE] => destruct (a =? VI_FALSE)
         end; reflexivity.
Qed.

Lemma normalize_canonical (b : ViBoolean) : canonical b -> normalize b = b.
Proof. intros [-> | ->]; reflexivity. Qed.

Lemma encode_range (v : list ViBoolean) :
  List.length v = NUM_LEDS -> 0 <= EncodeLEDStatesInBits v <= 2 ^ 6 - 1.
Proof.
  intro Hlen.
  do 6 (destruct v as [|? v]; [discriminate Hlen|]).
  destruct v; [|discriminate Hlen].
  unfold EncodeLEDStatesInBits, encode_step; simpl nth; simpl fold_left.
  repeat match goal with
         | |- context [?a =? VI_FALSE] => destruct (a =? VI_FALSE)
         end; vm_compute; split; discriminate.
Qed.

Lemma encode_decode_checked :
  forallb (fun n => EncodeLEDStatesInBits
                      (DecodeLEDStatesFromBits (Z.of_nat n)) =? Z.of_nat n)
    (seq 0 64) = true.
Proof. vm_compute. reflexivity. Qed.

Lemma encode_decode (x : Z) :
  0 <= x <= 2 ^ 6 - 1 ->
  EncodeLEDStatesInBits (DecodeLEDStatesFromBits x) = x.
Proof.
  intro Hx.
  pose proof encode_decode_checked as Hall.
  rewrite forallb_forall in Hall.
  specialize (Hall (Z.to_nat x)).
  rewrite Z2Nat.id in Hall by lia.
  apply Z.eqb_eq, Hall, in_seq. lia.
Qed.

(** C1.  The codec is a bijection between the vectors of six canonical
    booleans and the integers 0..63: decoding an encoded vector gives the
    vector back, encoding a decoded integer of the range gives the
    integer back, and each function lands in the other's domain. *)
Theorem codec_bijection :
  (forall v : list ViBoolean,
      List.length v = NUM_LEDS -> Forall canonical v ->
      DecodeLEDStatesFromBits (EncodeLEDStatesInBits v) = v) /\
  (forall x : Z,
      0 <= x <= 2 ^ 6 - 1 ->
      EncodeLEDStatesInBits (DecodeLEDStatesFromBits x) = x) /\
  (forall v : list ViBoolean,
      List.length v = NUM_LEDS ->
      0 <= EncodeLEDStatesInBits v <= 2 ^ 6 - 1) /\
  (forall x : Z,
      List.length (DecodeLEDStatesFromBits x) = NUM_LEDS /\
      Forall canonical (DecodeLEDStatesFromBits x)).
Proof.
  split; [|split; [|split]].
  - intros v Hlen Hcan.
    rewrite decode_encode_normalize by assumption.
    clear Hlen. induction Hcan as [|b v Hb _ IH]; simpl.
    + reflexivity.
    + rewrite normalize_canonical by assumption. now rewrite IH.
  - exact encode_decode.
  - exact encode_range.
  - intro x. split; [apply decode_length | apply decode_canonical].
Qed.

Lemma codec_bijection_witness :
  DecodeLEDStatesFromBits (EncodeLEDStatesInBits [1; 0; 1; 0; 0; 1])
  = [1; 0; 1; 0; 0; 1] /\
  EncodeLEDStatesInBits (DecodeLEDStatesFromBits 37) = 37.
Proof.
  destruct codec_bijection as [Hde [Hed _]].
  split.
  - apply Hde.
    + reflexivity.
    + repeat constructor; (now left) || (now right).
  - apply Hed. lia.
Defined.

(** ** Status decoding *)

Lemma land_pow2 (c k : Z) :
  0 <= k ->
  Z.land c (Z.shiftl 1 k) = if Z.testbit c k then 2 ^ k else 0.
Proof.
  intro Hk. rewrite Z.shiftl_1_l.
  apply Z.bits_inj'. intros n Hn.
  rewrite Z.land_spec, Z.pow2_bits_eqb by assumption.
  destruct (Z.eqb_spec k n) as [->|Hne].
  - destruct (Z.testbit c n) eqn:E.
    + now rewrite Z.pow2_bits_true.
    + now rewrite Z.bits_0.
  - rewrite andb_false_r.
    destruct (Z.testbit c k).
    + rewrite Z.pow2_bits_false by assumption. reflexivity.
    + now rewrite Z.bits_0.
Qed.

Lemma status_bit_testbit (c k : Z) :
  0 <= k -> status_bit c k = Z.testbit c k.
Proof.
  intro Hk. unfold status_bit. rewrite land_pow2 by assumption.
  destruct (Z.testbit c k).
  - apply Z.geb_le. pose proof (Z.pow_pos_nonneg 2 k). lia.
  - reflexivity.
Qed.

Lemma status_bit_masked (c k : Z) :
  0 <= k < 7 -> Z.land c 127 = 0 -> status_bit c k = false.
Proof.
  intros Hk Hmask. rewrite status_bit_testbit by lia.
  assert (Hb : Z.testbit (Z.land c 127) k = false)
    by (rewrite Hmask; apply Z.bits_0).
  rewrite Z.land_spec in Hb.
  change 127 with (Z.ones 7) in Hb.
  rewrite Z.ones_spec_low in Hb by lia.
  now rewrite andb_true_r in Hb.
Qed.

Lemma contains_refl_append (pre needle : string) :
  contains (append pre needle) needle.
Proof.
  exists pre, EmptyString.
  f_equal. induction needle; simpl; congruence.
Qed.

Lemma append_assoc (a b c : string) :
  append (append a b) c = append a (append b c).
Proof. induction a; simpl; congruence. Qed.

Lemma contains_append_r (hay tail needle : string) :
  contains hay needle -> contains (append hay tail) needle.
Proof.
  intros [pre [post ->]].
  exists pre, (append post tail).
  now rewrite !append_assoc.
Qed.

Lemma add_condition_keeps (c k : Z) (text message needle : string) :
  contains message needle ->
  contains (add_condition c k text message) needle.
Proof.
  intro H. unfold add_condition.
  destruct (status_bit c k); [|assumption].
  apply contains_append_r.
  destruct (0 <? String.length message)%nat; [|assumption].
  now apply contains_append_r.
Qed.

Lemma add_condition_adds (c k : Z) (text message : string) :
  status_bit c k = true ->
  contains (add_condition c k text message) text.
Proof.
  intro H. unfold add_condition. rewrite H.
  apply contains_refl_append.
Qed.

Lemma contains_nonempty (hay needle : string) :
  contains hay needle -> needle <> EmptyString ->
  (String.length hay =? 0)%nat = false.
Proof.
  intros [pre [post ->]] Hne.
  destruct pre; simpl; [|reflexivity].
  destruct needle; [congruence | reflexivity].
Qed.

Lemma decodeStatus_nonempty (c : Z) : decodeStatus c <> EmptyString.
Proof.
  unfold decodeStatus.
  destruct (c =? 0); [discriminate|].
  match goal with
  | |- (if (String.length ?m =? 0)%nat then _ else _) <> _ =>
      destruct m eqn:E
  end; simpl; discriminate.
Qed.

(** C7.  The decoding is a total function of the code: code 0 gives the
    nominal message; a code with bit 2 set gives a message that contains
    the interlock condition, whatever the other bits; a non-zero code
    with none of bits 0..6 set gives exactly the fallback message; and
    no code gives the empty string. *)
Theorem decodeStatus_deterministic :
  decodeStatus 0 = "No Error" /\
  (forall c : Z,
      Z.testbit c 2 = true ->
      contains (decodeStatus c) "Interlock is Open") /\
  (forall c : Z,
      c <> 0 -> Z.land c 127 = 0 -> decodeStatus c = "Unknown Status") /\
  (forall c : Z, decodeStatus c <> EmptyString).
Proof.
  split; [reflexivity|split; [|split]].
  - intros c Hbit.
    assert (Hc : (c =? 0) = false).
    { apply Z.eqb_neq. intros ->. discriminate Hbit. }
    unfold decodeStatus. rewrite Hc.
    match goal with
    | |- contains (if (String.length ?m =? 0)%nat then _ else _) _ =>
        assert (Hm : contains m "Interlock is Open")
    end.
    { do 4 apply add_condition_keeps.
      apply add_condition_adds.
      now rewrite status_bit_testbit by lia. }
    rewrite (contains_nonempty _ _ Hm) by discriminate.
    exact Hm.
  - intros c Hc Hmask.
    unfold decodeStatus, add_condition.
    apply Z.eqb_neq in Hc. rewrite Hc.
    rewrite !status_bit_masked by (assumption || lia).
    reflexivity.
  - exact decodeStatus_nonempty.
Qed.

Lemma decodeStatus_deterministic_witness :
  contains (decodeStatus 6) "Interlock is Open" /\
  decodeStatus 128 = "Unknown Status".
Proof.
  destruct decodeStatus_deterministic as [_ [Hbit [Hunk _]]].
  split.
  - apply Hbit. reflexivity.
  - apply Hunk; [lia | reflexivity].
Defined.

(** ** Strings that survive [c_str] *)

Lemma c_str_append (a b : string) :
  c_str a = a -> c_str b = b -> c_str (append a b) = append a b.
Proof.
  revert b. induction a as [|ch a IH]; simpl; intros b Ha Hb.
  - assumption.
  - destruct (Ascii.eqb ch zero); [discriminate Ha|].
    f_equal. apply IH; [congruence | assumption].
Qed.

Lemma c_str_string_of_uint (d : Decimal.uint) :
  c_str (NilEmpty.string_of_uint d) = NilEmpty.string_of_uint d.
Proof. induction d; simpl; congruence. Qed.

Lemma c_str_string_of_Z (z : Z) : c_str (string_of_Z z) = string_of_Z z.
Proof.
  unfold string_of_Z, NilZero.string_of_int, NilZero.string_of_uint.
  destruct (Z.to_int z) as [d|d]; destruct d; simpl;
    rewrite ?c_str_string_of_uint; reflexivity.
Qed.

Lemma c_str_stream_num (z : Z) :
  c_str (stream_num EmptyString z) = string_of_Z z.
Proof. apply c_str_string_of_Z. Qed.

Lemma c_str_decodeStatus (c : Z) : c_str (decodeStatus c) = decodeStatus c.
Proof.
  unfold decodeStatus, add_condition.
  destruct (c =? 0); [reflexivity|].
  destruct (status_bit c 0), (status_bit c 1), (status_bit c 2),
    (status_bit c 3), (status_bit c 4), (status_bit c 5),
    (status_bit c 6); reflexivity.
Qed.

(** ** Traces *)

Lemma skipn_app_exact {A : Type} (l l' : list A) :
  skipn (List.length l) (l ++ l') = l'.
Proof. induction l; simpl; auto. Qed.

Lemma skipn_exact_nil {A : Type} (l : list A) :
  skipn (List.length l) l = [].
Proof. induction l; simpl; auto. Qed.

Create HintDb adapter.

#[export] Hint Unfold trace bind ret gets modify when emit
  LogMessage OnPropertyChanged Sleep GetParentHub facade_call
  IsDeviceConnected ShutdownDevice GetDeviceStatus
  VerifyLEDEnableStatesWithLock
  GetLEDEnableStates SetLEDEnableStates
  GetSingleLEDEnableState SetSingleLEDEnableState
  GetSingleLEDBrightnessState SetSingleLEDBrightnessState
  GetShutterState SetShutterState
  GetLEDEnableStates_member GetSingleLEDEnableState_member
  GetSingleLEDBrightnessState_member
  invoke_stateCallback_ SetShutterCallback SetStateCallback
  push_enable_states republish_enable republish_brightness : adapter.

#[global] Arguments EncodeLEDStatesInBits : simpl never.
#[global] Arguments DecodeLEDStatesFromBits : simpl never.
#[global] Arguments decodeStatus : simpl never.
#[global] Arguments c_str : simpl never.
#[global] Arguments string_of_Z : simpl never.
#[global] Arguments stream_num : simpl never.
#[global] Arguments stream_uint8 : simpl never.
#[global] Arguments to_uint8 : simpl never.
#[global] Arguments to_uint16 : simpl never.
#[global] Arguments out_of_bounds : simpl never.

(** The adapter's actions down to the primitives of the monad, which
    stay folded. *)
Create HintDb adapter_ops.

#[export] Hint Unfold LogMessage OnPropertyChanged Sleep GetParentHub
  IsDeviceConnected ShutdownDevice GetDeviceStatus
  VerifyLEDEnableStatesWithLock
  GetLEDEnableStates SetLEDEnableStates
  GetSingleLEDEnableState SetSingleLEDEnableState
  GetSingleLEDBrightnessState SetSingleLEDBrightnessState
  GetShutterState SetShutterState
  GetLEDEnableStates_member GetSingleLEDEnableState_member
  GetSingleLEDBrightnessState_member
  invoke_stateCallback_ SetShutterCallback SetStateCallback
  push_enable_states republish_enable republish_brightness : adapter_ops.

(** Unfold the monad, then feed the instrument's answers (equations in
    the context) to the calls as they come up. *)
Ltac feed :=
  repeat match goal with
         | H : ?op = (_, _) |- context [?op] => rewrite H
         | H : ?b = true |- context [negb ?b] => rewrite H
         | H : ?b = false |- context [negb ?b] => rewrite H
         | H : ?b = true |- context [if ?b then _ else _] => rewrite H
         | H : ?b = false |- context [if ?b then _ else _] => rewrite H
         | |- _ => progress cbn
         end.

Ltac run_adapter := autounfold with adapter; feed.

Ltac settle_trace :=
  rewrite <- ?app_assoc; rewrite ?skipn_app_exact, ?skipn_exact_nil;
  cbn [app].

Section AdapterFacts.

Context {HW : Type} {dev : DeviceFacade HW} {codes : ErrorCodes}.

Implicit Types (w : @World HW) (pProp : Property).

Local Abbreviation blind := (@blind HW _).

(** *** The polling thread *)

(** A turn that reads the code that was already stored, or that finds 0
    stored, pushes nothing; it publishes the decoding of the code that
    was stored before the turn. *)
Lemma poll_iteration_quiet w tempStatus h1 status h2 :
  facade_IsDeviceConnected (ChrolisDevice w) = (true, h1) ->
  facade_GetDeviceStatus tempStatus h1 = (0, status, h2) ->
  currentDeviceStatusCode_ w = status \/ currentDeviceStatusCode_ w = 0 ->
  trace (poll_iteration tempStatus) w =
    [EvFacade CallIsDeviceConnected; EvFacade CallGetDeviceStatus;
     EvPropertyChanged "Device Status"
       (decodeStatus (currentDeviceStatusCode_ w));
     EvSleep 500] /\
  currentDeviceStatusCode_ (snd (poll_iteration tempStatus w)) = status.
Proof.
  intros Hc Hs Hcur.
  unfold poll_iteration. run_adapter.
  rewrite c_str_decodeStatus.
  destruct Hcur as [Hcur | Hcur]; rewrite Hcur.
  - rewrite Z.eqb_refl. run_adapter.
    split; [settle_trace|]; reflexivity.
  - destruct (0 =? status); run_adapter;
      (split; [settle_trace|]; reflexivity).
Qed.

(** A turn that reads a code different from the stored one pushes the
    re-read enable states exactly when the code stored before the turn
    was not 0. *)
Lemma poll_iteration_push w tempStatus h1 status h2 states h3 :
  facade_IsDeviceConnected (ChrolisDevice w) = (true, h1) ->
  facade_GetDeviceStatus tempStatus h1 = (0, status, h2) ->
  currentDeviceStatusCode_ w <> status ->
  currentDeviceStatusCode_ w <> 0 ->
  facade_GetLEDEnableStates (repeat 0 NUM_LEDS)
    (facade_VerifyLEDEnableStatesWithLock h2) = (0, states, h3) ->
  trace (poll_iteration tempStatus) w =
    [EvFacade CallIsDeviceConnected; EvFacade CallGetDeviceStatus;
     EvFacade CallVerifyLEDEnableStatesWithLock;
     EvFacade CallGetLEDEnableStates] ++
    pushed (stateCallback_ w) states ++
    [EvPropertyChanged "Device Status"
       (decodeStatus (currentDeviceStatusCode_ w));
     EvSleep 500] /\
  currentDeviceStatusCode_ (snd (poll_iteration tempStatus w)) = status.
Proof.
  intros Hc Hs Hne Hnz Hr.
  apply Z.eqb_neq in Hne, Hnz. cbn in Hr.
  unfold poll_iteration, pushed. run_adapter.
  rewrite c_str_decodeStatus.
  split; [|reflexivity].
  rewrite <- !app_assoc. rewrite skipn_app_exact. reflexivity.
Qed.

(** When the re-read of the enable states fails, nothing is pushed. *)
Lemma poll_iteration_push_read_fails w tempStatus h1 status h2 err states h3 :
  facade_IsDeviceConnected (ChrolisDevice w) = (true, h1) ->
  facade_GetDeviceStatus tempStatus h1 = (0, status, h2) ->
  currentDeviceStatusCode_ w <> status ->
  currentDeviceStatusCode_ w <> 0 ->
  facade_GetLEDEnableStates (repeat 0 NUM_LEDS)
    (facade_VerifyLEDEnableStatesWithLock h2) = (err, states, h3) ->
  err <> 0 ->
  trace (poll_iteration tempStatus) w =
    [EvFacade CallIsDeviceConnected; EvFacade CallGetDeviceStatus;
     EvFacade CallVerifyLEDEnableStatesWithLock;
     EvFacade CallGetLEDEnableStates;
     EvLog "Error getting info from chrolis";
     EvPropertyChanged "Device Status"
       (decodeStatus (currentDeviceStatusCode_ w));
     EvSleep 500].
Proof.
  intros Hc Hs Hne Hnz Hr He.
  apply Z.eqb_neq in Hne, Hnz, He. cbn in Hr.
  unfold poll_iteration. run_adapter.
  rewrite c_str_decodeStatus.
  settle_trace. reflexivity.
Qed.

(** A failed status read ends the thread. *)
Lemma poll_iteration_status_fails w tempStatus h1 err status h2 :
  facade_IsDeviceConnected (ChrolisDevice w) = (true, h1) ->
  facade_GetDeviceStatus tempStatus h1 = (err, status, h2) ->
  err <> 0 ->
  fst (fst (poll_iteration tempStatus w)) = ThreadReturns /\
  threadRunning_ (snd (poll_iteration tempStatus w)) = false /\
  trace (poll_iteration tempStatus) w =
    [EvFacade CallIsDeviceConnected; EvFacade CallGetDeviceStatus;
     EvLog "Error Getting Status"].
Proof.
  intros Hc Hs He. apply Z.eqb_neq in He.
  unfold poll_iteration. run_adapter.
  repeat split. settle_trace. reflexivity.
Qed.

(** With the instrument not connected the turn only sleeps. *)
Lemma poll_iteration_not_connected w tempStatus h1 :
  facade_IsDeviceConnected (ChrolisDevice w) = (false, h1) ->
  trace (poll_iteration tempStatus) w =
    [EvFacade CallIsDeviceConnected; EvSleep 500] /\
  currentDeviceStatusCode_ (snd (poll_iteration tempStatus w)) =
    currentDeviceStatusCode_ w.
Proof.
  intros Hc. unfold poll_iteration. run_adapter.
  split; [settle_trace|]; reflexivity.
Qed.

(** *** The shutter slot *)

Lemma agree_field {A : Type} (g : World -> A) w1 w2 :
  (forall w, g w = g (forget_shutter w)) -> agree w1 w2 -> g w1 = g w2.
Proof. intros Hg H. rewrite (Hg w1), (Hg w2). now rewrite H. Qed.

Lemma agree_events w1 w2 : agree w1 w2 -> events w1 = events w2.
Proof. apply (agree_field events). reflexivity. Qed.

Lemma agree_set f w : agree (set_shutterCallback_ f w) w.
Proof. reflexivity. Qed.

Lemma blind_ret {A : Type} (a : A) : blind (ret a).
Proof. intros w1 w2 H. split; [reflexivity | exact H]. Qed.

Lemma blind_bind {A B : Type} (m : M A) (k : A -> M B) :
  blind m -> (forall a, blind (k a)) -> blind (bind m k).
Proof.
  intros Hm Hk w1 w2 H. unfold bind.
  destruct (Hm w1 w2 H) as [Hv Hw].
  destruct (m w1) as [a1 w1'], (m w2) as [a2 w2']. simpl in Hv, Hw.
  subst a2. apply Hk. exact Hw.
Qed.

Lemma blind_gets {A : Type} (g : World -> A) :
  (forall w, g w = g (forget_shutter w)) -> blind (gets g).
Proof.
  intros Hg w1 w2 H. split; [exact (agree_field g w1 w2 Hg H) | exact H].
Qed.

Lemma blind_modify (g : World -> World) :
  (forall w, forget_shutter (g w) = forget_shutter (g (forget_shutter w))) ->
  blind (modify g).
Proof.
  intros Hg w1 w2 H. split; [reflexivity|].
  unfold agree, modify; simpl. rewrite (Hg w1), (Hg w2). now rewrite H.
Qed.

Lemma blind_emit es : blind (emit es).
Proof. apply blind_modify. reflexivity. Qed.

Lemma blind_facade_call {R : Type} c (op : HW -> R * HW) :
  blind (facade_call c op).
Proof.
  intros w1 w2 H. unfold facade_call.
  rewrite (agree_field ChrolisDevice w1 w2) by (reflexivity || assumption).
  destruct (op (ChrolisDevice w2)) as [r h]. simpl.
  split; [reflexivity|].
  unfold agree in *.
  change (add_events [EvFacade c] (set_ChrolisDevice h (forget_shutter w1))
          = add_events [EvFacade c] (set_ChrolisDevice h (forget_shutter w2))).
  now rewrite H.
Qed.

Lemma blind_when b (m : M unit) : blind m -> blind (when b m).
Proof. intro Hm. destruct b; [exact Hm | apply blind_ret]. Qed.

Ltac blind_step :=
  first
    [ apply blind_ret
    | apply blind_emit
    | apply blind_facade_call
    | apply blind_gets; reflexivity
    | apply blind_modify; reflexivity
    | apply blind_when
    | apply blind_bind; [|intro]
    | match goal with
      | |- blind (if ?b then _ else _) => destruct b
      | |- blind (match ?x with _ => _ end) => destruct x
      end ].

Lemma blind_poll_iteration tempStatus : blind (poll_iteration tempStatus).
Proof.
  unfold poll_iteration. autounfold with adapter_ops.
  repeat blind_step.
Qed.

Lemma blind_polling_loop fuel tempStatus :
  blind (polling_loop fuel tempStatus).
Proof.
  revert tempStatus. induction fuel as [|fuel IH]; intro tempStatus; simpl.
  - apply blind_ret.
  - apply blind_bind; [apply blind_gets; reflexivity|].
    intros [|]; [|apply blind_ret].
    apply blind_bind; [apply blind_poll_iteration|].
    intros [[|] t]; [apply IH | apply blind_ret].
Qed.

Lemma blind_ChrolisHub_Shutdown : blind ChrolisHub_Shutdown.
Proof.
  unfold ChrolisHub_Shutdown. autounfold with adapter_ops.
  repeat blind_step.
Qed.

(** The device-side handlers are blind to the slot as well. *)
Lemma blind_OnState pProp eAct : blind (OnState pProp eAct).
Proof.
  destruct eAct; unfold OnState; autounfold with adapter_ops;
    repeat blind_step.
Qed.

Lemma blind_OnEnableStateChange pProp eAct ledIndex :
  blind (OnEnableStateChange pProp eAct ledIndex).
Proof.
  destruct eAct; unfold OnEnableStateChange; autounfold with adapter_ops;
    repeat blind_step.
Qed.

Lemma blind_OnPowerChange pProp eAct ledIndex :
  blind (OnPowerChange pProp eAct ledIndex).
Proof.
  destruct eAct; unfold OnPowerChange; autounfold with adapter_ops;
    repeat blind_step.
Qed.

Lemma ChrolisShutter_Initialize_installs w :
  hasParentHub w = true ->
  fst (ChrolisShutter_Initialize w) = DEVICE_OK /\
  shutterCallback_ (snd (ChrolisShutter_Initialize w)) = shutter_handler.
Proof.
  intro Hhub. unfold ChrolisShutter_Initialize. run_adapter.
  destruct (facade_IsDeviceConnected (ChrolisDevice w)) as [[|] h1]; cbn.
  - destruct (facade_SetShutterState false h1) as [err h2]; cbn.
    destruct (negb (err =? 0)); cbn; split; reflexivity.
  - split; reflexivity.
Qed.

(** *** Arrays *)

Lemma nth_array_set_same {A : Type} (a : list A) (i : nat) (v d : A) :
  (i < List.length a)%nat -> nth i (array_set a i v) d = v.
Proof.
  revert i. induction a as [|x a IH]; intros [|i] Hi; simpl in *;
    try lia; [reflexivity | apply IH; lia].
Qed.

Lemma array_set_length {A : Type} (a : list A) (i : nat) (v : A) :
  List.length (array_set a i v) = List.length a.
Proof.
  revert i. induction a as [|x a IH]; intros [|i]; simpl; auto.
Qed.

Lemma out_of_bounds_false (val : Z) :
  0 <= val <= 2 ^ 6 - 1 -> out_of_bounds val = false.
Proof.
  intro H. unfold out_of_bounds. apply orb_false_iff. split.
  - rewrite Z.geb_leb. apply Z.leb_gt. simpl. lia.
  - apply Z.ltb_ge. lia.
Qed.

Lemma out_of_bounds_true (val : Z) :
  val < 0 \/ 2 ^ 6 - 1 < val -> out_of_bounds val = true.
Proof.
  intro H. unfold out_of_bounds. apply orb_true_iff.
  destruct H as [H | H].
  - right. apply Z.ltb_lt. lia.
  - left. rewrite Z.geb_leb. apply Z.leb_le. simpl. lia.
Qed.

(** *** Writes with no hub *)

Lemma OnState_set_no_hub w pProp :
  hasParentHub w = false ->
  fst (OnState pProp AfterSet w) = (ERR_HUB_NOT_AVAILABLE, pProp) /\
  trace (OnState pProp AfterSet) w =
    [EvLog "Hub not available";
     EvPropertyChanged (c_str (GetName pProp))
       (c_str (stream_uint8 EmptyString
                 (EncodeLEDStatesInBits (ledStates_ w))))] /\
  ledStates_ (snd (OnState pProp AfterSet w)) = ledStates_ w.
Proof.
  intro Hhub. unfold OnState. run_adapter.
  repeat split. settle_trace. reflexivity.
Qed.

Lemma OnEnableStateChange_set_no_hub w pProp ledIndex :
  hasParentHub w = false ->
  fst (OnEnableStateChange pProp AfterSet ledIndex w)
  = (ERR_HUB_NOT_AVAILABLE, pProp) /\
  trace (OnEnableStateChange pProp AfterSet ledIndex) w =
    [EvLog "Hub not available";
     EvPropertyChanged (c_str (GetName pProp))
       (string_of_Z (nth ledIndex (ledStates_ w) 0))] /\
  ledStates_ (snd (OnEnableStateChange pProp AfterSet ledIndex w))
  = ledStates_ w.
Proof.
  intro Hhub. unfold OnEnableStateChange. run_adapter.
  rewrite c_str_stream_num.
  repeat split. settle_trace. reflexivity.
Qed.

Lemma OnPowerChange_set_no_hub w pProp ledIndex :
  hasParentHub w = false ->
  fst (OnPowerChange pProp AfterSet ledIndex w)
  = (ERR_HUB_NOT_AVAILABLE, pProp) /\
  trace (OnPowerChange pProp AfterSet ledIndex) w =
    [EvLog "Hub not available";
     EvPropertyChanged (c_str (GetName pProp))
       (string_of_Z (nth ledIndex (ledBrightnesses_ w) 0))] /\
  ledBrightnesses_ (snd (OnPowerChange pProp AfterSet ledIndex w))
  = ledBrightnesses_ w.
Proof.
  intro Hhub. unfold OnPowerChange. run_adapter.
  rewrite c_str_stream_num.
  repeat split. settle_trace. reflexivity.
Qed.

Lemma SetOpen_no_hub w open :
  hasParentHub w = false ->
  fst (SetOpen open w) = ERR_HUB_NOT_AVAILABLE /\
  trace (SetOpen open) w = [EvLog "Hub not available"].
Proof.
  intro Hhub. unfold SetOpen. run_adapter.
  split; [reflexivity|]. settle_trace. reflexivity.
Qed.

(** *** An aggregate write out of bounds *)

Lemma OnState_set_out_of_bounds w pProp h1 :
  hasParentHub w = true ->
  facade_IsDeviceConnected (ChrolisDevice w) = (true, h1) ->
  Get pProp < 0 \/ 2 ^ 6 - 1 < Get pProp ->
  fst (OnState pProp AfterSet w) = (ERR_PARAM_NOT_VALID, pProp) /\
  trace (OnState pProp AfterSet) w =
    [EvFacade CallIsDeviceConnected;
     EvLog "Requested state out of bounds";
     EvPropertyChanged (c_str (GetName pProp))
       (c_str (stream_uint8 EmptyString
                 (EncodeLEDStatesInBits (ledStates_ w))))] /\
  ledStates_ (snd (OnState pProp AfterSet w)) = ledStates_ w.
Proof.
  intros Hhub Hc Hval. apply out_of_bounds_true in Hval.
  unfold OnState. run_adapter.
  repeat split. settle_trace. reflexivity.
Qed.

(** *** Writes that the instrument refuses *)

(** Aggregate mask, refused with the device-unavailable code: nothing is
    republished and nothing is re-read. *)
Lemma OnState_set_refused_unavailable w pProp h1 h2 :
  hasParentHub w = true ->
  facade_IsDeviceConnected (ChrolisDevice w) = (true, h1) ->
  0 <= Get pProp <= 2 ^ 6 - 1 ->
  facade_SetLEDEnableStates
    (DecodeLEDStatesFromBits (to_uint8 (Get pProp))) h1
  = (ERR_CHROLIS_NOT_AVAIL, h2) ->
  ERR_CHROLIS_NOT_AVAIL <> 0 ->
  fst (OnState pProp AfterSet w) = (ERR_CHROLIS_NOT_AVAIL, pProp) /\
  trace (OnState pProp AfterSet) w =
    [EvFacade CallIsDeviceConnected;
     EvFacade (CallSetLEDEnableStates
                 (DecodeLEDStatesFromBits (to_uint8 (Get pProp))));
     EvLog "Error Setting LED state"] /\
  ledStates_ (snd (OnState pProp AfterSet w)) = ledStates_ w.
Proof.
  intros Hhub Hc Hval Hset Hnz.
  apply out_of_bounds_false in Hval. apply Z.eqb_neq in Hnz.
  unfold OnState. run_adapter. rewrite Z.eqb_refl. run_adapter.
  repeat split. settle_trace. reflexivity.
Qed.

(** Aggregate mask, refused with any other code: the enable states are
    read back into the last-known cells and the property is republished
    once. *)
Lemma OnState_set_refused w pProp h1 err h2 err' states' h3 :
  hasParentHub w = true ->
  facade_IsDeviceConnected (ChrolisDevice w) = (true, h1) ->
  0 <= Get pProp <= 2 ^ 6 - 1 ->
  facade_SetLEDEnableStates
    (DecodeLEDStatesFromBits (to_uint8 (Get pProp))) h1 = (err, h2) ->
  err <> 0 -> err <> ERR_CHROLIS_NOT_AVAIL ->
  facade_GetLEDEnableStates (ledStates_ w) h2 = (err', states', h3) ->
  fst (OnState pProp AfterSet w) = (err, pProp) /\
  ledStates_ (snd (OnState pProp AfterSet w)) = states' /\
  hardware_calls (trace (OnState pProp AfterSet) w) =
    [EvFacade CallIsDeviceConnected;
     EvFacade (CallSetLEDEnableStates
                 (DecodeLEDStatesFromBits (to_uint8 (Get pProp))));
     EvFacade CallGetLEDEnableStates] /\
  property_changes (trace (OnState pProp AfterSet) w) =
    [EvPropertyChanged (c_str (GetName pProp))
       (c_str (stream_uint8 EmptyString (EncodeLEDStatesInBits states')))].
Proof.
  intros Hhub Hc Hval Hset Hnz Hna Hget.
  apply out_of_bounds_false in Hval. apply Z.eqb_neq in Hnz, Hna.
  unfold OnState. run_adapter.
  destruct (negb (err' =? 0)); run_adapter;
    (repeat split; settle_trace; reflexivity).
Qed.

(** Enable flag of one LED, refused with any code: the flag is read
    back and republished. *)
Lemma OnEnableStateChange_set_refused w pProp ledIndex h1 err h2 err' v' h3 :
  hasParentHub w = true ->
  facade_IsDeviceConnected (ChrolisDevice w) = (true, h1) ->
  (ledIndex < List.length (ledStates_ w))%nat ->
  facade_SetSingleLEDEnableState ledIndex (to_uint16 (Get pProp)) h1
  = (err, h2) ->
  err <> 0 ->
  facade_GetSingleLEDEnableState ledIndex (nth ledIndex (ledStates_ w) 0) h2
  = (err', v', h3) ->
  fst (OnEnableStateChange pProp AfterSet ledIndex w) = (err, pProp) /\
  ledStates_ (snd (OnEnableStateChange pProp AfterSet ledIndex w))
  = array_set (ledStates_ w) ledIndex v' /\
  trace (OnEnableStateChange pProp AfterSet ledIndex) w =
    [EvFacade CallIsDeviceConnected;
     EvFacade (CallSetSingleLEDEnableState ledIndex (to_uint16 (Get pProp)));
     EvLog "Error Setting LED state";
     EvFacade (CallGetSingleLEDEnableState ledIndex);
     EvPropertyChanged (c_str (GetName pProp)) (string_of_Z v')].
Proof.
  intros Hhub Hc Hi Hset Hnz Hget. apply Z.eqb_neq in Hnz.
  unfold OnEnableStateChange. run_adapter.
  rewrite c_str_stream_num, nth_array_set_same by assumption.
  repeat split. settle_trace. reflexivity.
Qed.

(** Brightness of one LED, refused with any code: likewise. *)
Lemma OnPowerChange_set_refused w pProp ledIndex h1 err h2 err' v' h3 :
  hasParentHub w = true ->
  facade_IsDeviceConnected (ChrolisDevice w) = (true, h1) ->
  (ledIndex < List.length (ledBrightnesses_ w))%nat ->
  facade_SetSingleLEDBrightnessState ledIndex (to_uint16 (Get pProp)) h1
  = (err, h2) ->
  err <> 0 ->
  facade_GetSingleLEDBrightnessState ledIndex
    (nth ledIndex (ledBrightnesses_ w) 0) h2 = (err', v', h3) ->
  fst (OnPowerChange pProp AfterSet ledIndex w) = (err, pProp) /\
  ledBrightnesses_ (snd (OnPowerChange pProp AfterSet ledIndex w))
  = array_set (ledBrightnesses_ w) ledIndex v' /\
  trace (OnPowerChange pProp AfterSet ledIndex) w =
    [EvFacade CallIsDeviceConnected;
     EvFacade (CallSetSingleLEDBrightnessState ledIndex
                 (to_uint16 (Get pProp)));
     EvLog "Error Setting LED state";
     EvFacade (CallGetSingleLEDBrightnessState ledIndex);
     EvPropertyChanged (c_str (GetName pProp)) (string_of_Z v')].
Proof.
  intros Hhub Hc Hi Hset Hnz Hget. apply Z.eqb_neq in Hnz.
  unfold OnPowerChange. run_adapter.
  rewrite c_str_stream_num, nth_array_set_same by assumption.
  repeat split. settle_trace. reflexivity.
Qed.

(** *** Writes that the instrument accepts *)

(** Aggregate mask: the written value is republished; the last-known
    cells are not touched. *)
Lemma OnState_set_accepted w pProp h1 h2 :
  hasParentHub w = true ->
  facade_IsDeviceConnected (ChrolisDevice w) = (true, h1) ->
  0 <= Get pProp <= 2 ^ 6 - 1 ->
  facade_SetLEDEnableStates
    (DecodeLEDStatesFromBits (to_uint8 (Get pProp))) h1 = (0, h2) ->
  fst (OnState pProp AfterSet w) = (DEVICE_OK, pProp) /\
  ledStates_ (snd (OnState pProp AfterSet w)) = ledStates_ w /\
  trace (OnState pProp AfterSet) w =
    [EvFacade CallIsDeviceConnected;
     EvFacade (CallSetLEDEnableStates
                 (DecodeLEDStatesFromBits (to_uint8 (Get pProp))));
     EvPropertyChanged (c_str (GetName pProp)) (string_of_Z (Get pProp))].
Proof.
  intros Hhub Hc Hval Hset. apply out_of_bounds_false in Hval.
  unfold OnState. run_adapter. rewrite c_str_stream_num.
  repeat split. settle_trace. reflexivity.
Qed.

(** Enable flag of one LED: the cell takes the written value, which is
    republished. *)
Lemma OnEnableStateChange_set_accepted w pProp ledIndex h1 h2 :
  hasParentHub w = true ->
  facade_IsDeviceConnected (ChrolisDevice w) = (true, h1) ->
  (ledIndex < List.length (ledStates_ w))%nat ->
  facade_SetSingleLEDEnableState ledIndex (to_uint16 (Get pProp)) h1
  = (0, h2) ->
  fst (OnEnableStateChange pProp AfterSet ledIndex w) = (DEVICE_OK, pProp) /\
  ledStates_ (snd (OnEnableStateChange pProp AfterSet ledIndex w))
  = array_set (ledStates_ w) ledIndex (to_uint16 (Get pProp)) /\
  trace (OnEnableStateChange pProp AfterSet ledIndex) w =
    [EvFacade CallIsDeviceConnected;
     EvFacade (CallSetSingleLEDEnableState ledIndex (to_uint16 (Get pProp)));
     EvPropertyChanged (c_str (GetName pProp))
       (string_of_Z (to_uint16 (Get pProp)))].
Proof.
  intros Hhub Hc Hi Hset.
  unfold OnEnableStateChange. run_adapter.
  rewrite c_str_stream_num, nth_array_set_same by assumption.
  repeat split. settle_trace. reflexivity.
Qed.

(** Brightness of one LED: likewise. *)
Lemma OnPowerChange_set_accepted w pProp ledIndex h1 h2 :
  hasParentHub w = true ->
  facade_IsDeviceConnected (ChrolisDevice w) = (true, h1) ->
  (ledIndex < List.length (ledBrightnesses_ w))%nat ->
  facade_SetSingleLEDBrightnessState ledIndex (to_uint16 (Get pProp)) h1
  = (0, h2) ->
  fst (OnPowerChange pProp AfterSet ledIndex w) = (DEVICE_OK, pProp) /\
  ledBrightnesses_ (snd (OnPowerChange pProp AfterSet ledIndex w))
  = array_set (ledBrightnesses_ w) ledIndex (to_uint16 (Get pProp)) /\
  trace (OnPowerChange pProp AfterSet ledIndex) w =
    [EvFacade CallIsDeviceConnected;
     EvFacade (CallSetSingleLEDBrightnessState ledIndex
                 (to_uint16 (Get pProp)));
     EvPropertyChanged (c_str (GetName pProp))
       (string_of_Z (to_uint16 (Get pProp)))].
Proof.
  intros Hhub Hc Hi Hset.
  unfold OnPowerChange. run_adapter.
  rewrite c_str_stream_num, nth_array_set_same by assumption.
  repeat split. settle_trace. reflexivity.
Qed.

(** *** Reads *)

Lemma array_set_nth_same {A : Type} (a : list A) (i : nat) (d : A) :
  array_set a i (nth i a d) = a.
Proof.
  revert i. induction a as [|x a IH]; intros [|i]; simpl;
    try reflexivity. now rewrite IH.
Qed.

(** Aggregate mask: connected or not, the enable states are read into
    the last-known cells, whose encoding is presented. *)
Lemma OnState_get w pProp c h1 err states' h2 :
  hasParentHub w = true ->
  facade_IsDeviceConnected (ChrolisDevice w) = (c, h1) ->
  facade_GetLEDEnableStates (ledStates_ w) h1 = (err, states', h2) ->
  fst (OnState pProp BeforeGet w)
  = (DEVICE_OK, Set_ pProp (EncodeLEDStatesInBits states')) /\
  ledStates_ (snd (OnState pProp BeforeGet w)) = states' /\
  hardware_calls (trace (OnState pProp BeforeGet) w) =
    [EvFacade CallIsDeviceConnected; EvFacade CallGetLEDEnableStates] /\
  property_changes (trace (OnState pProp BeforeGet) w) = [].
Proof.
  intros Hhub Hc Hget.
  unfold OnState. run_adapter.
  destruct c; run_adapter; destruct (negb (err =? 0)); run_adapter;
    (repeat split; settle_trace; reflexivity).
Qed.

Lemma OnEnableStateChange_get w pProp ledIndex c h1 err v' h2 :
  hasParentHub w = true ->
  facade_IsDeviceConnected (ChrolisDevice w) = (c, h1) ->
  facade_GetSingleLEDEnableState ledIndex (nth ledIndex (ledStates_ w) 0) h1
  = (err, v', h2) ->
  fst (OnEnableStateChange pProp BeforeGet ledIndex w)
  = (DEVICE_OK,
     Set_ pProp (nth ledIndex (array_set (ledStates_ w) ledIndex v') 0)) /\
  ledStates_ (snd (OnEnableStateChange pProp BeforeGet ledIndex w))
  = array_set (ledStates_ w) ledIndex v' /\
  hardware_calls (trace (OnEnableStateChange pProp BeforeGet ledIndex) w) =
    [EvFacade CallIsDeviceConnected;
     EvFacade (CallGetSingleLEDEnableState ledIndex)] /\
  property_changes (trace (OnEnableStateChange pProp BeforeGet ledIndex) w)
  = [].
Proof.
  intros Hhub Hc Hget.
  unfold OnEnableStateChange. run_adapter.
  destruct c; run_adapter; destruct (negb (err =? 0)); run_adapter;
    (repeat split; settle_trace; reflexivity).
Qed.

Lemma OnPowerChange_get w pProp ledIndex c h1 err v' h2 :
  hasParentHub w = true ->
  facade_IsDeviceConnected (ChrolisDevice w) = (c, h1) ->
  facade_GetSingleLEDBrightnessState ledIndex
    (nth ledIndex (ledBrightnesses_ w) 0) h1 = (err, v', h2) ->
  fst (OnPowerChange pProp BeforeGet ledIndex w)
  = (DEVICE_OK,
     Set_ pProp
       (nth ledIndex (array_set (ledBrightnesses_ w) ledIndex v') 0)) /\
  ledBrightnesses_ (snd (OnPowerChange pProp BeforeGet ledIndex w))
  = array_set (ledBrightnesses_ w) ledIndex v' /\
  hardware_calls (trace (OnPowerChange pProp BeforeGet ledIndex) w) =
    [EvFacade CallIsDeviceConnected;
     EvFacade (CallGetSingleLEDBrightnessState ledIndex)] /\
  property_changes (trace (OnPowerChange pProp BeforeGet ledIndex) w) = [].
Proof.
  intros Hhub Hc Hget.
  unfold OnPowerChange. run_adapter.
  destruct c; run_adapter; destruct (negb (err =? 0)); run_adapter;
    (repeat split; settle_trace; reflexivity).
Qed.

(** Shutter, connected: the read is made and its status dropped. *)
Lemma GetOpen_connected w open h1 err open' h2 :
  hasParentHub w = true ->
  facade_IsDeviceConnected (ChrolisDevice w) = (true, h1) ->
  facade_GetShutterState open h1 = (err, open', h2) ->
  fst (GetOpen open w) = (DEVICE_OK, open') /\
  trace (GetOpen open) w =
    [EvFacade CallIsDeviceConnected; EvFacade CallGetShutterState].
Proof.
  intros Hhub Hc Hget. unfold GetOpen. run_adapter.
  split; [reflexivity|]. settle_trace. reflexivity.
Qed.

(** Shutter, not connected: the get fails before any read. *)
Lemma GetOpen_not_connected w open h1 :
  hasParentHub w = true ->
  facade_IsDeviceConnected (ChrolisDevice w) = (false, h1) ->
  fst (GetOpen open w) = (ERR_CHROLIS_NOT_AVAIL, open) /\
  trace (GetOpen open) w =
    [EvFacade CallIsDeviceConnected; EvLog "CHROLIS not available"].
Proof.
  intros Hhub Hc. unfold GetOpen. run_adapter.
  split; [reflexivity|]. settle_trace. reflexivity.
Qed.

Lemma hardware_call_attempted (c : FacadeCall) (es : list Event) :
  In (EvFacade c) (hardware_calls es) -> In (EvFacade c) es.
Proof. unfold hardware_calls. rewrite filter_In. tauto. Qed.

(** ** The claims that hold for every instrument *)

(** C9, amended.  With no hub resolvable, a write returns
    [ERR_HUB_NOT_AVAILABLE], makes no call on the instrument and leaves
    the last-known cells alone.  A per-channel enable or brightness
    write republishes the decimal last-known value of its channel; an
    aggregate write republishes the State property once; the shutter's
    [SetOpen] republishes nothing. *)
Theorem write_without_hub w pProp ledIndex open :
  hasParentHub w = false ->
  (fst (OnEnableStateChange pProp AfterSet ledIndex w)
   = (ERR_HUB_NOT_AVAILABLE, pProp) /\
   trace (OnEnableStateChange pProp AfterSet ledIndex) w =
     [EvLog "Hub not available";
      EvPropertyChanged (c_str (GetName pProp))
        (string_of_Z (nth ledIndex (ledStates_ w) 0))] /\
   ledStates_ (snd (OnEnableStateChange pProp AfterSet ledIndex w))
   = ledStates_ w) /\
  (fst (OnPowerChange pProp AfterSet ledIndex w)
   = (ERR_HUB_NOT_AVAILABLE, pProp) /\
   trace (OnPowerChange pProp AfterSet ledIndex) w =
     [EvLog "Hub not available";
      EvPropertyChanged (c_str (GetName pProp))
        (string_of_Z (nth ledIndex (ledBrightnesses_ w) 0))] /\
   ledBrightnesses_ (snd (OnPowerChange pProp AfterSet ledIndex w))
   = ledBrightnesses_ w) /\
  (fst (OnState pProp AfterSet w) = (ERR_HUB_NOT_AVAILABLE, pProp) /\
   hardware_calls (trace (OnState pProp AfterSet) w) = [] /\
   (exists value,
      property_changes (trace (OnState pProp AfterSet) w)
      = [EvPropertyChanged (c_str (GetName pProp)) value]) /\
   ledStates_ (snd (OnState pProp AfterSet w)) = ledStates_ w) /\
  (fst (SetOpen open w) = ERR_HUB_NOT_AVAILABLE /\
   trace (SetOpen open) w = [EvLog "Hub not available"]).
Proof.
  intro Hhub.
  split; [now apply OnEnableStateChange_set_no_hub|].
  split; [now apply OnPowerChange_set_no_hub|].
  split; [|now apply SetOpen_no_hub].
  destruct (OnState_set_no_hub w pProp Hhub) as [Hr [Ht Hs]].
  rewrite Ht. repeat split; try assumption.
  eexists. reflexivity.
Qed.

(** C2, amended.  With the hub resolved and the instrument connected, a
    write that the instrument refuses returns the instrument's error.
    For the aggregate mask, a refusal with the device-unavailable code
    republishes nothing and re-reads nothing, and a refusal with any
    other code reads the enable states back into the last-known cells
    and republishes the State property once.  For a per-channel enable
    or brightness, a refusal with any code, device-unavailable
    included, reads that channel back into its last-known cell and
    republishes the decimal value of the cell. *)
Theorem refused_write_policy w h1 :
  hasParentHub w = true ->
  facade_IsDeviceConnected (ChrolisDevice w) = (true, h1) ->
  (forall pProp h2,
     0 <= Get pProp <= 2 ^ 6 - 1 ->
     facade_SetLEDEnableStates
       (DecodeLEDStatesFromBits (to_uint8 (Get pProp))) h1
     = (ERR_CHROLIS_NOT_AVAIL, h2) ->
     ERR_CHROLIS_NOT_AVAIL <> 0 ->
     fst (OnState pProp AfterSet w) = (ERR_CHROLIS_NOT_AVAIL, pProp) /\
     property_changes (trace (OnState pProp AfterSet) w) = [] /\
     hardware_calls (trace (OnState pProp AfterSet) w) =
       [EvFacade CallIsDeviceConnected;
        EvFacade (CallSetLEDEnableStates
                    (DecodeLEDStatesFromBits (to_uint8 (Get pProp))))] /\
     ledStates_ (snd (OnState pProp AfterSet w)) = ledStates_ w) /\
  (forall pProp err h2 err' states' h3,
     0 <= Get pProp <= 2 ^ 6 - 1 ->
     facade_SetLEDEnableStates
       (DecodeLEDStatesFromBits (to_uint8 (Get pProp))) h1 = (err, h2) ->
     err <> 0 -> err <> ERR_CHROLIS_NOT_AVAIL ->
     facade_GetLEDEnableStates (ledStates_ w) h2 = (err', states', h3) ->
     fst (OnState pProp AfterSet w) = (err, pProp) /\
     ledStates_ (snd (OnState pProp AfterSet w)) = states' /\
     exists value,
       property_changes (trace (OnState pProp AfterSet) w)
       = [EvPropertyChanged (c_str (GetName pProp)) value]) /\
  (forall pProp ledIndex err h2 err' v' h3,
     (ledIndex < List.length (ledStates_ w))%nat ->
     facade_SetSingleLEDEnableState ledIndex (to_uint16 (Get pProp)) h1
     = (err, h2) ->
     err <> 0 ->
     facade_GetSingleLEDEnableState ledIndex
       (nth ledIndex (ledStates_ w) 0) h2 = (err', v', h3) ->
     fst (OnEnableStateChange pProp AfterSet ledIndex w) = (err, pProp) /\
     ledStates_ (snd (OnEnableStateChange pProp AfterSet ledIndex w))
     = array_set (ledStates_ w) ledIndex v' /\
     property_changes (trace (OnEnableStateChange pProp AfterSet ledIndex) w)
     = [EvPropertyChanged (c_str (GetName pProp)) (string_of_Z v')]) /\
  (forall pProp ledIndex err h2 err' v' h3,
     (ledIndex < List.length (ledBrightnesses_ w))%nat ->
     facade_SetSingleLEDBrightnessState ledIndex (to_uint16 (Get pProp)) h1
     = (err, h2) ->
     err <> 0 ->
     facade_GetSingleLEDBrightnessState ledIndex
       (nth ledIndex (ledBrightnesses_ w) 0) h2 = (err', v', h3) ->
     fst (OnPowerChange pProp AfterSet ledIndex w) = (err, pProp) /\
     ledBrightnesses_ (snd (OnPowerChange pProp AfterSet ledIndex w))
     = array_set (ledBrightnesses_ w) ledIndex v' /\
     property_changes (trace (OnPowerChange pProp AfterSet ledIndex) w)
     = [EvPropertyChanged (c_str (GetName pProp)) (string_of_Z v')]).
Proof.
  intros Hhub Hc. split; [|split; [|split]].
  - intros pProp h2 Hval Hset Hnz.
    destruct (OnState_set_refused_unavailable w pProp h1 h2
                Hhub Hc Hval Hset Hnz) as [Hr [Ht Hs]].
    rewrite Ht. repeat split; assumption.
  - intros pProp err h2 err' states' h3 Hval Hset Hnz Hna Hget.
    destruct (OnState_set_refused w pProp h1 err h2 err' states' h3
                Hhub Hc Hval Hset Hnz Hna Hget) as [Hr [Hs [_ Hp]]].
    repeat split; try assumption. eexists. exact Hp.
  - intros pProp ledIndex err h2 err' v' h3 Hi Hset Hnz Hget.
    destruct (OnEnableStateChange_set_refused w pProp ledIndex h1 err h2
                err' v' h3 Hhub Hc Hi Hset Hnz Hget) as [Hr [Hs Ht]].
    rewrite Ht. repeat split; assumption.
  - intros pProp ledIndex err h2 err' v' h3 Hi Hset Hnz Hget.
    destruct (OnPowerChange_set_refused w pProp ledIndex h1 err h2
                err' v' h3 Hhub Hc Hi Hset Hnz Hget) as [Hr [Hs Ht]].
    rewrite Ht. repeat split; assumption.
Qed.

(** C3, amended.  With the hub resolved, the gets of the aggregate mask,
    of a per-channel enable and of a per-channel brightness never fail:
    connected or not, the hardware read is attempted, the handler
    returns [DEVICE_OK], and the value presented is the one in the
    last-known cell, which a failed read leaves as it was when the
    instrument wrapper keeps the out-parameter of a failed read.  The
    shutter's get is different: connected, it attempts the read and
    returns [DEVICE_OK] whatever the read reports; not connected, it
    returns [ERR_CHROLIS_NOT_AVAIL] without attempting the read. *)
Theorem read_path_policy w pProp ledIndex open c h1 :
  hasParentHub w = true ->
  facade_IsDeviceConnected (ChrolisDevice w) = (c, h1) ->
  (let r := OnState pProp BeforeGet w in
   fst (fst r) = DEVICE_OK /\
   Get (snd (fst r)) = EncodeLEDStatesInBits (ledStates_ (snd r)) /\
   In (EvFacade CallGetLEDEnableStates)
      (trace (OnState pProp BeforeGet) w) /\
   (reads_retain_on_failure dev ->
    fst (fst (facade_GetLEDEnableStates (ledStates_ w) h1)) <> 0 ->
    ledStates_ (snd r) = ledStates_ w)) /\
  (let r := OnEnableStateChange pProp BeforeGet ledIndex w in
   fst (fst r) = DEVICE_OK /\
   Get (snd (fst r)) = nth ledIndex (ledStates_ (snd r)) 0 /\
   In (EvFacade (CallGetSingleLEDEnableState ledIndex))
      (trace (OnEnableStateChange pProp BeforeGet ledIndex) w) /\
   (reads_retain_on_failure dev ->
    fst (fst (facade_GetSingleLEDEnableState ledIndex
                (nth ledIndex (ledStates_ w) 0) h1)) <> 0 ->
    ledStates_ (snd r) = ledStates_ w)) /\
  (let r := OnPowerChange pProp BeforeGet ledIndex w in
   fst (fst r) = DEVICE_OK /\
   Get (snd (fst r)) = nth ledIndex (ledBrightnesses_ (snd r)) 0 /\
   In (EvFacade (CallGetSingleLEDBrightnessState ledIndex))
      (trace (OnPowerChange pProp BeforeGet ledIndex) w) /\
   (reads_retain_on_failure dev ->
    fst (fst (facade_GetSingleLEDBrightnessState ledIndex
                (nth ledIndex (ledBrightnesses_ w) 0) h1)) <> 0 ->
    ledBrightnesses_ (snd r) = ledBrightnesses_ w)) /\
  (if c then
     fst (fst (GetOpen open w)) = DEVICE_OK /\
     In (EvFacade CallGetShutterState) (trace (GetOpen open) w)
   else
     fst (GetOpen open w) = (ERR_CHROLIS_NOT_AVAIL, open) /\
     hardware_calls (trace (GetOpen open) w)
     = [EvFacade CallIsDeviceConnected]).
Proof.
  intros Hhub Hc. split; [|split; [|split]].
  - destruct (facade_GetLEDEnableStates (ledStates_ w) h1)
      as [[err states'] h2] eqn:Hget.
    destruct (OnState_get w pProp c h1 err states' h2 Hhub Hc Hget)
      as [Hr [Hs [Hh _]]].
    cbv zeta. rewrite Hr, Hs. repeat split.
    + apply hardware_call_attempted. rewrite Hh. simpl. tauto.
    + intros [Hretain _] Herr.
      specialize (Hretain (ledStates_ w) h1).
      rewrite Hget in Hretain. exact (Hretain Herr).
  - destruct (facade_GetSingleLEDEnableState ledIndex
                (nth ledIndex (ledStates_ w) 0) h1)
      as [[err v'] h2] eqn:Hget.
    destruct (OnEnableStateChange_get w pProp ledIndex c h1 err v' h2
                Hhub Hc Hget) as [Hr [Hs [Hh _]]].
    cbv zeta. rewrite Hr, Hs. repeat split.
    + apply hardware_call_attempted. rewrite Hh. simpl. tauto.
    + intros [_ [Hretain _]] Herr.
      specialize (Hretain ledIndex (nth ledIndex (ledStates_ w) 0) h1).
      rewrite Hget in Hretain. simpl in Hretain, Herr.
      rewrite (Hretain Herr). apply array_set_nth_same.
  - destruct (facade_GetSingleLEDBrightnessState ledIndex
                (nth ledIndex (ledBrightnesses_ w) 0) h1)
      as [[err v'] h2] eqn:Hget.
    destruct (OnPowerChange_get w pProp ledIndex c h1 err v' h2
                Hhub Hc Hget) as [Hr [Hs [Hh _]]].
    cbv zeta. rewrite Hr, Hs. repeat split.
    + apply hardware_call_attempted. rewrite Hh. simpl. tauto.
    + intros [_ [_ Hretain]] Herr.
      specialize (Hretain ledIndex (nth ledIndex (ledBrightnesses_ w) 0) h1).
      rewrite Hget in Hretain. simpl in Hretain, Herr.
      rewrite (Hretain Herr). apply array_set_nth_same.
  - destruct c.
    + destruct (facade_GetShutterState open h1) as [[err open'] h2] eqn:Hget.
      destruct (GetOpen_connected w open h1 err open' h2 Hhub Hc Hget)
        as [Hr Ht].
      rewrite Hr, Ht. split; [reflexivity | simpl; tauto].
    + destruct (GetOpen_not_connected w open h1 Hhub Hc) as [Hr Ht].
      rewrite Hr, Ht. split; reflexivity.
Qed.

End AdapterFacts.

(** ** The shutter slot across the operations of the hub *)

Section HubFacts.

Context {HW P : Type} {dev : DeviceFacade HW} {setup : SetupFacade HW}
  {host : HostServices P}.

Local Abbreviation site_blind := (@site_blind HW P _).

Lemma site_agree_with f (s : @Site HW P) :
  site_agree (with_shutterCallback_ f s) s.
Proof. repeat split. Qed.

Lemma site_blind_iret {A : Type} (a : A) : site_blind (iret a).
Proof. intros s1 s2 H. split; [reflexivity | exact H]. Qed.

Lemma site_blind_ibind {A B : Type} (m : Init A) (k : A -> Init B) :
  site_blind m -> (forall a, site_blind (k a)) -> site_blind (ibind m k).
Proof.
  intros Hm Hk s1 s2 H. unfold ibind.
  destruct (Hm s1 s2 H) as [Hv Hs].
  destruct (m s1) as [a1 s1'], (m s2) as [a2 s2']. simpl in Hv, Hs.
  subst a2. apply Hk. exact Hs.
Qed.

Lemma site_blind_lift {A : Type} (m : @M HW A) :
  blind m -> site_blind (lift m).
Proof.
  intros Hm s1 s2 (Hw & Hp & Hc). unfold lift.
  destruct (Hm _ _ Hw) as [Hv Hw'].
  destruct (m (site_world s1)) as [a1 w1], (m (site_world s2)) as [a2 w2].
  simpl in *. repeat split; assumption.
Qed.

Lemma site_blind_wrapper_call {R : Type} c (op : HW -> R * HW) :
  site_blind (wrapper_call c op).
Proof.
  intros s1 s2 (Hw & Hp & Hc). unfold wrapper_call.
  rewrite (agree_field ChrolisDevice _ _ (fun _ => eq_refl) Hw).
  destruct (op (ChrolisDevice (site_world s2))) as [r h]. simpl.
  repeat split; [|assumption|now rewrite Hc].
  unfold agree in *.
  change (set_ChrolisDevice h (forget_shutter (site_world s1))
          = set_ChrolisDevice h (forget_shutter (site_world s2))).
  now rewrite Hw.
Qed.

Lemma site_blind_host_call {R : Type} c (op : P -> R * P) :
  site_blind (host_call c op).
Proof.
  intros s1 s2 (Hw & Hp & Hc). unfold host_call. rewrite Hp.
  destruct (op (site_base s2)) as [r p]. simpl.
  repeat split; [assumption | now rewrite Hc].
Qed.

Ltac site_blind_step :=
  first
    [ apply site_blind_iret
    | apply site_blind_wrapper_call
    | apply site_blind_host_call
    | apply site_blind_lift
    | apply site_blind_ibind; [|intro]
    | match goal with
      | |- site_blind (if ?b then _ else _) => destruct b
      | |- site_blind (match ?x with _ => _ end) => destruct x
      end ].

Lemma site_blind_ChrolisHub_Initialize locals deviceStatusMessage_ :
  site_blind (ChrolisHub_Initialize locals deviceStatusMessage_).
Proof.
  unfold ChrolisHub_Initialize, InitializeDevice, GetSerialNumber,
    GetManufacturerName, GetLEDWavelengths, GetProperty,
    CreateStringProperty.
  repeat site_blind_step.
  all: first [ apply blind_emit | apply blind_modify; reflexivity ].
Qed.

Lemma site_blind_run_hub op : site_blind (run_hub op).
Proof.
  destruct op; unfold run_hub;
    (apply site_blind_ibind; [|intro; apply site_blind_iret]).
  - apply site_blind_ChrolisHub_Initialize.
  - apply site_blind_lift, blind_ChrolisHub_Shutdown.
  - apply site_blind_lift, blind_ret.
  - apply site_blind_lift, blind_polling_loop.
  - apply site_blind_lift, blind_poll_iteration.
  - apply site_blind_lift, blind_modify. reflexivity.
  - apply site_blind_lift, blind_modify. reflexivity.
Qed.

(** C10.  The shutter's slot has no effect.  The handler that
    [ChrolisShutter::Initialize] installs does nothing on any
    [(index, value)]; and the hub never invokes whatever the slot
    holds: for every operation of the hub ([Initialize], [Shutdown],
    [Busy], the polling thread for any number of turns, a single turn
    from any content of the thread's local, either setter) and every
    handler [f], running the operation with [f] in the shutter slot
    hands back the same answer and leaves the same calls, the same base
    class, the same events and the same world up to the slot as running
    it without. *)
Theorem shutter_slot_inert :
  (forall ledNum state : Z, shutter_handler ledNum state = []) /\
  (forall (codes : ErrorCodes) (w : @World HW), hasParentHub w = true ->
     shutterCallback_ (snd (ChrolisShutter_Initialize w))
     = shutter_handler) /\
  (forall (op : HubOperation) (f : Callback) (s : @Site HW P),
     fst (run_hub op (with_shutterCallback_ f s)) = fst (run_hub op s) /\
     site_calls (snd (run_hub op (with_shutterCallback_ f s)))
     = site_calls (snd (run_hub op s)) /\
     site_base (snd (run_hub op (with_shutterCallback_ f s)))
     = site_base (snd (run_hub op s)) /\
     events (site_world (snd (run_hub op (with_shutterCallback_ f s))))
     = events (site_world (snd (run_hub op s))) /\
     agree (site_world (snd (run_hub op (with_shutterCallback_ f s))))
       (site_world (snd (run_hub op s)))).
Proof.
  split; [reflexivity | split].
  - intros codes w Hhub. now apply ChrolisShutter_Initialize_installs.
  - intros op f s.
    destruct (site_blind_run_hub op _ _ (site_agree_with f s))
      as (Hv & Hw & Hp & Hc).
    repeat split; try assumption. now apply agree_events.
Qed.

End HubFacts.

(** * Concrete runs on the bench instrument *)

(** ** Instances of the general claims *)

Lemma shutter_slot_inert_witness :
  shutterCallback_
    (snd (ChrolisShutter_Initialize
            (bench_world true (healthy 0 all_off) 0 all_off bench_levels)))
  = shutter_handler /\
  events
    (site_world
       (snd (run_hub (OpStatusChangedPollingThread 3)
               (with_shutterCallback_ (probe "shutter")
                  (bench_site
                     (bench_world true (healthy 0 [1; 1; 0; 1; 1; 1]) 4
                        all_off bench_levels) [])))))
  = events
      (site_world
         (snd (run_hub (OpStatusChangedPollingThread 3)
                 (bench_site
                    (bench_world true (healthy 0 [1; 1; 0; 1; 1; 1]) 4
                       all_off bench_levels) [])))) /\
  fst (run_hub (OpInitialize bench_locals "No Error")
         (with_shutterCallback_ (probe "shutter")
            (bench_site
               (bench_world true (healthy 0 all_off) 0 all_off bench_levels)
               [])))
  = fst (run_hub (OpInitialize bench_locals "No Error")
           (bench_site
              (bench_world true (healthy 0 all_off) 0 all_off bench_levels)
              [])).
Proof.
  destruct (@shutter_slot_inert Bench Desk bench_facade bench_setup
              desk_services)
    as [_ [Hinstall Hblind]].
  split; [|split].
  - apply (Hinstall bench_codes). reflexivity.
  - apply Hblind.
  - apply Hblind.
Defined.

Lemma write_without_hub_witness :
  trace (OnEnableStateChange (enable_property 2 1) AfterSet 2)
    (bench_world false (healthy 0 all_off) 0 [1; 0; 1; 0; 0; 0]
       bench_levels)
  = [EvLog "Hub not available";
     EvPropertyChanged "LED Enable State 3" "1"] /\
  fst (SetOpen true
         (bench_world false (healthy 0 all_off) 0 [1; 0; 1; 0; 0; 0]
            bench_levels))
  = ERR_HUB_NOT_AVAILABLE.
Proof.
  destruct (@write_without_hub Bench bench_facade bench_codes
              (bench_world false (healthy 0 all_off) 0 [1; 0; 1; 0; 0; 0]
                 bench_levels)
              (enable_property 2 1) 2%nat true eq_refl)
    as [[_ [Ht _]] [_ [_ [Hs _]]]].
  split; [exact Ht | exact Hs].
Defined.

Lemma refused_write_policy_witness :
  property_changes
    (trace (OnState (state_property 5) AfterSet)
       (bench_world true (write_failing 102 all_off) 0 all_off bench_levels))
  = [] /\
  property_changes
    (trace (OnPowerChange (power_property 1 750) AfterSet 1)
       (bench_world true (write_failing 102 all_off) 0 all_off bench_levels))
  = [EvPropertyChanged "LED 2 Power" "200"].
Proof.
  destruct (@refused_write_policy Bench bench_facade bench_codes
              (bench_world true (write_failing 102 all_off) 0 all_off
                 bench_levels)
              (write_failing 102 all_off) eq_refl eq_refl)
    as [Hmask [_ [_ Hpower]]].
  split.
  - refine (proj1 (proj2 (Hmask (state_property 5)
                            (write_failing 102 all_off) _ eq_refl _))).
    + simpl. lia.
    + discriminate.
  - refine (proj2 (proj2 (Hpower (power_property 1 750) 1%nat 102
                            (write_failing 102 all_off) 0 200
                            (write_failing 102 all_off) _ eq_refl _
                            eq_refl))).
    + simpl. lia.
    + discriminate.
Defined.

Lemma bench_reads_retain : reads_retain_on_failure bench_facade.
Proof.
  unfold reads_retain_on_failure, bench_facade, bench_read; simpl.
  repeat split; intros;
    match goal with
    | H : ?e <> 0 |- context [?e =? 0] =>
        apply Z.eqb_neq in H; rewrite H; reflexivity
    end.
Qed.

Lemma read_path_policy_witness :
  fst (fst (OnState (state_property 0) BeforeGet
              (bench_world true disconnected 0 [1; 0; 1; 0; 0; 0]
                 bench_levels)))
  = DEVICE_OK /\
  ledStates_
    (snd (OnState (state_property 0) BeforeGet
            (bench_world true disconnected 0 [1; 0; 1; 0; 0; 0]
               bench_levels)))
  = [1; 0; 1; 0; 0; 0] /\
  fst (GetOpen false
         (bench_world true disconnected 0 [1; 0; 1; 0; 0; 0] bench_levels))
  = (ERR_CHROLIS_NOT_AVAIL, false).
Proof.
  destruct (@read_path_policy Bench bench_facade bench_codes
              (bench_world true disconnected 0 [1; 0; 1; 0; 0; 0]
                 bench_levels)
              (state_property 0) 0%nat false false disconnected
              eq_refl eq_refl)
    as [[Hok [_ [_ Hkept]]] [_ [_ [Hshutter _]]]].
  split; [exact Hok | split; [|exact Hshutter]].
  apply Hkept; [exact bench_reads_retain | discriminate].
Defined.

(** ** Where the stated claims fail *)

(** C2, as stated, fails: a per-channel enable write that the instrument
    refuses with the device-unavailable code is not left as the caller
    set it; the flag is read back and republished (here the caller's 1
    is replaced by the instrument's 0). *)
Lemma refused_write_policy_counterexample :
  fst (OnEnableStateChange (enable_property 2 1) AfterSet 2
         (bench_world true (write_failing 102 all_off) 0 all_off
            bench_levels))
  = (ERR_CHROLIS_NOT_AVAIL, enable_property 2 1) /\
  property_changes
    (trace (OnEnableStateChange (enable_property 2 1) AfterSet 2)
       (bench_world true (write_failing 102 all_off) 0 all_off
          bench_levels))
  = [EvPropertyChanged "LED Enable State 3" "0"] /\
  property_changes
    (trace (OnEnableStateChange (enable_property 2 1) AfterSet 2)
       (bench_world true (write_failing 102 all_off) 0 all_off
          bench_levels))
  <> [].
Proof. repeat split. discriminate. Qed.

(** C3, as stated, fails for the shutter: with the hub resolved and the
    instrument not connected, [GetOpen] returns an error and never
    attempts the read. *)
Lemma read_path_policy_counterexample :
  fst (fst (GetOpen false
              (bench_world true disconnected 0 all_off bench_levels)))
  = ERR_CHROLIS_NOT_AVAIL /\
  fst (fst (GetOpen false
              (bench_world true disconnected 0 all_off bench_levels)))
  <> DEVICE_OK /\
  trace (GetOpen false)
    (bench_world true disconnected 0 all_off bench_levels)
  = [EvFacade CallIsDeviceConnected; EvLog "CHROLIS not available"] /\
  ~ In (EvFacade CallGetShutterState)
      (trace (GetOpen false)
         (bench_world true disconnected 0 all_off bench_levels)).
Proof.
  repeat split; try discriminate.
  simpl. intros [H | [H | []]]; discriminate H.
Qed.

(** C9, as stated, fails: with no hub, the shutter's write republishes
    nothing at all, and the aggregate write, with last-known mask 1,
    republishes the one-character string of code 1 rather than the
    value 1. *)
Lemma write_without_hub_counterexample :
  property_changes
    (trace (SetOpen true)
       (bench_world false (healthy 0 all_off) 0 all_off bench_levels))
  = [] /\
  EncodeLEDStatesInBits [1; 0; 0; 0; 0; 0] = 1 /\
  property_changes
    (trace (OnState (state_property 7) AfterSet)
       (bench_world false (healthy 0 all_off) 0 [1; 0; 0; 0; 0; 0]
          bench_levels))
  = [EvPropertyChanged "State" (String (ascii_of_N 1) EmptyString)] /\
  property_changes
    (trace (OnState (state_property 7) AfterSet)
       (bench_world false (healthy 0 all_off) 0 [1; 0; 0; 0; 0; 0]
          bench_levels))
  <> [EvPropertyChanged "State" (string_of_Z 1)].
Proof. repeat split. discriminate. Qed.

(** ** Where the code departs from the claims *)

(** C4, at the failing input.  An aggregate write of 5 that the
    instrument accepts returns [DEVICE_OK], reaches the instrument and
    republishes 5, but the last-known cells still hold the mask from
    before the write (0), where the per-channel handlers store what they
    wrote. *)
Theorem aggregate_write_accepted_keeps_old_cells :
  fst (OnState (state_property 5) AfterSet
         (bench_world true (healthy 0 all_off) 0 all_off bench_levels))
  = (DEVICE_OK, state_property 5) /\
  trace (OnState (state_property 5) AfterSet)
    (bench_world true (healthy 0 all_off) 0 all_off bench_levels)
  = [EvFacade CallIsDeviceConnected;
     EvFacade (CallSetLEDEnableStates [1; 0; 1; 0; 0; 0]);
     EvPropertyChanged "State" "5"] /\
  bench_enables
    (ChrolisDevice
       (snd (OnState (state_property 5) AfterSet
               (bench_world true (healthy 0 all_off) 0 all_off
                  bench_levels))))
  = [1; 0; 1; 0; 0; 0] /\
  ledStates_
    (snd (OnState (state_property 5) AfterSet
            (bench_world true (healthy 0 all_off) 0 all_off bench_levels)))
  = all_off /\
  EncodeLEDStatesInBits
    (ledStates_
       (snd (OnState (state_property 5) AfterSet
               (bench_world true (healthy 0 all_off) 0 all_off
                  bench_levels))))
  = 0 /\
  ledStates_
    (snd (OnEnableStateChange (enable_property 2 1) AfterSet 2
            (bench_world true (healthy 0 all_off) 0 all_off bench_levels)))
  = [0; 0; 1; 0; 0; 0].
Proof. repeat split. Qed.

(** C5, at the failing input.  The stored code is 0 and the instrument
    reports 4 (interlock open): neither the turn that sees the change
    nor the next one re-reads or pushes anything.  The stored code is 4
    and the instrument reports 0: the turn re-reads the enable states
    and pushes the aggregate and the six flags.  The push is gated on
    the code stored before the turn, not on the code just read. *)
Theorem poll_pushes_on_previous_code :
  trace (StatusChangedPollingThread 2)
    (bench_world true (healthy 4 [1; 1; 0; 1; 1; 1]) 0 all_off bench_levels)
  = [EvFacade CallIsDeviceConnected; EvFacade CallGetDeviceStatus;
     EvPropertyChanged "Device Status" "No Error"; EvSleep 500;
     EvFacade CallIsDeviceConnected; EvFacade CallGetDeviceStatus;
     EvPropertyChanged "Device Status" "Interlock is Open"; EvSleep 500] /\
  trace (poll_iteration 4)
    (bench_world true (healthy 0 [1; 1; 0; 1; 1; 1]) 4 all_off bench_levels)
  = [EvFacade CallIsDeviceConnected; EvFacade CallGetDeviceStatus;
     EvFacade CallVerifyLEDEnableStatesWithLock;
     EvFacade CallGetLEDEnableStates;
     EvPropertyChanged "State" "59";
     EvPropertyChanged "LED Enable State 1" "1";
     EvPropertyChanged "LED Enable State 2" "1";
     EvPropertyChanged "LED Enable State 3" "0";
     EvPropertyChanged "LED Enable State 4" "1";
     EvPropertyChanged "LED Enable State 5" "1";
     EvPropertyChanged "LED Enable State 6" "1";
     EvPropertyChanged "Device Status" "Interlock is Open"; EvSleep 500].
Proof. split; reflexivity. Qed.

(** C6, at the failing input.  The stored code is 0 and the turn reads
    4: the status property is republished with the decoding of 0, the
    code stored before the turn, and the code just read is only stored. *)
Theorem poll_publishes_previous_code :
  property_changes
    (trace (poll_iteration 0)
       (bench_world true (healthy 4 all_off) 0 all_off bench_levels))
  = [EvPropertyChanged "Device Status" "No Error"] /\
  currentDeviceStatusCode_
    (snd (poll_iteration 0
            (bench_world true (healthy 4 all_off) 0 all_off bench_levels)))
  = 4 /\
  decodeStatus 4 = "Interlock is Open" /\
  decodeStatus 0 = "No Error".
Proof. repeat split. Qed.

(** C8, at the failing input.  An aggregate write of 64 with last-known
    mask 1 is rejected with [ERR_PARAM_NOT_VALID] and never reaches the
    instrument, but what is republished is the one-character string of
    code 1 ([os << currentLEDState] with a [uint8_t]), not the numeral
    of the last-known mask, which the accepting path streams from a
    [long]. *)
Theorem out_of_bounds_write_republishes_character :
  fst (OnState (state_property 64) AfterSet
         (bench_world true (healthy 0 [1; 0; 0; 0; 0; 0]) 0
            [1; 0; 0; 0; 0; 0] bench_levels))
  = (ERR_PARAM_NOT_VALID, state_property 64) /\
  hardware_writes
    (trace (OnState (state_property 64) AfterSet)
       (bench_world true (healthy 0 [1; 0; 0; 0; 0; 0]) 0
          [1; 0; 0; 0; 0; 0] bench_levels))
  = [] /\
  EncodeLEDStatesInBits [1; 0; 0; 0; 0; 0] = 1 /\
  property_changes
    (trace (OnState (state_property 64) AfterSet)
       (bench_world true (healthy 0 [1; 0; 0; 0; 0; 0]) 0
          [1; 0; 0; 0; 0; 0] bench_levels))
  = [EvPropertyChanged "State" (String (ascii_of_N 1) EmptyString)] /\
  String (ascii_of_N 1) EmptyString <> string_of_Z 1.
Proof. repeat split. discriminate. Qed.

(** * Further properties of the adapter *)

(** ** The codec and the status text, bit by bit *)

Lemma encode_flags (v : list ViBoolean) :
  EncodeLEDStatesInBits v =
  Z.b2z (flag v 0) + 2 * Z.b2z (flag v 1) + 4 * Z.b2z (flag v 2) +
  8 * Z.b2z (flag v 3) + 16 * Z.b2z (flag v 4) + 32 * Z.b2z (flag v 5).
Proof.
  unfold EncodeLEDStatesInBits, encode_step, flag.
  cbn [fold_left seq NUM_LEDS].
  destruct (nth 0 v 0 =? VI_FALSE), (nth 1 v 0 =? VI_FALSE),
    (nth 2 v 0 =? VI_FALSE), (nth 3 v 0 =? VI_FALSE),
    (nth 4 v 0 =? VI_FALSE), (nth 5 v 0 =? VI_FALSE); reflexivity.
Qed.

Lemma testbit_small (c : Z) (n : nat) :
  0 <= c < 64 -> (6 <= n)%nat -> Z.testbit c (Z.of_nat n) = false.
Proof.
  intros Hc Hn.
  destruct (Z.eq_dec c 0) as [->|Hz]; [apply Z.bits_0|].
  apply Z.bits_above_log2; [lia|].
  assert (Z.log2 c < 6) by (apply Z.log2_lt_pow2; lia). lia.
Qed.

(** X1.  Bit [i] of the encoded mask is set exactly when element [i] of the
    vector is not [VI_FALSE], for [i] below [NUM_LEDS]; no higher bit is
    ever set.  This holds for vectors of any content and length. *)
Theorem encode_testbit (v : list ViBoolean) (i : nat) :
  Z.testbit (EncodeLEDStatesInBits v) (Z.of_nat i) =
  if (i <? NUM_LEDS)%nat then negb (nth i v 0 =? VI_FALSE) else false.
Proof.
  rewrite encode_flags. fold (flag v i).
  do 6 (destruct i as [|i];
        [destruct (flag v 0), (flag v 1), (flag v 2), (flag v 3),
           (flag v 4), (flag v 5); reflexivity|]).
  change ((S (S (S (S (S (S i))))) <? NUM_LEDS)%nat) with false.
  apply testbit_small; [|lia].
  destruct (flag v 0), (flag v 1), (flag v 2), (flag v 3),
    (flag v 4), (flag v 5); simpl; lia.
Qed.

Lemma decode_bits (x : Z) :
  DecodeLEDStatesFromBits x =
  map (fun i => Z.b2z (Z.testbit x (Z.of_nat i))) (seq 0 NUM_LEDS).
Proof.
  unfold DecodeLEDStatesFromBits, decode_step.
  cbn [fold_left seq repeat NUM_LEDS array_set map Z.of_nat
       Pos.of_succ_nat Pos.succ].
  rewrite !land_pow2 by lia.
  repeat match goal with
         | |- context [Z.testbit x ?k] => destruct (Z.testbit x k)
         end; reflexivity.
Qed.

(** X2.  Element [i] of the decoded vector is bit [i] of the integer, for any
    integer; the vector has no element past [NUM_LEDS]. *)
Theorem decode_testbit (x : Z) (i : nat) :
  nth i (DecodeLEDStatesFromBits x) 0 =
  if (i <? NUM_LEDS)%nat then Z.b2z (Z.testbit x (Z.of_nat i)) else 0.
Proof.
  rewrite decode_bits.
  do 6 (destruct i as [|i]; [reflexivity|]).
  destruct i; reflexivity.
Qed.

(** X3.  Decoding looks at the six low bits only: encoding a decoded integer
    gives the integer modulo 64, for every integer. *)
Theorem encode_decode_low_bits (x : Z) :
  EncodeLEDStatesInBits (DecodeLEDStatesFromBits x) = x mod 2 ^ 6 /\
  DecodeLEDStatesFromBits x = DecodeLEDStatesFromBits (x mod 2 ^ 6).
Proof.
  assert (Hsame : DecodeLEDStatesFromBits x
                  = DecodeLEDStatesFromBits (x mod 2 ^ 6)).
  { rewrite !decode_bits. apply map_ext_in. intros i Hi.
    apply in_seq in Hi.
    rewrite Z.mod_pow2_bits_low by (unfold NUM_LEDS in Hi; lia).
    reflexivity. }
  split; [|exact Hsame].
  rewrite Hsame. apply encode_decode.
  pose proof (Z.mod_pos_bound x (2 ^ 6)). lia.
Qed.

Lemma nth_array_set_other {A : Type} (a : list A) (i j : nat) (v d : A) :
  i <> j -> nth j (array_set a i v) d = nth j a d.
Proof.
  revert i j. induction a as [|x a IH]; intros [|i] [|j] H; simpl;
    try reflexivity; try congruence.
  apply IH. congruence.
Qed.

(** X4.  Changing one flag of the vector sets or clears the corresponding bit
    of the mask and leaves the other bits alone. *)
Theorem encode_array_set (v : list ViBoolean) (i : nat) (b : ViBoolean) :
  (i < List.length v)%nat -> (i < NUM_LEDS)%nat ->
  EncodeLEDStatesInBits (array_set v i b) =
  if b =? VI_FALSE then Z.clearbit (EncodeLEDStatesInBits v) (Z.of_nat i)
  else Z.setbit (EncodeLEDStatesInBits v) (Z.of_nat i).
Proof.
  intros Hlen Hi.
  rewrite !encode_flags.
  assert (Hf : forall j, flag (array_set v i b) j
                         = if Nat.eqb i j then negb (b =? VI_FALSE)
                           else flag v j).
  { intro j. unfold flag. destruct (Nat.eqb_spec i j) as [<-|Hne].
    - now rewrite nth_array_set_same.
    - now rewrite nth_array_set_other. }
  rewrite !Hf. unfold NUM_LEDS in Hi.
  do 6 (destruct i as [|i]; [
    cbn [Nat.eqb];
    destruct (b =? VI_FALSE), (flag v 0), (flag v 1), (flag v 2),
      (flag v 3), (flag v 4), (flag v 5); reflexivity|]).
  lia.
Qed.

Lemma encode_array_set_witness :
  EncodeLEDStatesInBits (array_set [1; 0; 1; 0; 0; 1] 1 1)
  = Z.setbit (EncodeLEDStatesInBits [1; 0; 1; 0; 0; 1]) 1.
Proof.
  apply (encode_array_set [1; 0; 1; 0; 0; 1] 1 1).
  - simpl. lia.
  - unfold NUM_LEDS. lia.
Defined.

Lemma concat_snoc (sep text : string) (names : list string) :
  names <> [] ->
  String.concat sep (names ++ [text]) =
  append (String.concat sep names) (append sep text).
Proof.
  induction names as [|n names IH]; [congruence|]. intros _.
  destruct names as [|m names].
  - reflexivity.
  - change (String.concat sep ((n :: m :: names) ++ [text]))
      with (append n (append sep
                        (String.concat sep ((m :: names) ++ [text])))).
    rewrite IH by discriminate.
    change (String.concat sep (n :: m :: names))
      with (append n (append sep (String.concat sep (m :: names)))).
    now rewrite !append_assoc.
Qed.

Lemma concat_nonempty (sep : string) (names : list string) :
  names <> [] -> Forall (fun n => n <> EmptyString) names ->
  (0 <? String.length (String.concat sep names))%nat = true.
Proof.
  intros Hne Hall. destruct Hall as [|n names Hn _]; [congruence|].
  destruct n as [|ch n]; [congruence|].
  destruct names; reflexivity.
Qed.

(** [add_condition] appends to a list of names joined by [", "]. *)
Lemma add_condition_join (c k : Z) (text : string) (names : list string) :
  0 <= k -> Forall (fun n => n <> EmptyString) names ->
  add_condition c k text (String.concat ", " names) =
  String.concat ", " (names ++ if Z.testbit c k then [text] else []).
Proof.
  intros Hk Hall. unfold add_condition.
  rewrite status_bit_testbit by assumption.
  destruct (Z.testbit c k); [|now rewrite app_nil_r].
  destruct names as [|n names]; [reflexivity|].
  rewrite concat_nonempty by (assumption || discriminate).
  rewrite concat_snoc by discriminate.
  now rewrite append_assoc.
Qed.

Lemma decodeStatus_join (c : Z) :
  decodeStatus c =
  if c =? 0 then "No Error"
  else match conditions_of c with
       | [] => "Unknown Status"
       | names => String.concat ", " names
       end.
Proof.
  unfold decodeStatus.
  destruct (c =? 0); [reflexivity|].
  cbv zeta. rewrite (status_bit_testbit c 0) by lia.
  set (l0 := if Z.testbit c 0 then ["Box is Open"] else []).
  assert (H0 : (if Z.testbit c 0 then append EmptyString "Box is Open"
                else EmptyString) = String.concat ", " l0)
    by (unfold l0; destruct (Z.testbit c 0); reflexivity).
  assert (F0 : Forall (fun n => n <> EmptyString) l0)
    by (unfold l0; destruct (Z.testbit c 0); repeat constructor;
        discriminate).
  rewrite H0.
  repeat match goal with
         | F : Forall _ ?l
           |- context [add_condition c ?k ?t (String.concat ", " ?l)] =>
             rewrite (add_condition_join c k t l) by (lia || exact F);
             let l' := fresh "l" in
             let F' := fresh "F" in
             set (l' := l ++ if Z.testbit c k then [t] else []);
             assert (F' : Forall (fun n => n <> EmptyString) l')
               by (unfold l'; apply Forall_app; split;
                   [exact F
                   | destruct (Z.testbit c k); repeat constructor;
                     discriminate]);
             clear F
         end.
  match goal with
  | |- (if (String.length (String.concat ", " ?l) =? 0)%nat
        then _ else _) = _ =>
      assert (Hl : conditions_of c = l)
  end.
  { unfold conditions_of, status_conditions. cbn [filter fst].
    repeat match goal with l := _ |- _ => subst l end.
    destruct (Z.testbit c 0), (Z.testbit c 1), (Z.testbit c 2),
      (Z.testbit c 3), (Z.testbit c 4), (Z.testbit c 5), (Z.testbit c 6);
      reflexivity. }
  rewrite Hl.
  match goal with F : Forall _ ?l |- _ => destruct l as [|n l'] eqn:E end.
  - reflexivity.
  - assert (Hpos : (0 <? String.length
                            (String.concat ", " (n :: l')))%nat = true)
      by (apply concat_nonempty; [discriminate | assumption]).
    apply Nat.ltb_lt in Hpos.
    destruct (Nat.eqb_spec (String.length (String.concat ", " (n :: l'))) 0);
      [lia | reflexivity].
Qed.

(** X5.  The status text is "No Error" for code 0 and otherwise the names of
    the conditions whose bits are set, in bit order, joined by [", "];
    when none of the seven bits is set it is "Unknown Status". *)
Theorem decodeStatus_lists_conditions (c : Z) :
  decodeStatus c =
  if c =? 0 then "No Error"
  else match conditions_of c with
       | [] => "Unknown Status"
       | names => String.concat ", " names
       end.
Proof. exact (decodeStatus_join c). Qed.

(** X6.  Bits above the seven conditions do not change the text, unless they
    are the only bits set. *)
Theorem decodeStatus_ignores_high_bits (c : Z) :
  c mod 2 ^ 7 <> 0 -> decodeStatus c = decodeStatus (c mod 2 ^ 7).
Proof.
  intro Hlow.
  assert (Hc : c <> 0) by (intros ->; apply Hlow; reflexivity).
  rewrite !decodeStatus_join.
  apply Z.eqb_neq in Hc, Hlow. rewrite Hc, Hlow.
  unfold conditions_of, status_conditions. cbn [filter fst].
  rewrite !Z.mod_pow2_bits_low by lia. reflexivity.
Qed.

Lemma decodeStatus_ignores_high_bits_witness :
  decodeStatus 132 = decodeStatus (132 mod 2 ^ 7).
Proof. apply decodeStatus_ignores_high_bits. discriminate. Defined.

(** ** The property handlers on every path *)

(** Follow every path of a handler: unfold the monad and split on each
    answer of the instrument and each test as it comes up. *)
Ltac plain e :=
  lazymatch e with
  | context [let (_, _) := _ in _] => fail
  | context [if _ then _ else _] => fail
  | _ => idtac
  end.

Ltac paths :=
  autounfold with adapter;
  repeat (cbn;
          match goal with
          | |- context [let (_, _) := ?e in _] => plain e; destruct e eqn:?
          | |- context [if ?b then _ else _] => plain b; destruct b eqn:?
          end);
  cbn.

Ltac path_trace :=
  rewrite <- ?app_assoc; rewrite ?skipn_app_exact, ?skipn_exact_nil;
  cbn.

(** X7.  A get never republishes and never writes to the instrument. *)
Theorem BeforeGet_only_reads {HW : Type} {dev : DeviceFacade HW}
  {codes : ErrorCodes} (w : @World HW) (pProp : Property) (ledIndex : nat)
  (open : bool) :
  (property_changes (trace (OnState pProp BeforeGet) w) = [] /\
   hardware_writes (trace (OnState pProp BeforeGet) w) = []) /\
  (property_changes (trace (OnEnableStateChange pProp BeforeGet ledIndex) w)
   = [] /\
   hardware_writes (trace (OnEnableStateChange pProp BeforeGet ledIndex) w)
   = []) /\
  (property_changes (trace (OnPowerChange pProp BeforeGet ledIndex) w) = [] /\
   hardware_writes (trace (OnPowerChange pProp BeforeGet ledIndex) w) = []) /\
  (property_changes (trace (GetOpen open) w) = [] /\
   hardware_writes (trace (GetOpen open) w) = []).
Proof.
  unfold property_changes, hardware_writes.
  repeat split.
  all: unfold OnState, OnEnableStateChange, OnPowerChange, GetOpen.
  all: paths; path_trace; reflexivity.
Qed.

(** X8.  A per-channel write republishes its property exactly once on
    every path.  An aggregate write republishes nothing exactly when the
    hub is resolved, the instrument connected, the value in range and
    the write refused with the device-unavailable code; on every other
    path it republishes its property exactly once. *)
Theorem AfterSet_republishes_once {HW : Type} {dev : DeviceFacade HW}
  {codes : ErrorCodes} (w : @World HW) (pProp : Property) (ledIndex : nat) :
  (exists value,
     property_changes (trace (OnEnableStateChange pProp AfterSet ledIndex) w)
     = [EvPropertyChanged (c_str (GetName pProp)) value]) /\
  (exists value,
     property_changes (trace (OnPowerChange pProp AfterSet ledIndex) w)
     = [EvPropertyChanged (c_str (GetName pProp)) value]) /\
  ((exists value,
      property_changes (trace (OnState pProp AfterSet) w)
      = [EvPropertyChanged (c_str (GetName pProp)) value]) \/
   property_changes (trace (OnState pProp AfterSet) w) = []) /\
  (property_changes (trace (OnState pProp AfterSet) w) = [] <->
   exists h1 err h2,
     hasParentHub w = true /\
     facade_IsDeviceConnected (ChrolisDevice w) = (true, h1) /\
     out_of_bounds (Get pProp) = false /\
     facade_SetLEDEnableStates
       (DecodeLEDStatesFromBits (to_uint8 (Get pProp))) h1 = (err, h2) /\
     err <> 0 /\ err = ERR_CHROLIS_NOT_AVAIL).
Proof.
  unfold property_changes.
  split; [|split; [|split]].
  - unfold OnEnableStateChange. paths; path_trace; eexists; reflexivity.
  - unfold OnPowerChange. paths; path_trace; eexists; reflexivity.
  - unfold OnState. paths; path_trace;
      first [left; eexists; reflexivity | right; reflexivity].
  - unfold OnState. paths; path_trace.
    all: repeat match goal with
                | H : negb _ = true |- _ => apply negb_true_iff in H
                | H : negb _ = false |- _ => apply negb_false_iff in H
                | H : (_ =? _) = true |- _ => apply Z.eqb_eq in H
                | H : (_ =? _) = false |- _ => apply Z.eqb_neq in H
                end.
    all: split;
      [ first [ discriminate
              | intros _; do 3 eexists; repeat split; subst;
                first [reflexivity | assumption | eassumption] ]
      | first [ reflexivity
              | intros (h1' & err' & h2' & Hhub & Hc & Hb & Hs & Hne & He);
                try discriminate;
                try (injection Hc as <- <-); try discriminate;
                try (injection Hs as <- <-); congruence ] ].
Qed.

Lemma AfterSet_republishes_once_witness :
  property_changes
    (trace (OnState (state_property 5) AfterSet)
       (bench_world true (write_failing 102 all_off) 0 all_off bench_levels))
  = [] /\
  property_changes
    (trace (OnState (state_property 5) AfterSet)
       (bench_world true (write_failing 7 all_off) 0 all_off bench_levels))
  <> [].
Proof.
  split.
  - apply (proj2 (proj2 (proj2 (AfterSet_republishes_once
                                  (bench_world true (write_failing 102 all_off)
                                     0 all_off bench_levels)
                                  (state_property 5) 0)))).
    exists (write_failing 102 all_off), 102, (write_failing 102 all_off).
    repeat split. discriminate.
  - intro H.
    apply (proj2 (proj2 (proj2 (AfterSet_republishes_once
                                  (bench_world true (write_failing 7 all_off)
                                     0 all_off bench_levels)
                                  (state_property 5) 0)))) in H.
    destruct H as (h1 & err & h2 & _ & Hc & _ & Hs & _ & He).
    injection Hc as <-. injection Hs as <- _. discriminate He.
Defined.

Lemma out_of_bounds_false_inv (val : Z) :
  out_of_bounds val = false -> 0 <= val <= 2 ^ 6 - 1.
Proof.
  unfold out_of_bounds. intro H. apply orb_false_iff in H as [Hge Hlt].
  rewrite Z.geb_leb in Hge. apply Z.leb_gt in Hge. apply Z.ltb_ge in Hlt.
  simpl in Hge. lia.
Qed.

(** X9.  Whatever the aggregate handler asks the instrument to write is the
    decoding of the requested value, which is then in range. *)

Theorem aggregate_write_carries_request {HW : Type} {dev : DeviceFacade HW}
  {codes : ErrorCodes} (w : @World HW) (pProp : Property)
  (eAct : ActionType) (c : FacadeCall) :
  In (EvFacade c) (trace (OnState pProp eAct) w) -> is_write c = true ->
  eAct = AfterSet /\
  0 <= Get pProp <= 2 ^ 6 - 1 /\
  c = CallSetLEDEnableStates (DecodeLEDStatesFromBits (Get pProp)) /\
  EncodeLEDStatesInBits (DecodeLEDStatesFromBits (Get pProp)) = Get pProp.
Proof.
  destruct eAct; unfold OnState; paths; path_trace; intros Hin Hw;
    repeat match goal with
           | H : _ \/ _ |- _ => destruct H
           | H : False |- _ => destruct H
           | H : EvFacade _ = EvFacade _ |- _ => injection H as <-
           | H : EvLog _ = EvFacade _ |- _ => discriminate H
           | H : EvPropertyChanged _ _ = EvFacade _ |- _ => discriminate H
           | H : is_write _ = true |- _ => discriminate H
           end;
    match goal with
    | H : out_of_bounds _ = false |- _ => apply out_of_bounds_false_inv in H
    end;
    (split; [reflexivity|]; split; [assumption|]);
    (split; [|now apply encode_decode]);
    unfold to_uint8; rewrite Z.mod_small by (simpl in *; lia); reflexivity.
Qed.

Lemma aggregate_write_carries_request_witness :
  0 <= Get (state_property 5) <= 2 ^ 6 - 1 /\
  EncodeLEDStatesInBits (DecodeLEDStatesFromBits (Get (state_property 5)))
  = Get (state_property 5).
Proof.
  destruct (aggregate_write_carries_request
              (bench_world true (healthy 0 all_off) 0 all_off bench_levels)
              (state_property 5) AfterSet
              (CallSetLEDEnableStates [1; 0; 1; 0; 0; 0]))
    as (_ & Hrange & _ & Hback).
  - vm_compute. right. left. reflexivity.
  - reflexivity.
  - split; assumption.
Defined.

(** X10.  A per-channel handler touches the last-known cell of its own channel
    only. *)
Theorem per_channel_handlers_touch_one_cell {HW : Type}
  {dev : DeviceFacade HW} {codes : ErrorCodes} (w : @World HW)
  (pProp : Property) (eAct : ActionType) (ledIndex other : nat) :
  other <> ledIndex ->
  (nth other (ledStates_ (snd (OnEnableStateChange pProp eAct ledIndex w))) 0
   = nth other (ledStates_ w) 0 /\
   List.length (ledStates_ (snd (OnEnableStateChange pProp eAct ledIndex w)))
   = List.length (ledStates_ w) /\
   ledBrightnesses_ (snd (OnEnableStateChange pProp eAct ledIndex w))
   = ledBrightnesses_ w) /\
  (nth other
     (ledBrightnesses_ (snd (OnPowerChange pProp eAct ledIndex w))) 0
   = nth other (ledBrightnesses_ w) 0 /\
   List.length (ledBrightnesses_ (snd (OnPowerChange pProp eAct ledIndex w)))
   = List.length (ledBrightnesses_ w) /\
   ledStates_ (snd (OnPowerChange pProp eAct ledIndex w)) = ledStates_ w).
Proof.
  intro Hne.
  split; destruct eAct; unfold OnEnableStateChange, OnPowerChange; paths;
    rewrite ?array_set_length, ?nth_array_set_other by congruence;
    repeat split.
Qed.

Lemma per_channel_handlers_touch_one_cell_witness :
  nth 1
    (ledStates_
       (snd (OnEnableStateChange (enable_property 2 1) AfterSet 2
               (bench_world true (healthy 0 all_off) 0 [0; 1; 0; 0; 0; 0]
                  bench_levels)))) 0
  = 1.
Proof.
  refine (proj1 (proj1 (per_channel_handlers_touch_one_cell
                          (bench_world true (healthy 0 all_off) 0
                             [0; 1; 0; 0; 0; 0] bench_levels)
                          (enable_property 2 1) AfterSet 2 1 _))).
  discriminate.
Defined.

Lemma to_uint16_small (v : Z) : 0 <= v < 2 ^ 16 -> to_uint16 v = v.
Proof. intro H. unfold to_uint16. now apply Z.mod_small. Qed.

(** X11.  A write reports [DEVICE_OK] only after asking the instrument,
    once, to write the requested value itself: the aggregate handler the
    decoding of the requested mask, which is then within 0..63; a
    per-channel handler the requested value, for every request that the
    16-bit type of the instrument's parameter can hold (the conversion
    of any other value is left open); [SetOpen] the requested
    position. *)
Theorem success_follows_requested_write {HW : Type} {dev : DeviceFacade HW}
  {codes : ErrorCodes} (w : @World HW) (pProp : Property) (ledIndex : nat)
  (open : bool) :
  ERR_HUB_NOT_AVAILABLE <> 0 -> ERR_CHROLIS_NOT_AVAIL <> 0 ->
  ERR_PARAM_NOT_VALID <> 0 ->
  (fst (fst (OnState pProp AfterSet w)) = DEVICE_OK ->
   0 <= Get pProp <= 2 ^ 6 - 1 /\
   hardware_writes (trace (OnState pProp AfterSet) w)
   = [EvFacade (CallSetLEDEnableStates
                  (DecodeLEDStatesFromBits (Get pProp)))]) /\
  (0 <= Get pProp < 2 ^ 16 ->
   fst (fst (OnEnableStateChange pProp AfterSet ledIndex w)) = DEVICE_OK ->
   hardware_writes (trace (OnEnableStateChange pProp AfterSet ledIndex) w)
   = [EvFacade (CallSetSingleLEDEnableState ledIndex (Get pProp))]) /\
  (0 <= Get pProp < 2 ^ 16 ->
   fst (fst (OnPowerChange pProp AfterSet ledIndex w)) = DEVICE_OK ->
   hardware_writes (trace (OnPowerChange pProp AfterSet ledIndex) w)
   = [EvFacade (CallSetSingleLEDBrightnessState ledIndex (Get pProp))]) /\
  (fst (SetOpen open w) = DEVICE_OK ->
   hardware_writes (trace (SetOpen open) w)
   = [EvFacade (CallSetShutterState open)]).
Proof.
  intros Hhub Hdev Hpar.
  unfold hardware_writes, DEVICE_OK.
  split; [|split; [|split]].
  2, 3: intro Hrange; rewrite <- (to_uint16_small (Get pProp) Hrange).
  all: unfold OnState, OnEnableStateChange, OnPowerChange, SetOpen.
  all: paths; path_trace; intro Hok; try reflexivity; try contradiction.
  all: try match goal with
           | H : negb (?e =? 0) = true |- _ =>
               apply negb_true_iff, Z.eqb_neq in H; contradiction
           end.
  match goal with
  | H : out_of_bounds _ = false |- _ => apply out_of_bounds_false_inv in H
  end.
  split; [assumption|].
  unfold to_uint8. rewrite Z.mod_small by (simpl in *; lia). reflexivity.
Qed.

Lemma success_follows_requested_write_witness :
  hardware_writes
    (trace (OnPowerChange (power_property 1 750) AfterSet 1)
       (bench_world true (healthy 0 all_off) 0 all_off bench_levels))
  = [EvFacade (CallSetSingleLEDBrightnessState 1 750)] /\
  hardware_writes
    (trace (OnState (state_property 5) AfterSet)
       (bench_world true (healthy 0 all_off) 0 all_off bench_levels))
  = [EvFacade (CallSetLEDEnableStates (DecodeLEDStatesFromBits 5))].
Proof.
  destruct (success_follows_requested_write
              (bench_world true (healthy 0 all_off) 0 all_off bench_levels)
              (power_property 1 750) 1 true)
    as (_ & _ & Hpower & _).
  1-3: vm_compute; discriminate.
  destruct (success_follows_requested_write
              (bench_world true (healthy 0 all_off) 0 all_off bench_levels)
              (state_property 5) 1 true)
    as (Hstate & _).
  1-3: vm_compute; discriminate.
  split.
  - apply Hpower; [simpl; lia | reflexivity].
  - apply Hstate. reflexivity.
Defined.

(** X12.  With the hub resolved and the instrument not connected, a write is
    rejected before any write reaches the instrument. *)
Theorem write_while_not_connected {HW : Type} {dev : DeviceFacade HW}
  {codes : ErrorCodes} (w : @World HW) (pProp : Property) (ledIndex : nat)
  (open : bool) (h1 : HW) :
  hasParentHub w = true ->
  facade_IsDeviceConnected (ChrolisDevice w) = (false, h1) ->
  (fst (OnEnableStateChange pProp AfterSet ledIndex w)
   = (ERR_CHROLIS_NOT_AVAIL, pProp) /\
   trace (OnEnableStateChange pProp AfterSet ledIndex) w =
     [EvFacade CallIsDeviceConnected; EvLog "CHROLIS not available";
      EvPropertyChanged (c_str (GetName pProp))
        (string_of_Z (nth ledIndex (ledStates_ w) 0))] /\
   ledStates_ (snd (OnEnableStateChange pProp AfterSet ledIndex w))
   = ledStates_ w) /\
  (fst (OnPowerChange pProp AfterSet ledIndex w)
   = (ERR_CHROLIS_NOT_AVAIL, pProp) /\
   trace (OnPowerChange pProp AfterSet ledIndex) w =
     [EvFacade CallIsDeviceConnected; EvLog "CHROLIS not available";
      EvPropertyChanged (c_str (GetName pProp))
        (string_of_Z (nth ledIndex (ledBrightnesses_ w) 0))] /\
   ledBrightnesses_ (snd (OnPowerChange pProp AfterSet ledIndex w))
   = ledBrightnesses_ w) /\
  (fst (OnState pProp AfterSet w) = (ERR_CHROLIS_NOT_AVAIL, pProp) /\
   trace (OnState pProp AfterSet) w =
     [EvFacade CallIsDeviceConnected; EvLog "CHROLIS not available";
      EvPropertyChanged (c_str (GetName pProp))
        (c_str (stream_uint8 EmptyString
                  (EncodeLEDStatesInBits (ledStates_ w))))] /\
   ledStates_ (snd (OnState pProp AfterSet w)) = ledStates_ w) /\
  (fst (SetOpen open w) = ERR_CHROLIS_NOT_AVAIL /\
   trace (SetOpen open) w =
     [EvFacade CallIsDeviceConnected; EvLog "CHROLIS not available"]).
Proof.
  intros Hhub Hc.
  unfold OnEnableStateChange, OnPowerChange, OnState, SetOpen.
  run_adapter. rewrite ?c_str_stream_num.
  repeat split; settle_trace; reflexivity.
Qed.

Lemma write_while_not_connected_witness :
  trace (OnPowerChange (power_property 1 750) AfterSet 1)
    (bench_world true disconnected 0 all_off bench_levels)
  = [EvFacade CallIsDeviceConnected; EvLog "CHROLIS not available";
     EvPropertyChanged "LED 2 Power" "200"].
Proof.
  destruct (write_while_not_connected
              (bench_world true disconnected 0 all_off bench_levels)
              (power_property 1 750) 1 true disconnected)
    as (_ & (_ & Ht & _) & _); [reflexivity | reflexivity |].
  exact Ht.
Defined.

(** X13.  With no hub, a get fails at once: nothing is read, the property and
    the last-known cells stay as they are. *)
Theorem get_without_hub {HW : Type} {dev : DeviceFacade HW}
  {codes : ErrorCodes} (w : @World HW) (pProp : Property) (ledIndex : nat)
  (open : bool) :
  hasParentHub w = false ->
  (fst (OnState pProp BeforeGet w) = (ERR_HUB_NOT_AVAILABLE, pProp) /\
   trace (OnState pProp BeforeGet) w = [EvLog "Hub not available"] /\
   ledStates_ (snd (OnState pProp BeforeGet w)) = ledStates_ w) /\
  (fst (OnEnableStateChange pProp BeforeGet ledIndex w)
   = (ERR_HUB_NOT_AVAILABLE, pProp) /\
   trace (OnEnableStateChange pProp BeforeGet ledIndex) w
   = [EvLog "Hub not available"] /\
   ledStates_ (snd (OnEnableStateChange pProp BeforeGet ledIndex w))
   = ledStates_ w) /\
  (fst (OnPowerChange pProp BeforeGet ledIndex w)
   = (ERR_HUB_NOT_AVAILABLE, pProp) /\
   trace (OnPowerChange pProp BeforeGet ledIndex) w
   = [EvLog "Hub not available"] /\
   ledBrightnesses_ (snd (OnPowerChange pProp BeforeGet ledIndex w))
   = ledBrightnesses_ w) /\
  (fst (GetOpen open w) = (ERR_HUB_NOT_AVAILABLE, open) /\
   trace (GetOpen open) w = [EvLog "Hub not available"]).
Proof.
  intros Hhub.
  unfold OnEnableStateChange, OnPowerChange, OnState, GetOpen.
  run_adapter.
  repeat split; settle_trace; reflexivity.
Qed.

Lemma get_without_hub_witness :
  fst (OnState (state_property 9) BeforeGet
         (bench_world false (healthy 0 all_off) 0 [1; 0; 1; 0; 0; 0]
            bench_levels))
  = (ERR_HUB_NOT_AVAILABLE, state_property 9).
Proof.
  destruct (get_without_hub
              (bench_world false (healthy 0 all_off) 0 [1; 0; 1; 0; 0; 0]
                 bench_levels)
              (state_property 9) 0 false)
    as ((Hr & _) & _); [reflexivity |].
  exact Hr.
Defined.

(** X14.  [SetOpen] succeeds exactly when the hub is there, the instrument is
    connected and accepts the write; it never republishes anything and
    writes at most once, the requested position. *)
Theorem SetOpen_outcome {HW : Type} {dev : DeviceFacade HW}
  {codes : ErrorCodes} (w : @World HW) (open : bool) :
  ERR_HUB_NOT_AVAILABLE <> 0 -> ERR_CHROLIS_NOT_AVAIL <> 0 ->
  (fst (SetOpen open w) = DEVICE_OK <->
   hasParentHub w = true /\
   fst (facade_IsDeviceConnected (ChrolisDevice w)) = true /\
   fst (facade_SetShutterState open
          (snd (facade_IsDeviceConnected (ChrolisDevice w)))) = 0) /\
  (fst (SetOpen open w) <> DEVICE_OK ->
   hasParentHub w = true ->
   fst (facade_IsDeviceConnected (ChrolisDevice w)) = true ->
   fst (SetOpen open w)
   = fst (facade_SetShutterState open
            (snd (facade_IsDeviceConnected (ChrolisDevice w))))) /\
  property_changes (trace (SetOpen open) w) = [] /\
  (hardware_writes (trace (SetOpen open) w) = [] \/
   hardware_writes (trace (SetOpen open) w)
   = [EvFacade (CallSetShutterState open)]).
Proof.
  intros Hhub Hdev.
  unfold property_changes, hardware_writes, DEVICE_OK, SetOpen.
  paths; path_trace;
    repeat match goal with
           | H : negb _ = true |- _ => apply negb_true_iff in H
           | H : negb _ = false |- _ => apply negb_false_iff in H
           | H : (_ =? 0) = true |- _ => apply Z.eqb_eq in H
           | H : (_ =? 0) = false |- _ => apply Z.eqb_neq in H
           end;
    (split; [split; [intro | intros (? & ? & ?)] |
             split; [intros | split; [reflexivity | auto]]]);
    subst; try congruence; try tauto; auto.
Qed.

Lemma SetOpen_outcome_witness :
  fst (SetOpen true
         (bench_world true (healthy 0 all_off) 0 all_off bench_levels))
  = DEVICE_OK.
Proof.
  destruct (SetOpen_outcome
              (bench_world true (healthy 0 all_off) 0 all_off bench_levels)
              true)
    as ((_ & Hok) & _).
  - vm_compute. discriminate.
  - vm_compute. discriminate.
  - apply Hok. repeat split.
Defined.

(** X15.  [ChrolisShutter::Initialize] needs only the hub: it asks a connected
    instrument to close the shutter, goes on when that fails, and
    installs its handler; with no hub it fails and installs nothing. *)
Theorem ChrolisShutter_Initialize_outcome {HW : Type}
  {dev : DeviceFacade HW} {codes : ErrorCodes} (w : @World HW) :
  (hasParentHub w = false ->
   fst (ChrolisShutter_Initialize w) = ERR_HUB_NOT_AVAILABLE /\
   trace ChrolisShutter_Initialize w = [EvLog "No Hub"] /\
   shutterCallback_ (snd (ChrolisShutter_Initialize w))
   = shutterCallback_ w) /\
  (hasParentHub w = true ->
   fst (ChrolisShutter_Initialize w) = DEVICE_OK /\
   shutterCallback_ (snd (ChrolisShutter_Initialize w)) = shutter_handler /\
   hardware_writes (trace ChrolisShutter_Initialize w)
   = (if fst (facade_IsDeviceConnected (ChrolisDevice w))
      then [EvFacade (CallSetShutterState false)] else []) /\
   property_changes (trace ChrolisShutter_Initialize w) = []).
Proof.
  unfold hardware_writes, property_changes, ChrolisShutter_Initialize.
  split; intro Hhub.
  - run_adapter. repeat split. settle_trace. reflexivity.
  - run_adapter. paths; path_trace; repeat split.
Qed.

Lemma ChrolisShutter_Initialize_outcome_witness :
  fst (ChrolisShutter_Initialize
         (bench_world true (write_failing 7 all_off) 0 all_off bench_levels))
  = DEVICE_OK /\
  hardware_writes
    (trace ChrolisShutter_Initialize
       (bench_world true (write_failing 7 all_off) 0 all_off bench_levels))
  = [EvFacade (CallSetShutterState false)].
Proof.
  destruct (ChrolisShutter_Initialize_outcome
              (bench_world true (write_failing 7 all_off) 0 all_off
                 bench_levels))
    as (_ & Hhub).
  destruct (Hhub eq_refl) as (Hok & _ & Hw & _).
  split; [exact Hok | exact Hw].
Defined.

(** X16.  The value a get of the aggregate mask presents is always in the
    property's domain, whatever the instrument put in the cells. *)
Theorem aggregate_get_in_range {HW : Type} {dev : DeviceFacade HW}
  {codes : ErrorCodes} (w : @World HW) (pProp : Property) :
  hasParentHub w = true ->
  0 <= Get (snd (fst (OnState pProp BeforeGet w))) <= 2 ^ 6 - 1.
Proof.
  intro Hhub.
  assert (Hrange : forall v, 0 <= EncodeLEDStatesInBits v <= 2 ^ 6 - 1).
  { intro v. rewrite encode_flags.
    destruct (flag v 0), (flag v 1), (flag v 2), (flag v 3), (flag v 4),
      (flag v 5); simpl; lia. }
  unfold OnState. run_adapter. paths; apply Hrange.
Qed.

Lemma aggregate_get_in_range_witness :
  0 <= Get (snd (fst (OnState (state_property 0) BeforeGet
                        (bench_world true (healthy 0 [7; 0; 300; 0; 0; 1]) 0
                           all_off bench_levels))))
  <= 2 ^ 6 - 1.
Proof. apply aggregate_get_in_range. reflexivity. Defined.

(** X17.  After a per-channel write that the instrument accepted, a get whose
    hardware read fails presents the written value. *)
Theorem accepted_write_survives_failed_read {HW : Type}
  {dev : DeviceFacade HW} {codes : ErrorCodes} (w : @World HW)
  (pSet pGet : Property) (ledIndex : nat) (h1 h2 h3 : HW) (c : bool) :
  reads_retain_on_failure dev ->
  hasParentHub w = true ->
  facade_IsDeviceConnected (ChrolisDevice w) = (true, h1) ->
  facade_IsDeviceConnected h2 = (c, h3) ->
  ((ledIndex < List.length (ledStates_ w))%nat ->
   facade_SetSingleLEDEnableState ledIndex (to_uint16 (Get pSet)) h1
   = (0, h2) ->
   fst (fst (facade_GetSingleLEDEnableState ledIndex
               (to_uint16 (Get pSet)) h3)) <> 0 ->
   fst (OnEnableStateChange pGet BeforeGet ledIndex
          (snd (OnEnableStateChange pSet AfterSet ledIndex w)))
   = (DEVICE_OK, Set_ pGet (to_uint16 (Get pSet)))) /\
  ((ledIndex < List.length (ledBrightnesses_ w))%nat ->
   facade_SetSingleLEDBrightnessState ledIndex (to_uint16 (Get pSet)) h1
   = (0, h2) ->
   fst (fst (facade_GetSingleLEDBrightnessState ledIndex
               (to_uint16 (Get pSet)) h3)) <> 0 ->
   fst (OnPowerChange pGet BeforeGet ledIndex
          (snd (OnPowerChange pSet AfterSet ledIndex w)))
   = (DEVICE_OK, Set_ pGet (to_uint16 (Get pSet)))).
Proof.
  intros (_ & Hen & Hbr) Hhub Hc Hc2. split; intros Hi Hset Hfail.
  - specialize (Hen ledIndex (to_uint16 (Get pSet)) h3 Hfail).
    destruct (facade_GetSingleLEDEnableState ledIndex
                (to_uint16 (Get pSet)) h3) as [[err v] h4] eqn:Hget.
    simpl in Hen, Hfail. subst v.
    apply Z.eqb_neq in Hfail.
    unfold OnEnableStateChange. run_adapter.
    destruct c; run_adapter;
      rewrite nth_array_set_same by assumption; run_adapter;
      rewrite nth_array_set_same
        by (rewrite array_set_length; assumption);
      reflexivity.
  - specialize (Hbr ledIndex (to_uint16 (Get pSet)) h3 Hfail).
    destruct (facade_GetSingleLEDBrightnessState ledIndex
                (to_uint16 (Get pSet)) h3) as [[err v] h4] eqn:Hget.
    simpl in Hbr, Hfail. subst v.
    apply Z.eqb_neq in Hfail.
    unfold OnPowerChange. run_adapter.
    destruct c; run_adapter;
      rewrite nth_array_set_same by assumption; run_adapter;
      rewrite nth_array_set_same
        by (rewrite array_set_length; assumption);
      reflexivity.
Qed.

Lemma accepted_write_survives_failed_read_witness :
  fst (OnPowerChange (power_property 1 0) BeforeGet 1
         (snd (OnPowerChange (power_property 1 750) AfterSet 1
                 (bench_world true (read_failing 9 all_off) 0 all_off
                    bench_levels))))
  = (DEVICE_OK, power_property 1 750).
Proof.
  refine (proj2 (accepted_write_survives_failed_read
                   (bench_world true (read_failing 9 all_off) 0 all_off
                      bench_levels)
                   (power_property 1 750) (power_property 1 0) 1
                   (read_failing 9 all_off)
                   (mkBench true 0 all_off [100; 750; 300; 400; 500; 600]
                      false 9 0)
                   (mkBench true 0 all_off [100; 750; 300; 400; 500; 600]
                      false 9 0)
                   true bench_reads_retain _ _ _)
            _ _ _).
  - reflexivity.
  - reflexivity.
  - reflexivity.
  - simpl. lia.
  - reflexivity.
  - vm_compute. discriminate.
Defined.

(** ** The polling thread over many turns *)

Lemma state_handler_only_notifies : handler_only_notifies state_handler.
Proof.
  intros ledNum state. unfold state_handler.
  destruct (ledNum =? 0); [reflexivity|].
  destruct ((1 <=? ledNum) && (ledNum <=? 6)); reflexivity.
Qed.

Lemma poll_iteration_frame {HW : Type} {dev : DeviceFacade HW}
  (w : @World HW) (tempStatus : Z) :
  ledStates_ (snd (poll_iteration tempStatus w)) = ledStates_ w /\
  ledBrightnesses_ (snd (poll_iteration tempStatus w)) = ledBrightnesses_ w /\
  stateCallback_ (snd (poll_iteration tempStatus w)) = stateCallback_ w /\
  shutterCallback_ (snd (poll_iteration tempStatus w))
  = shutterCallback_ w /\
  exists es,
    events (snd (poll_iteration tempStatus w)) = events w ++ es /\
    (handler_only_notifies (stateCallback_ w) -> hardware_writes es = []).
Proof.
  unfold poll_iteration. paths; repeat split;
    (eexists; split;
     [rewrite <- ?app_assoc; reflexivity
     | intro Hh; unfold hardware_writes in *;
       rewrite ?filter_app, ?Hh; reflexivity]).
Qed.

Lemma polling_loop_frame {HW : Type} {dev : DeviceFacade HW}
  (fuel : nat) (w : @World HW) (tempStatus : Z) :
  ledStates_ (snd (polling_loop fuel tempStatus w)) = ledStates_ w /\
  ledBrightnesses_ (snd (polling_loop fuel tempStatus w))
  = ledBrightnesses_ w /\
  stateCallback_ (snd (polling_loop fuel tempStatus w)) = stateCallback_ w /\
  shutterCallback_ (snd (polling_loop fuel tempStatus w))
  = shutterCallback_ w /\
  exists es,
    events (snd (polling_loop fuel tempStatus w)) = events w ++ es /\
    (handler_only_notifies (stateCallback_ w) -> hardware_writes es = []).
Proof.
  revert w tempStatus. induction fuel as [|fuel IH]; intros w tempStatus.
  - cbn. repeat split. exists []. now rewrite app_nil_r.
  - cbn [polling_loop]. unfold bind at 1, gets. cbn.
    destruct (threadRunning_ w).
    + unfold bind.
      destruct (poll_iteration_frame w tempStatus)
        as (Hs & Hb & Hst & Hsh & es & He & Hw).
      destruct (poll_iteration tempStatus w) as [[exit t] w1]. cbn in *.
      destruct exit.
      * destruct (IH w1 t) as (Hs' & Hb' & Hst' & Hsh' & es' & He' & Hw').
        rewrite Hs', Hb', Hst', Hsh'. repeat split; try assumption.
        exists (es ++ es'). split.
        -- rewrite He', He. now rewrite app_assoc.
        -- intro Hh. unfold hardware_writes in *. rewrite filter_app.
           rewrite Hw by assumption. rewrite Hw' by (rewrite Hst; assumption).
           reflexivity.
      * cbn. repeat split; try assumption. exists es. now split.
    + cbn. repeat split. exists []. now rewrite app_nil_r.
Qed.

(** X18.  The polling thread, for any number of turns, leaves the state
    device's last-known cells and both callback slots alone, and never
    writes to the instrument when the installed handler does not. *)
Theorem polling_thread_only_observes {HW : Type} {dev : DeviceFacade HW}
  (fuel : nat) (w : @World HW) :
  ledStates_ (snd (StatusChangedPollingThread fuel w)) = ledStates_ w /\
  ledBrightnesses_ (snd (StatusChangedPollingThread fuel w))
  = ledBrightnesses_ w /\
  stateCallback_ (snd (StatusChangedPollingThread fuel w))
  = stateCallback_ w /\
  shutterCallback_ (snd (StatusChangedPollingThread fuel w))
  = shutterCallback_ w /\
  (handler_only_notifies (stateCallback_ w) ->
   hardware_writes (trace (StatusChangedPollingThread fuel) w) = []).
Proof.
  unfold StatusChangedPollingThread, trace.
  destruct (polling_loop_frame fuel w 0)
    as (Hs & Hb & Hst & Hsh & es & He & Hw).
  repeat split; try assumption.
  intro Hh. rewrite He, skipn_app_exact. now apply Hw.
Qed.

Lemma polling_thread_only_observes_witness :
  hardware_writes
    (trace (StatusChangedPollingThread 3)
       (bench_world true (healthy 0 [1; 1; 0; 1; 1; 1]) 4 all_off
          bench_levels))
  = [].
Proof.
  destruct (polling_thread_only_observes 3
              (bench_world true (healthy 0 [1; 1; 0; 1; 1; 1]) 4 all_off
                 bench_levels))
    as (_ & _ & _ & _ & Hquiet).
  apply Hquiet. exact state_handler_only_notifies.
Defined.

(** X19.  A failed status read ends the polling thread for good: whatever turns
    are left, it logs once, clears the running flag and never calls the
    instrument again. *)
Theorem polling_thread_dies_on_status_failure {HW : Type}
  {dev : DeviceFacade HW} (fuel more : nat) (w : @World HW)
  (tempStatus later err status : Z) (h1 h2 : HW) :
  threadRunning_ w = true ->
  facade_IsDeviceConnected (ChrolisDevice w) = (true, h1) ->
  facade_GetDeviceStatus tempStatus h1 = (err, status, h2) ->
  err <> 0 ->
  trace (polling_loop (S fuel) tempStatus) w =
    [EvFacade CallIsDeviceConnected; EvFacade CallGetDeviceStatus;
     EvLog "Error Getting Status"] /\
  threadRunning_ (snd (polling_loop (S fuel) tempStatus w)) = false /\
  currentDeviceStatusCode_ (snd (polling_loop (S fuel) tempStatus w))
  = currentDeviceStatusCode_ w /\
  polling_loop more later (snd (polling_loop (S fuel) tempStatus w))
  = (tt, snd (polling_loop (S fuel) tempStatus w)).
Proof.
  intros Hrun Hc Hs He. apply Z.eqb_neq in He.
  cbn [polling_loop]. unfold poll_iteration. run_adapter.
  repeat split.
  - settle_trace. reflexivity.
  - destruct more; reflexivity.
Qed.

Lemma polling_thread_dies_on_status_failure_witness :
  trace (polling_loop 5 0)
    (bench_world true (read_failing 9 all_off) 0 all_off bench_levels)
  = [EvFacade CallIsDeviceConnected; EvFacade CallGetDeviceStatus;
     EvLog "Error Getting Status"].
Proof.
  destruct (polling_thread_dies_on_status_failure 4 0
              (bench_world true (read_failing 9 all_off) 0 all_off
                 bench_levels)
              0 0 9 0 (read_failing 9 all_off) (read_failing 9 all_off))
    as (Ht & _); [reflexivity | reflexivity | reflexivity | |exact Ht].
  discriminate.
Defined.

(** X20.  [ChrolisHub::Shutdown] always clears the running flag, so that the
    polling loop does nothing afterwards; it asks the instrument to shut
    down only when connected, and reports any failure of that as
    [DEVICE_ERR]. *)
Theorem ChrolisHub_Shutdown_stops_polling {HW : Type}
  {dev : DeviceFacade HW} (fuel : nat) (w : @World HW) (tempStatus : Z) :
  threadRunning_ (snd (ChrolisHub_Shutdown w)) = false /\
  polling_loop fuel tempStatus (snd (ChrolisHub_Shutdown w))
  = (tt, snd (ChrolisHub_Shutdown w)) /\
  (fst (ChrolisHub_Shutdown w) = DEVICE_OK \/
   fst (ChrolisHub_Shutdown w) = DEVICE_ERR) /\
  (fst (facade_IsDeviceConnected (ChrolisDevice w)) = false ->
   fst (ChrolisHub_Shutdown w) = DEVICE_OK /\
   hardware_calls (trace ChrolisHub_Shutdown w)
   = [EvFacade CallIsDeviceConnected]) /\
  (fst (ChrolisHub_Shutdown w) = DEVICE_ERR ->
   In (EvFacade CallShutdownDevice) (trace ChrolisHub_Shutdown w)).
Proof.
  assert (Hflag : threadRunning_ (snd (ChrolisHub_Shutdown w)) = false).
  { unfold ChrolisHub_Shutdown. paths; try reflexivity; assumption. }
  split; [exact Hflag|]. split.
  - remember (snd (ChrolisHub_Shutdown w)) as w1 eqn:Hw1. clear Hw1.
    destruct fuel; [reflexivity|].
    cbn [polling_loop]. unfold bind, gets. cbn. now rewrite Hflag.
  - unfold hardware_calls, DEVICE_OK, DEVICE_ERR, ChrolisHub_Shutdown.
    paths; path_trace; repeat split; auto; try discriminate;
      intros; simpl; tauto.
Qed.

Lemma ChrolisHub_Shutdown_stops_polling_witness :
  fst (ChrolisHub_Shutdown
         (bench_world true disconnected 0 all_off bench_levels))
  = DEVICE_OK /\
  hardware_calls
    (trace ChrolisHub_Shutdown
       (bench_world true disconnected 0 all_off bench_levels))
  = [EvFacade CallIsDeviceConnected].
Proof.
  destruct (ChrolisHub_Shutdown_stops_polling 0
              (bench_world true disconnected 0 all_off bench_levels) 0)
    as (_ & _ & _ & Hoff & _).
  apply Hoff. reflexivity.
Defined.

(** X21.  With the state device's handler installed, a push republishes the
    State property with the numeral of the encoded states and each of
    the six enable properties, by name, with the numeral of its flag,
    before the status text. *)
Theorem push_reaches_state_device {HW : Type} {dev : DeviceFacade HW}
  (w : @World HW) (tempStatus status : Z) (h1 h2 h3 : HW)
  (states : list ViBoolean) :
  stateCallback_ w = state_handler ->
  facade_IsDeviceConnected (ChrolisDevice w) = (true, h1) ->
  facade_GetDeviceStatus tempStatus h1 = (0, status, h2) ->
  currentDeviceStatusCode_ w <> status ->
  currentDeviceStatusCode_ w <> 0 ->
  facade_GetLEDEnableStates (repeat 0 NUM_LEDS)
    (facade_VerifyLEDEnableStatesWithLock h2) = (0, states, h3) ->
  property_changes (trace (poll_iteration tempStatus) w) =
    [EvPropertyChanged "State"
       (string_of_Z (EncodeLEDStatesInBits states));
     EvPropertyChanged "LED Enable State 1"
       (string_of_Z (to_uint16 (nth 0 states 0)));
     EvPropertyChanged "LED Enable State 2"
       (string_of_Z (to_uint16 (nth 1 states 0)));
     EvPropertyChanged "LED Enable State 3"
       (string_of_Z (to_uint16 (nth 2 states 0)));
     EvPropertyChanged "LED Enable State 4"
       (string_of_Z (to_uint16 (nth 3 states 0)));
     EvPropertyChanged "LED Enable State 5"
       (string_of_Z (to_uint16 (nth 4 states 0)));
     EvPropertyChanged "LED Enable State 6"
       (string_of_Z (to_uint16 (nth 5 states 0)));
     EvPropertyChanged "Device Status"
       (decodeStatus (currentDeviceStatusCode_ w))].
Proof.
  intros Hh Hc Hs Hne Hnz Hr.
  destruct (poll_iteration_push w tempStatus h1 status h2 states h3
              Hc Hs Hne Hnz Hr) as [Ht _].
  rewrite Ht, Hh. unfold pushed, state_handler, property_changes.
  cbn [Z.eqb Z.leb Z.compare Pos.compare Pos.compare_cont andb app filter
       is_property_changed].
  rewrite !c_str_stream_num. reflexivity.
Qed.

Lemma push_reaches_state_device_witness :
  property_changes
    (trace (poll_iteration 4)
       (bench_world true (healthy 0 [1; 1; 0; 1; 1; 1]) 4 all_off
          bench_levels))
  = [EvPropertyChanged "State" "59";
     EvPropertyChanged "LED Enable State 1" "1";
     EvPropertyChanged "LED Enable State 2" "1";
     EvPropertyChanged "LED Enable State 3" "0";
     EvPropertyChanged "LED Enable State 4" "1";
     EvPropertyChanged "LED Enable State 5" "1";
     EvPropertyChanged "LED Enable State 6" "1";
     EvPropertyChanged "Device Status" "Interlock is Open"].
Proof.
  apply (push_reaches_state_device
           (bench_world true (healthy 0 [1; 1; 0; 1; 1; 1]) 4 all_off
              bench_levels)
           4 0 (healthy 0 [1; 1; 0; 1; 1; 1]) (healthy 0 [1; 1; 0; 1; 1; 1])
           (healthy 0 [1; 1; 0; 1; 1; 1]) [1; 1; 0; 1; 1; 1]);
    try reflexivity; discriminate.
Defined.

(** X22.  Once the state device has shut down, a push is dropped: the turn
    still re-reads the enable states but notifies only the status
    text. *)
Theorem push_after_state_device_shutdown {HW : Type}
  {dev : DeviceFacade HW} (w : @World HW) (tempStatus status : Z)
  (h1 h2 h3 : HW) (states : list ViBoolean) :
  hasParentHub w = true ->
  facade_IsDeviceConnected (ChrolisDevice w) = (true, h1) ->
  facade_GetDeviceStatus tempStatus h1 = (0, status, h2) ->
  currentDeviceStatusCode_ w <> status ->
  currentDeviceStatusCode_ w <> 0 ->
  facade_GetLEDEnableStates (repeat 0 NUM_LEDS)
    (facade_VerifyLEDEnableStatesWithLock h2) = (0, states, h3) ->
  fst (ChrolisStateDevice_Shutdown w) = DEVICE_OK /\
  trace ChrolisStateDevice_Shutdown w = [] /\
  trace (poll_iteration tempStatus) (snd (ChrolisStateDevice_Shutdown w)) =
    [EvFacade CallIsDeviceConnected; EvFacade CallGetDeviceStatus;
     EvFacade CallVerifyLEDEnableStatesWithLock;
     EvFacade CallGetLEDEnableStates;
     EvPropertyChanged "Device Status"
       (decodeStatus (currentDeviceStatusCode_ w));
     EvSleep 500].
Proof.
  intros Hhub Hc Hs Hne Hnz Hr.
  assert (Hw : snd (ChrolisStateDevice_Shutdown w)
               = set_stateCallback_ noop_callback w).
  { unfold ChrolisStateDevice_Shutdown. run_adapter. reflexivity. }
  split; [|split].
  - unfold ChrolisStateDevice_Shutdown. run_adapter. reflexivity.
  - unfold trace. rewrite Hw. cbn. apply skipn_exact_nil.
  - rewrite Hw.
    destruct (poll_iteration_push (set_stateCallback_ noop_callback w)
                tempStatus h1 status h2 states h3 Hc Hs Hne Hnz Hr)
      as [Ht _].
    rewrite Ht. reflexivity.
Qed.

Lemma push_after_state_device_shutdown_witness :
  trace (poll_iteration 4)
    (snd (ChrolisStateDevice_Shutdown
            (bench_world true (healthy 0 [1; 1; 0; 1; 1; 1]) 4 all_off
               bench_levels)))
  = [EvFacade CallIsDeviceConnected; EvFacade CallGetDeviceStatus;
     EvFacade CallVerifyLEDEnableStatesWithLock;
     EvFacade CallGetLEDEnableStates;
     EvPropertyChanged "Device Status" "Interlock is Open";
     EvSleep 500].
Proof.
  refine (proj2 (proj2 (push_after_state_device_shutdown
                          (bench_world true (healthy 0 [1; 1; 0; 1; 1; 1]) 4
                             all_off bench_levels)
                          4 0 (healthy 0 [1; 1; 0; 1; 1; 1])
                          (healthy 0 [1; 1; 0; 1; 1; 1])
                          (healthy 0 [1; 1; 0; 1; 1; 1])
                          [1; 1; 0; 1; 1; 1] _ _ _ _ _ _)));
    try reflexivity; discriminate.
Defined.

Lemma poll_iteration_stores {HW : Type} {dev : DeviceFacade HW}
  (w : @World HW) (tempStatus status : Z) (h1 h2 : HW) :
  facade_IsDeviceConnected (ChrolisDevice w) = (true, h1) ->
  facade_GetDeviceStatus tempStatus h1 = (0, status, h2) ->
  fst (poll_iteration tempStatus w) = (NextIteration, status) /\
  currentDeviceStatusCode_ (snd (poll_iteration tempStatus w)) = status /\
  threadRunning_ (snd (poll_iteration tempStatus w)) = threadRunning_ w.
Proof.
  intros Hc Hs. unfold poll_iteration. run_adapter.
  paths; repeat split.
Qed.

(** X23.  The status text lags by one turn only: the turn after any turn that
    read code [status], if it reads [status] again, republishes the
    decoding of [status] and pushes nothing. *)
Theorem status_text_catches_up {HW : Type} {dev : DeviceFacade HW}
  (w : @World HW) (tempStatus status : Z) (h1 h2 h1' h2' : HW) :
  facade_IsDeviceConnected (ChrolisDevice w) = (true, h1) ->
  facade_GetDeviceStatus tempStatus h1 = (0, status, h2) ->
  facade_IsDeviceConnected
    (ChrolisDevice (snd (poll_iteration tempStatus w))) = (true, h1') ->
  facade_GetDeviceStatus status h1' = (0, status, h2') ->
  trace (poll_iteration status) (snd (poll_iteration tempStatus w)) =
    [EvFacade CallIsDeviceConnected; EvFacade CallGetDeviceStatus;
     EvPropertyChanged "Device Status" (decodeStatus status);
     EvSleep 500].
Proof.
  intros Hc Hs Hc' Hs'.
  destruct (poll_iteration_stores w tempStatus status h1 h2 Hc Hs)
    as (_ & Hstored & _).
  destruct (poll_iteration_quiet (snd (poll_iteration tempStatus w))
              status h1' status h2' Hc' Hs' (or_introl Hstored))
    as [Ht _].
  rewrite Ht, Hstored. reflexivity.
Qed.

Lemma status_text_catches_up_witness :
  trace (poll_iteration 4)
    (snd (poll_iteration 0
            (bench_world true (healthy 4 all_off) 0 all_off bench_levels)))
  = [EvFacade CallIsDeviceConnected; EvFacade CallGetDeviceStatus;
     EvPropertyChanged "Device Status" "Interlock is Open"; EvSleep 500].
Proof.
  apply (status_text_catches_up
           (bench_world true (healthy 4 all_off) 0 all_off bench_levels)
           0 4 (healthy 4 all_off) (healthy 4 all_off) (healthy 4 all_off)
           (healthy 4 all_off)); reflexivity.
Defined.

(** ** Initialisation *)

Create HintDb setup.

#[export] Hint Unfold site_trace ibind iret lift iwhen wrapper_call host_call
  InitializeDevice GetSerialNumber GetManufacturerName GetLEDWavelengths
  GetLEDBrightnessStates_member GetProperty CreateStringProperty
  CreateIntegerProperty SetPropertyLimits SetPositionLabel : setup.

#[global] Arguments format_wavelengths : simpl never.

(** Follow every path of an initialisation. *)
Ltac setup_paths :=
  repeat (try autounfold with setup; try autounfold with adapter; cbn;
          match goal with
          | |- context [let (_, _) := ?e in _] => plain e; destruct e eqn:?
          | |- context [if ?b then _ else _] => plain b; destruct b eqn:?
          end);
  try autounfold with setup; try autounfold with adapter; cbn.

(** X24.  The wavelength list is the six numerals joined by [", "], with no
    separator after the last. *)
Theorem format_wavelengths_joins (wavelengths : list Z) :
  List.length wavelengths = 6%nat ->
  format_wavelengths wavelengths
  = String.concat ", " (map to_string wavelengths).
Proof.
  intro Hlen.
  do 6 (destruct wavelengths as [|? wavelengths]; [discriminate Hlen|]).
  destruct wavelengths; [|discriminate Hlen].
  unfold format_wavelengths, wavelength_step.
  cbn [fold_left seq nth Nat.eqb negb map String.concat].
  rewrite !append_assoc. reflexivity.
Qed.

Lemma format_wavelengths_joins_witness :
  format_wavelengths [365; 405; 470; 530; 590; 625]
  = String.concat ", "
      (map to_string [365; 405; 470; 530; 590; 625]).
Proof. apply format_wavelengths_joins. reflexivity. Defined.

(** Every run of [ChrolisHub::Initialize], by the answers of the base
    class and of the instrument along it. *)
Lemma ChrolisHub_Initialize_run {HW P : Type} {dev : DeviceFacade HW}
  {setup : SetupFacade HW} {host : HostServices P}
  (s : @Site HW P) (locals : Uninitialised) (deviceStatusMessage_ : string)
  (buf sNum manfName : string) (wavelengths : list Z)
  (connect_err wavelengths_err e1 e2 e3 e4 : Z) (h1 h2 h3 h4 : HW)
  (p0 p1 p2 p3 p4 : P) :
  host_GetProperty "Serial Number" (buf0 locals) (site_base s) = (buf, p0) ->
  facade_InitializeDevice (c_str buf) (ChrolisDevice (site_world s))
  = (connect_err, h1) ->
  facade_GetSerialNumber (sNum0 locals) h1 = (sNum, h2) ->
  host_CreateStringProperty "Device Serial Number" (c_str sNum) true p0
  = (e1, p1) ->
  facade_GetManufacturerName (manfName0 locals) h2 = (manfName, h3) ->
  host_CreateStringProperty "Manufacturer Name" (c_str manfName) true p1
  = (e2, p2) ->
  facade_GetLEDWavelengths (wavelengths0 locals) h3
  = (wavelengths_err, wavelengths, h4) ->
  host_CreateStringProperty "Available Wavelengths"
    (c_str (format_wavelengths wavelengths)) true p2 = (e3, p3) ->
  host_CreateStringProperty "Device Status" (c_str deviceStatusMessage_)
    true p3 = (e4, p4) ->
  exists code w p n,
    ChrolisHub_Initialize locals deviceStatusMessage_ s
    = (code,
       mkSite w p
         (site_calls s ++
          firstn n (hub_setup_calls buf sNum manfName wavelengths
                      deviceStatusMessage_))) /\
    ((connect_err <> 0 /\ code = connect_err /\ n = 2%nat /\
      threadRunning_ w = threadRunning_ (site_world s)) \/
     (connect_err = 0 /\ e1 <> 0 /\ code = DEVICE_ERR /\ n = 4%nat /\
      threadRunning_ w = threadRunning_ (site_world s)) \/
     (connect_err = 0 /\ e1 = 0 /\ e2 <> 0 /\ code = DEVICE_ERR /\
      n = 6%nat /\ threadRunning_ w = threadRunning_ (site_world s)) \/
     (connect_err = 0 /\ e1 = 0 /\ e2 = 0 /\ wavelengths_err <> 0 /\
      code = wavelengths_err /\ n = 7%nat /\
      threadRunning_ w = threadRunning_ (site_world s)) \/
     (connect_err = 0 /\ e1 = 0 /\ e2 = 0 /\ wavelengths_err = 0 /\
      e3 <> 0 /\ code = DEVICE_ERR /\ n = 8%nat /\
      threadRunning_ w = threadRunning_ (site_world s)) \/
     (connect_err = 0 /\ e1 = 0 /\ e2 = 0 /\ wavelengths_err = 0 /\
      e3 = 0 /\ e4 <> 0 /\ code = DEVICE_ERR /\ n = 9%nat /\
      threadRunning_ w = threadRunning_ (site_world s)) \/
     (connect_err = 0 /\ e1 = 0 /\ e2 = 0 /\ wavelengths_err = 0 /\
      e3 = 0 /\ e4 = 0 /\ code = DEVICE_OK /\ n = 10%nat /\
      threadRunning_ w = true)).
Proof.
  intros Hbuf Hconnect HsNum H1 Hmanf H2 Hwl H3 H4.
  unfold ChrolisHub_Initialize, hub_setup_calls.
  autounfold with setup. autounfold with adapter. cbn.
  change (c_str "Serial Number") with "Serial Number".
  change (c_str "Device Serial Number") with "Device Serial Number".
  change (c_str "Manufacturer Name") with "Manufacturer Name".
  change (c_str "Available Wavelengths") with "Available Wavelengths".
  change (c_str "Device Status") with "Device Status".
  rewrite Hbuf. cbn. rewrite Hconnect. cbn.
  destruct (Z.eqb_spec connect_err 0) as [-> | Hc]; cbn.
  2: { do 3 eexists. exists 2%nat. split; [rewrite <- ?app_assoc; reflexivity|].
       left; repeat split; auto. }
  rewrite HsNum. cbn. rewrite H1. cbn.
  destruct (Z.eqb_spec e1 0) as [-> | He1]; cbn.
  2: { do 3 eexists. exists 4%nat. split; [rewrite <- ?app_assoc; reflexivity|].
       right; left; repeat split; auto. }
  rewrite Hmanf. cbn. rewrite H2. cbn.
  destruct (Z.eqb_spec e2 0) as [-> | He2]; cbn.
  2: { do 3 eexists. exists 6%nat. split; [rewrite <- ?app_assoc; reflexivity|].
       right; right; left; repeat split; auto. }
  rewrite Hwl. cbn.
  destruct (Z.eqb_spec wavelengths_err 0) as [-> | Hw]; cbn.
  2: { do 3 eexists. exists 7%nat.
       split; [rewrite <- ?app_assoc; reflexivity|].
       right; right; right; left; repeat split; auto. }
  rewrite H3. cbn.
  destruct (Z.eqb_spec e3 0) as [-> | He3]; cbn.
  2: { do 3 eexists. exists 8%nat.
       split; [rewrite <- ?app_assoc; reflexivity|].
       right; right; right; right; left; repeat split; auto. }
  rewrite H4. cbn.
  destruct (Z.eqb_spec e4 0) as [-> | He4]; cbn.
  2: { do 3 eexists. exists 9%nat.
       split; [rewrite <- ?app_assoc; reflexivity|].
       right; right; right; right; right; left; repeat split; auto. }
  do 3 eexists. exists 10%nat.
  split; [rewrite <- ?app_assoc; reflexivity|].
       right; right; right; right; right; right; repeat split; auto.
Qed.

Lemma ChrolisStateDevice_Initialize_cases {HW P : Type}
  {dev : DeviceFacade HW} {setup : SetupFacade HW} {host : HostServices P}
  {codes : ErrorCodes} {limits : BrightnessLimits} (s : @Site HW P) :
  exists code w p calls,
    ChrolisStateDevice_Initialize s
    = (code, mkSite w p (site_calls s ++ calls)) /\
    ((hasParentHub (site_world s) = false /\
      code = ERR_HUB_NOT_AVAILABLE /\ calls = [] /\
      stateCallback_ w = stateCallback_ (site_world s) /\
      ledStates_ w = ledStates_ (site_world s)) \/
     (hasParentHub (site_world s) = true /\
      stateCallback_ w = state_handler /\
      firstn 6 calls = map position_label (seq 0 NUM_LEDS) /\
      Forall (initial_value_agrees
                (fst (facade_IsDeviceConnected
                        (ChrolisDevice (site_world s)))) w) calls /\
      ((code = DEVICE_OK /\
        created_kinds calls = state_device_properties /\
        filter is_limits calls
        = map power_limits (seq 0 NUM_LEDS)
          ++ map enable_limits (seq 0 NUM_LEDS)) \/
       (code <> DEVICE_OK /\
        exists n, (1 <= n <= 13)%nat /\
                  created_kinds calls = firstn n state_device_properties /\
                  (code = DEVICE_ERR \/ n = 1%nat))))).
Proof.
  unfold ChrolisStateDevice_Initialize, DEVICE_OK, DEVICE_ERR.
  setup_paths;
    repeat match goal with
           | H : negb (_ =? 0) = true |- _ =>
               apply negb_true_iff, Z.eqb_neq in H
           | H : negb (hasParentHub _) = true |- _ =>
               apply negb_true_iff in H
           | H : negb (hasParentHub _) = false |- _ =>
               apply negb_false_iff in H
           end;
    do 4 eexists;
    (split;
     [first [ rewrite <- ?app_assoc; reflexivity
            | exact (f_equal (fun c => (_, mkSite _ _ c))
                       (eq_sym (app_nil_r (site_calls s)))) ]|]).
  all: cbn [app].
  all: try (left; repeat split; assumption).
  all: right; (split; [assumption|]); (split; [reflexivity|]);
    (split; [reflexivity|]);
    (split; [repeat constructor|]).
  all: try (left; repeat split; reflexivity).
  all: right; (split; [first [assumption | discriminate]|]).
  all: first
         [ exists 1%nat; split; [lia|]; split; [reflexivity|]; now right
         | exists 2%nat; split; [lia|]; split; [reflexivity|]; now left
         | exists 3%nat; split; [lia|]; split; [reflexivity|]; now left
         | exists 4%nat; split; [lia|]; split; [reflexivity|]; now left
         | exists 5%nat; split; [lia|]; split; [reflexivity|]; now left
         | exists 6%nat; split; [lia|]; split; [reflexivity|]; now left
         | exists 7%nat; split; [lia|]; split; [reflexivity|]; now left
         | exists 8%nat; split; [lia|]; split; [reflexivity|]; now left
         | exists 9%nat; split; [lia|]; split; [reflexivity|]; now left
         | exists 10%nat; split; [lia|]; split; [reflexivity|]; now left
         | exists 11%nat; split; [lia|]; split; [reflexivity|]; now left
         | exists 12%nat; split; [lia|]; split; [reflexivity|]; now left
         | exists 13%nat; split; [lia|]; split; [reflexivity|]; now left ].
Qed.

(** X25.  [ChrolisHub::Initialize], with the answers it gets named in
    program order: the serial number the base class delivers is what
    [InitializeDevice] is called with, and what the instrument delivers
    as serial number, manufacturer name and wavelengths is what the
    properties are asked for with, the wavelengths as the formatted
    list.  It returns [DEVICE_OK] exactly when all six answers are 0,
    and then it has set the running flag and started the polling thread
    after those calls.  Otherwise the flag is untouched and no thread is
    started; it stops at the first answer that is not 0 and returns that
    answer when it is [InitializeDevice]'s or [GetLEDWavelengths]'s, and
    [DEVICE_ERR] when it is the base class's. *)
Theorem ChrolisHub_Initialize_outcome {HW P : Type} {dev : DeviceFacade HW}
  {setup : SetupFacade HW} {host : HostServices P}
  (s : @Site HW P) (locals : Uninitialised) (deviceStatusMessage_ : string)
  (buf sNum manfName : string) (wavelengths : list Z)
  (connect_err wavelengths_err e1 e2 e3 e4 : Z) (h1 h2 h3 h4 : HW)
  (p0 p1 p2 p3 p4 : P) :
  host_GetProperty "Serial Number" (buf0 locals) (site_base s) = (buf, p0) ->
  facade_InitializeDevice (c_str buf) (ChrolisDevice (site_world s))
  = (connect_err, h1) ->
  facade_GetSerialNumber (sNum0 locals) h1 = (sNum, h2) ->
  host_CreateStringProperty "Device Serial Number" (c_str sNum) true p0
  = (e1, p1) ->
  facade_GetManufacturerName (manfName0 locals) h2 = (manfName, h3) ->
  host_CreateStringProperty "Manufacturer Name" (c_str manfName) true p1
  = (e2, p2) ->
  facade_GetLEDWavelengths (wavelengths0 locals) h3
  = (wavelengths_err, wavelengths, h4) ->
  host_CreateStringProperty "Available Wavelengths"
    (c_str (format_wavelengths wavelengths)) true p2 = (e3, p3) ->
  host_CreateStringProperty "Device Status" (c_str deviceStatusMessage_)
    true p3 = (e4, p4) ->
  (fst (ChrolisHub_Initialize locals deviceStatusMessage_ s) = DEVICE_OK <->
   connect_err = 0 /\ e1 = 0 /\ e2 = 0 /\ wavelengths_err = 0 /\
   e3 = 0 /\ e4 = 0) /\
  (fst (ChrolisHub_Initialize locals deviceStatusMessage_ s) = DEVICE_OK ->
   threadRunning_
     (site_world (snd (ChrolisHub_Initialize locals deviceStatusMessage_ s)))
   = true /\
   site_trace (ChrolisHub_Initialize locals deviceStatusMessage_) s
   = hub_setup_calls buf sNum manfName wavelengths deviceStatusMessage_) /\
  (fst (ChrolisHub_Initialize locals deviceStatusMessage_ s) <> DEVICE_OK ->
   threadRunning_
     (site_world (snd (ChrolisHub_Initialize locals deviceStatusMessage_ s)))
   = threadRunning_ (site_world s) /\
   ~ In StartPollingThread
       (site_trace (ChrolisHub_Initialize locals deviceStatusMessage_) s) /\
   exists n,
     (n <= 4)%nat /\
     created_kinds
       (site_trace (ChrolisHub_Initialize locals deviceStatusMessage_) s)
     = firstn n hub_properties) /\
  (connect_err <> 0 ->
   fst (ChrolisHub_Initialize locals deviceStatusMessage_ s) = connect_err /\
   site_trace (ChrolisHub_Initialize locals deviceStatusMessage_) s
   = firstn 2 (hub_setup_calls buf sNum manfName wavelengths
                 deviceStatusMessage_)) /\
  (connect_err = 0 -> e1 <> 0 ->
   fst (ChrolisHub_Initialize locals deviceStatusMessage_ s) = DEVICE_ERR /\
   site_trace (ChrolisHub_Initialize locals deviceStatusMessage_) s
   = firstn 4 (hub_setup_calls buf sNum manfName wavelengths
                 deviceStatusMessage_)) /\
  (connect_err = 0 -> e1 = 0 -> e2 <> 0 ->
   fst (ChrolisHub_Initialize locals deviceStatusMessage_ s) = DEVICE_ERR /\
   site_trace (ChrolisHub_Initialize locals deviceStatusMessage_) s
   = firstn 6 (hub_setup_calls buf sNum manfName wavelengths
                 deviceStatusMessage_)) /\
  (connect_err = 0 -> e1 = 0 -> e2 = 0 -> wavelengths_err <> 0 ->
   fst (ChrolisHub_Initialize locals deviceStatusMessage_ s)
   = wavelengths_err /\
   site_trace (ChrolisHub_Initialize locals deviceStatusMessage_) s
   = firstn 7 (hub_setup_calls buf sNum manfName wavelengths
                 deviceStatusMessage_)) /\
  (connect_err = 0 -> e1 = 0 -> e2 = 0 -> wavelengths_err = 0 -> e3 <> 0 ->
   fst (ChrolisHub_Initialize locals deviceStatusMessage_ s) = DEVICE_ERR /\
   site_trace (ChrolisHub_Initialize locals deviceStatusMessage_) s
   = firstn 8 (hub_setup_calls buf sNum manfName wavelengths
                 deviceStatusMessage_)) /\
  (connect_err = 0 -> e1 = 0 -> e2 = 0 -> wavelengths_err = 0 -> e3 = 0 ->
   e4 <> 0 ->
   fst (ChrolisHub_Initialize locals deviceStatusMessage_ s) = DEVICE_ERR /\
   site_trace (ChrolisHub_Initialize locals deviceStatusMessage_) s
   = firstn 9 (hub_setup_calls buf sNum manfName wavelengths
                 deviceStatusMessage_)).
Proof.
  intros Hbuf Hconnect HsNum H1 Hmanf H2 Hwl H3 H4.
  destruct (ChrolisHub_Initialize_run s locals deviceStatusMessage_
              buf sNum manfName wavelengths connect_err wavelengths_err
              e1 e2 e3 e4 h1 h2 h3 h4 p0 p1 p2 p3 p4
              Hbuf Hconnect HsNum H1 Hmanf H2 Hwl H3 H4)
    as (code & w & p & n & Heq & Hcases).
  unfold site_trace. rewrite Heq. cbn [fst snd site_world site_calls].
  rewrite skipn_app_exact.
  unfold DEVICE_OK, DEVICE_ERR in *.
  assert (Hprefix :
            forall k, In k [2; 4; 6; 7; 8; 9]%nat ->
              ~ In StartPollingThread
                  (firstn k (hub_setup_calls buf sNum manfName wavelengths
                               deviceStatusMessage_)) /\
              exists m, (m <= 4)%nat /\
                created_kinds
                  (firstn k (hub_setup_calls buf sNum manfName wavelengths
                               deviceStatusMessage_))
                = firstn m hub_properties).
  { intros k Hk. simpl in Hk.
    repeat (destruct Hk as [<- | Hk]); [..|destruct Hk].
    all: split; [simpl; intuition discriminate|].
    1: exists 0%nat. 2: exists 1%nat. 3: exists 2%nat. 4: exists 2%nat.
    5: exists 3%nat. 6: exists 4%nat.
    all: split; [lia | reflexivity]. }
  decompose [and or] Hcases; clear Hcases; subst.
  all: repeat split; try tauto; try lia; try congruence;
    try discriminate; try reflexivity.
  all: try (intros; exfalso; congruence).
  all: try (intro Hne; apply Hprefix; simpl; tauto).
  all: try (intros _; apply Hprefix; simpl; tauto).
  all: first [ refine (proj1 (Hprefix _ _)); simpl; tauto
             | refine (proj2 (Hprefix _ _)); simpl; tauto ].
Qed.

Lemma ChrolisHub_Initialize_outcome_witness :
  (fst (ChrolisHub_Initialize bench_locals "No Error"
          (bench_site
             (set_threadRunning_ false
                (bench_world true (healthy 0 all_off) 0 all_off
                   bench_levels)) []))
   = DEVICE_OK /\
   site_trace (ChrolisHub_Initialize bench_locals "No Error")
     (bench_site
        (set_threadRunning_ false
           (bench_world true (healthy 0 all_off) 0 all_off bench_levels)) [])
   = hub_setup_calls "M00511111" "M00511111" "Thorlabs"
       [365; 405; 470; 530; 590; 625] "No Error") /\
  fst (ChrolisHub_Initialize bench_locals "No Error"
         (bench_site
            (bench_world true (read_failing 9 all_off) 0 all_off
               bench_levels) []))
  = 9.
Proof.
  split.
  - destruct (ChrolisHub_Initialize_outcome
                (bench_site
                   (set_threadRunning_ false
                      (bench_world true (healthy 0 all_off) 0 all_off
                         bench_levels)) [])
                bench_locals "No Error"
                "M00511111" "M00511111" "Thorlabs"
                [365; 405; 470; 530; 590; 625] 0 0 0 0 0 0
                (healthy 0 all_off) (healthy 0 all_off) (healthy 0 all_off)
                (healthy 0 all_off)
                (mkDesk "M00511111" [] [])
                (mkDesk "M00511111" ["Device Serial Number"] [])
                (mkDesk "M00511111"
                   ["Device Serial Number"; "Manufacturer Name"] [])
                (mkDesk "M00511111"
                   ["Device Serial Number"; "Manufacturer Name";
                    "Available Wavelengths"] [])
                (mkDesk "M00511111"
                   ["Device Serial Number"; "Manufacturer Name";
                    "Available Wavelengths"; "Device Status"] []))
      as (Hiff & Hok & _).
    1-9: reflexivity.
    assert (Hcode := proj2 Hiff
                       (conj eq_refl (conj eq_refl (conj eq_refl
                          (conj eq_refl (conj eq_refl eq_refl)))))).
    split; [exact Hcode | exact (proj2 (Hok Hcode))].
  - destruct (ChrolisHub_Initialize_outcome
                (bench_site
                   (bench_world true (read_failing 9 all_off) 0 all_off
                      bench_levels) [])
                bench_locals "No Error"
                "M00511111" "M00511111" "Thorlabs"
                [0; 0; 0; 0; 0; 0] 0 9 0 0 0 0
                (read_failing 9 all_off) (read_failing 9 all_off)
                (read_failing 9 all_off) (read_failing 9 all_off)
                (mkDesk "M00511111" [] [])
                (mkDesk "M00511111" ["Device Serial Number"] [])
                (mkDesk "M00511111"
                   ["Device Serial Number"; "Manufacturer Name"] [])
                (mkDesk "M00511111"
                   ["Device Serial Number"; "Manufacturer Name";
                    "Available Wavelengths"] [])
                (mkDesk "M00511111"
                   ["Device Serial Number"; "Manufacturer Name";
                    "Available Wavelengths"; "Device Status"] []))
      as (_ & _ & _ & _ & _ & _ & Hwl & _).
    1-9: reflexivity.
    apply Hwl; try reflexivity. discriminate.
Defined.




(** X27.  Every integer property [ChrolisStateDevice::Initialize] asks for
    starts from the last-known cells it leaves: a brightness or an enable
    flag from the cell of its LED, the aggregate from the encoding of the
    enable cells when the instrument was connected and from 0 when it
    was not. *)
Theorem ChrolisStateDevice_Initialize_initial_values {HW P : Type}
  {dev : DeviceFacade HW} {setup : SetupFacade HW} {host : HostServices P}
  {codes : ErrorCodes} {limits : BrightnessLimits} (s : @Site HW P) :
  Forall
    (initial_value_agrees
       (fst (facade_IsDeviceConnected (ChrolisDevice (site_world s))))
       (site_world (snd (ChrolisStateDevice_Initialize s))))
    (site_trace ChrolisStateDevice_Initialize s).
Proof.
  destruct (ChrolisStateDevice_Initialize_cases s)
    as (code & w & p & calls & Heq & Hcases).
  unfold site_trace. rewrite Heq. cbn [fst snd site_world site_calls].
  rewrite skipn_app_exact.
  destruct Hcases as [(_ & _ & Hcalls & _) | (_ & _ & _ & Hall & _)].
  - subst calls. constructor.
  - exact Hall.
Qed.

(** X28.  The handler the state device installs notifies, for the aggregate
    (index 0) and for LED [i] (index [i + 1]), exactly the property that
    its [Initialize] binds to [OnState] and to [OnEnableStateChange] with
    index [i]; any other index is dropped. *)
Theorem state_handler_names_match_properties (i : nat) (ledNum state : Z) :
  (state_handler 0 state
   = [EvPropertyChanged (kind_name (IntegerProperty "State" false ActOnState))
        (string_of_Z state)]) /\
  ((i < NUM_LEDS)%nat ->
   In (enable_kind i) state_device_properties /\
   state_handler (Z.of_nat i + 1) state
   = [EvPropertyChanged (kind_name (enable_kind i))
        (string_of_Z (to_uint16 state))]) /\
  (ledNum < 0 \/ 6 < ledNum -> state_handler ledNum state = []).
Proof.
  split; [|split].
  - unfold state_handler. cbn [Z.eqb]. now rewrite c_str_stream_num.
  - intro Hi. unfold NUM_LEDS in Hi.
    do 6 (destruct i as [|i];
          [split;
           [unfold state_device_properties; cbn; tauto
           | unfold state_handler; cbn [Z.of_nat Z.add Z.eqb Z.leb andb
                                        Pos.of_succ_nat Pos.succ Pos.add
                                        Z.compare Pos.compare
                                        Pos.compare_cont];
             rewrite c_str_stream_num; reflexivity]|]).
    lia.
  - intros Hout. unfold state_handler.
    destruct (Z.eqb_spec ledNum 0); [lia|].
    destruct (Z.leb_spec 1 ledNum), (Z.leb_spec ledNum 6); cbn; try lia;
      reflexivity.
Qed.

Lemma state_handler_names_match_properties_witness :
  state_handler 3 1 = [EvPropertyChanged "LED Enable State 3" "1"] /\
  state_handler 7 1 = [].
Proof.
  destruct (state_handler_names_match_properties 2 7 1)
    as (_ & Hled & Hout).
  split.
  - apply Hled. unfold NUM_LEDS. lia.
  - apply Hout. right. lia.
Defined.
